(** * AmazondataEDA: the sales-data generator and the dashboard's query layer

    A shallow embedding of [generate_amazon_data.py] (the synthetic data
    generator) and of the filtering and aggregation code of [app.py] (the
    Streamlit dashboard), with the properties of the specification stated
    and settled against them.

    Conventions.
    - A DataFrame is the list of its rows, in index order.
    - A float is held as the rational it denotes ([Q]); each arithmetic
      operation rounds its exact result to binary64 ([Float64]).
    - A value that the generator stores after [round(x, 2)] is held as its
      integer number of hundredths ([Z]).
    - The outcomes of the random draws of one loop iteration are an input
      (a [Draws] record); [valid_draws] says each lies in the support of
      the call that draws it.
    - A Python exception is the [Raise] branch of [result]; a NaN is [None]. *)

From Stdlib Require Import ZArith List String Ascii Bool Lia.
From Stdlib Require Import QArith Qround Qabs Qpower.
From Stdlib Require Import SpecFloat.
From Stdlib Require Import Permutation Sorted.
From Stdlib Require Import Reals Psatz.
Import ListNotations.

Local Open Scope string_scope.
Local Open Scope Z_scope.

(* ================================================================== *)
(** ** Exceptions *)

Inductive exn : Set :=
| ValueError
| KeyError.

Inductive result (A : Type) : Type :=
| Ok (a : A)
| Raise (e : exn).

Arguments Ok {A} a.
Arguments Raise {A} e.

Definition bind {A B : Type} (c : result A) (k : A -> result B) : result B :=
  match c with
  | Ok a => k a
  | Raise e => Raise e
  end.

Notation "x <- c ;; k" := (bind c (fun x => k))
  (at level 61, c at next level, right associativity).

Fixpoint mapM {A B : Type} (f : A -> result B) (l : list A) : result (list B) :=
  match l with
  | [] => Ok []
  | a :: t => b <- f a ;; bs <- mapM f t ;; Ok (b :: bs)
  end.

(* ================================================================== *)
(** ** Calendar dates (Python's [datetime], pandas' [to_datetime]) *)

Module Calendar.

Record date : Set := mkdate { year : Z; month : Z; day : Z }.

Definition date_eqb (a b : date) : bool :=
  (year a =? year b) && (month a =? month b) && (day a =? day b).

(** Python compares dates as the tuples (year, month, day). *)
Definition date_ltb (a b : date) : bool :=
  (year a <? year b)
  || ((year a =? year b)
      && ((month a <? month b)
          || ((month a =? month b) && (day a <? day b)))).

Definition date_leb (a b : date) : bool := negb (date_ltb b a).

Definition is_leap (y : Z) : bool :=
  (y mod 4 =? 0) && (negb (y mod 100 =? 0) || (y mod 400 =? 0)).

(** [_DAYS_IN_MONTH] and [_DAYS_BEFORE_MONTH] of [datetime.py]. *)
Definition DAYS_IN_MONTH (m : Z) : Z :=
  match m with
  | 1 => 31 | 2 => 28 | 3 => 31 | 4 => 30 | 5 => 31 | 6 => 30
  | 7 => 31 | 8 => 31 | 9 => 30 | 10 => 31 | 11 => 30 | 12 => 31
  | _ => 0
  end.

Definition DAYS_BEFORE_MONTH (m : Z) : Z :=
  match m with
  | 1 => 0 | 2 => 31 | 3 => 59 | 4 => 90 | 5 => 120 | 6 => 151
  | 7 => 181 | 8 => 212 | 9 => 243 | 10 => 273 | 11 => 304 | 12 => 334
  | _ => 0
  end.

Definition b2z (b : bool) : Z := if b then 1 else 0.

Definition days_before_year (y : Z) : Z :=
  let y := y - 1 in y * 365 + y / 4 - y / 100 + y / 400.

Definition days_in_month (y m : Z) : Z :=
  if (m =? 2) && is_leap y then 29 else DAYS_IN_MONTH m.

Definition days_before_month (y m : Z) : Z :=
  DAYS_BEFORE_MONTH m + b2z ((2 <? m) && is_leap y).

Definition ymd2ord (y m d : Z) : Z :=
  days_before_year y + days_before_month y m + d.

Definition toordinal (a : date) : Z := ymd2ord (year a) (month a) (day a).

Definition DI400Y : Z := 146097.
Definition DI100Y : Z := 36524.
Definition DI4Y : Z := 1461.

(** [_ord2ymd]: ordinal 1 is 0001-01-01. *)
Definition fromordinal (n : Z) : date :=
  let n := n - 1 in
  let n400 := n / DI400Y in
  let n := n mod DI400Y in
  let y := n400 * 400 + 1 in
  let n100 := n / DI100Y in
  let n := n mod DI100Y in
  let n4 := n / DI4Y in
  let n := n mod DI4Y in
  let n1 := n / 365 in
  let n := n mod 365 in
  let y := y + n100 * 100 + n4 * 4 + n1 in
  if (n1 =? 4) || (n100 =? 4) then mkdate (y - 1) 12 31
  else
    let leapyear := (n1 =? 3) && (negb (n4 =? 24) || (n100 =? 3)) in
    let m := Z.shiftr (n + 50) 5 in
    let preceding := DAYS_BEFORE_MONTH m + b2z ((2 <? m) && leapyear) in
    let '(m, preceding) :=
      if n <? preceding
      then (m - 1,
            preceding - (DAYS_IN_MONTH (m - 1) + b2z ((m - 1 =? 2) && leapyear)))
      else (m, preceding) in
    mkdate y m (n - preceding + 1).

(** [d + timedelta(days=k)]. *)
Definition add_days (a : date) (k : Z) : date := fromordinal (toordinal a + k).

(** [date.weekday()], pandas' [.dt.dayofweek]: Monday is 0. *)
Definition weekday (a : date) : Z := (toordinal a + 6) mod 7.

(** pandas' [.dt.quarter]. *)
Definition quarter (a : date) : Z := (month a - 1) / 3 + 1.

(** *** Decimal text *)

Definition digit_char (d : Z) : ascii := ascii_of_nat (48 + Z.to_nat d).

Fixpoint digits_acc (fuel : nat) (n : Z) (acc : string) : string :=
  match fuel with
  | O => acc
  | S fuel' =>
      let acc' := String (digit_char (n mod 10)) acc in
      if n / 10 =? 0 then acc' else digits_acc fuel' (n / 10) acc'
  end.

(** [str(n)] for a natural number [n]. *)
Definition str_of_int (n : Z) : string :=
  digits_acc (S (Z.to_nat (Z.log2 n))) n "".

Fixpoint zeros (k : nat) : string :=
  match k with
  | O => ""
  | S k' => String "0" (zeros k')
  end.

(** Zero padding to a width, as the [%Y], [%m] and [%d] directives do. *)
Definition zfill (width : nat) (s : string) : string :=
  zeros (width - String.length s) ++ s.

(** [d.strftime('%Y-%m-%d')]. *)
Definition strftime (a : date) : string :=
  zfill 4 (str_of_int (year a)) ++ "-"
  ++ zfill 2 (str_of_int (month a)) ++ "-"
  ++ zfill 2 (str_of_int (day a)).

Definition digit_val (c : ascii) : option Z :=
  let n := Z.of_nat (nat_of_ascii c) in
  if (48 <=? n) && (n <=? 57) then Some (n - 48) else None.

Fixpoint number_of (cs : list ascii) (acc : Z) : option Z :=
  match cs with
  | [] => Some acc
  | c :: t =>
      match digit_val c with
      | Some d => number_of t (10 * acc + d)
      | None => None
      end
  end.

(** A calendar date that a pandas Timestamp can hold: nanoseconds
    since 1970 in 64 bits reach from 1677-09-21 to 2262-04-11, of which the
    whole years 1678 to 2261 are taken. *)
Definition valid_ymd (y m d : Z) : bool :=
  (1678 <=? y) && (y <=? 2261) && (1 <=? m) && (m <=? 12) && (1 <=? d)
  && (d <=? days_in_month y m).

(** [pd.to_datetime] on the texts of a date column in the form the
    generator writes, YYYY-MM-DD.  A text of that form that names no
    calendar date raises [ValueError].  pandas reads other spellings too
    (slashes, no zero padding) and gives NaT for an empty cell; these lie
    outside the files considered here, and no statement on a failing load
    rests on them: such statements name [day_out_of_range] texts. *)
Definition to_datetime (s : string) : result date :=
  match list_ascii_of_string s with
  | [y1; y2; y3; y4; s1; m1; m2; s2; d1; d2] =>
      if (Ascii.eqb s1 "-") && (Ascii.eqb s2 "-") then
        match number_of [y1; y2; y3; y4] 0, number_of [m1; m2] 0,
              number_of [d1; d2] 0 with
        | Some y, Some m, Some d =>
            if valid_ymd y m d then Ok (mkdate y m d) else Raise ValueError
        | _, _, _ => Raise ValueError
        end
      else Raise ValueError
  | _ => Raise ValueError
  end.

(** The text has the form YYYY-MM-DD with a month from 01 to 12 and a
    day, at most 31, that this month does not have (2023-02-30,
    2023-04-31): pandas rejects it, "day is out of range for month". *)
Definition day_out_of_range (s : string) : bool :=
  match list_ascii_of_string s with
  | [y1; y2; y3; y4; s1; m1; m2; s2; d1; d2] =>
      (Ascii.eqb s1 "-") && (Ascii.eqb s2 "-")
      && match number_of [y1; y2; y3; y4] 0, number_of [m1; m2] 0,
               number_of [d1; d2] 0 with
         | Some y, Some m, Some d =>
             (1 <=? y) && (1 <=? m) && (m <=? 12)
             && (days_in_month y m <? d) && (d <=? 31)
         | _, _, _ => false
         end
  | _ => false
  end.

End Calendar.

Import Calendar.

(* ================================================================== *)
(** ** Rows of the dataset *)

Section Rows.

(** How a date column is held: text in the generator and in the file,
    a [date] once [load_data] has converted it. *)
Variable D : Type.

(** The [record] dictionary built by one iteration of the generator's
    loop.  Money fields are in hundredths. *)
Record Record_ : Type := mkRecord {
  Order_ID : string;
  Order_Date : D;
  Delivery_Date : D;
  Category : string;
  Subcategory : string;
  Product_Price : Z;
  Quantity : Z;
  Discount_Percent : Z;
  Discount_Amount : Z;
  Final_Price : Z;
  Payment_Method : string;
  Customer_Segment : string;
  City : string;
  Customer_Rating : Z;
  Review_Length : string;
  Delivery_Days : Z;
  Delivery_Status : string;
  Returned : string;
  Profit_Margin : Z
}.

(** A row of the DataFrame: the record and the derived columns. *)
Record Row : Type := mkRow {
  base :> Record_;
  Order_Month : Z;
  Order_DayOfWeek : Z;
  Order_Quarter : Z;
  Order_DayName : option string
}.

End Rows.

Arguments mkRecord {D}.
Arguments mkRow {D}.
Arguments Order_ID {D}.
Arguments Order_Date {D}.
Arguments Delivery_Date {D}.
Arguments Category {D}.
Arguments Subcategory {D}.
Arguments Product_Price {D}.
Arguments Quantity {D}.
Arguments Discount_Percent {D}.
Arguments Discount_Amount {D}.
Arguments Final_Price {D}.
Arguments Payment_Method {D}.
Arguments Customer_Segment {D}.
Arguments City {D}.
Arguments Customer_Rating {D}.
Arguments Review_Length {D}.
Arguments Delivery_Days {D}.
Arguments Delivery_Status {D}.
Arguments Returned {D}.
Arguments Profit_Margin {D}.
Arguments base {D}.
Arguments Order_Month {D}.
Arguments Order_DayOfWeek {D}.
Arguments Order_Quarter {D}.
Arguments Order_DayName {D}.

(* ================================================================== *)
(** ** Floating-point numbers (Python's [float], numpy's [float64]) *)

(** Rounding to the nearest integer, ties to the even one. *)
Definition round_half_even (x : Q) : Z :=
  let f := Qfloor x in
  match (x - inject_Z f ?= 1 # 2)%Q with
  | Lt => f
  | Gt => f + 1
  | Eq => if Z.even f then f else f + 1
  end.

(** A binary64 number is held as the rational it denotes.  An
    arithmetic operation returns its exact result rounded to the nearest
    number with a significand of 53 bits, ties to the even significand, as
    IEEE 754 has it.  The exponent of the last place is no smaller than
    -1074 (the subnormal numbers); the overflow to infinity beyond 2^1024 is
    left out, the amounts of the generator staying below 2^27. *)
Module Float64.

Definition pow2 (e : Z) : Q := (2 ^ e)%Q.

(** [floor (log2 x)] for a positive [x]: the difference of the bit
    lengths of numerator and denominator, or one less. *)
Definition ilog2 (x : Q) : Z :=
  let k := Z.log2 (Qnum x) - Z.log2 (Zpos (Qden x)) in
  if Qle_bool (pow2 k) x then k else k - 1.

(** The exponent of the last place of the significand of [x]. *)
Definition exponent (x : Q) : Z := Z.max (ilog2 (Qabs x) - 52) (-1074).

(** The binary64 number nearest to [x]. *)
Definition rnd (x : Q) : Q :=
  if Qeq_bool x 0 then 0%Q
  else
    let e := exponent x in
    Qred (inject_Z (round_half_even (x / pow2 e)) * pow2 e).

(** [x * y], [x - y] and [x / y] on floats. *)
Definition fmul (x y : Q) : Q := rnd (x * y).
Definition fsub (x y : Q) : Q := rnd (x - y).
Definition fdiv (x y : Q) : Q := rnd (x / y).

(** [np.rint]: the nearest integer, ties to even. *)
Definition rint (x : Q) : Z := round_half_even x.

(** [x] is a binary64 number. *)
Definition is_float (x : Q) : bool := Qeq_bool (rnd x) x.

(** The same operations in the standard library's specification of
    IEEE 754, on sign, significand and exponent, and the rational that
    such a datum denotes; the two are compared on sample amounts below. *)
Definition b64_mul : spec_float -> spec_float -> spec_float := SFmul 53 1024.
Definition b64_div : spec_float -> spec_float -> spec_float := SFdiv 53 1024.
Definition b64_sub : spec_float -> spec_float -> spec_float := SFsub 53 1024.
Definition b64_of_int (z : Z) : spec_float := binary_normalize 53 1024 z 0 false.

Definition of_spec (x : spec_float) : Q :=
  match x with
  | S754_finite s m e =>
      let v := (inject_Z (Zpos m) * pow2 e)%Q in
      if s then Qopp v else v
  | _ => 0%Q
  end.

End Float64.

Import Float64.

(* ================================================================== *)
(** ** generate_amazon_data.py *)

Module Generator.

Definition categories : list (string * list string) :=
  [ ("Electronics",
     ["Smartphones"; "Laptops"; "Headphones"; "Tablets"; "Cameras";
      "Smart Watches"]);
    ("Clothing",
     ["Men's Fashion"; "Women's Fashion"; "Kids' Fashion"; "Shoes";
      "Accessories"]);
    ("Books",
     ["Fiction"; "Non-Fiction"; "Educational"; "Children's Books"; "Comics"]);
    ("Home & Kitchen",
     ["Furniture"; "Kitchen Appliances"; "Decor"; "Bedding"; "Cookware"]);
    ("Sports & Outdoors",
     ["Fitness Equipment"; "Camping Gear"; "Sports Apparel";
      "Outdoor Recreation"]) ].

Definition payment_methods : list string :=
  ["Credit Card"; "Debit Card"; "UPI"; "Net Banking"; "Cash on Delivery";
   "Amazon Pay"].

Definition customer_segments : list string :=
  ["New"; "Regular"; "Prime"; "Premium"].

Definition cities : list string :=
  ["Mumbai"; "Delhi"; "Bangalore"; "Chennai"; "Kolkata"; "Pune";
   "Hyderabad"; "Ahmedabad"].

Definition start_date : date := mkdate 2023 1 1.

(** [categories[category]]. *)
Fixpoint subcategories_of (d : list (string * list string)) (category : string)
  : list string :=
  match d with
  | [] => []
  | (k, v) :: t => if (k =? category)%string then v else subcategories_of t category
  end.

(** The bounds passed to [np.random.uniform] by the branch that the
    category selects. *)
Definition price_range (category : string) : Q * Q :=
  if (category =? "Electronics")%string then (500, 150000)%Q
  else if (category =? "Clothing")%string then (200, 5000)%Q
  else if (category =? "Books")%string then (100, 2000)%Q
  else if (category =? "Home & Kitchen")%string then (300, 30000)%Q
  else (500, 20000)%Q.

(** The outcomes of the random draws of one iteration, in draw order. *)
Record Draws : Type := mkDraws {
  d_category : string;          (* random.choice(list(categories.keys())) *)
  d_subcategory : string;       (* random.choice(categories[category]) *)
  d_price : Q;                  (* np.random.uniform(lo, hi), a float *)
  d_quantity : Z;               (* np.random.randint(1, 6) *)
  d_discount_percent : Z;       (* np.random.choice([0, 5, ..., 30], p=...) *)
  d_rating : Z;                 (* np.random.choice([1, ..., 5], p=...) *)
  d_review_length : string;     (* np.random.choice(['Short', ...], p=...) *)
  d_delivery_days : Z;          (* np.random.randint(1, 11) *)
  d_delivery_status : string;   (* np.random.choice(['On Time', ...], p=...) *)
  d_return_status : string;     (* np.random.choice(['No', 'Yes'], p=...) *)
  d_customer_segment : string;  (* random.choice(customer_segments) *)
  d_payment_method : string;    (* random.choice(payment_methods) *)
  d_city : string;              (* random.choice(cities) *)
  d_day_offset : Z;             (* random.randint(0, 365) *)
  d_profit_factor : Q           (* np.random.uniform(0.2, 0.4), a float *)
}.

Definition mem (s : string) (l : list string) : bool := existsb (String.eqb s) l.
Definition memz (z : Z) (l : list Z) : bool := existsb (Z.eqb z) l.

(** A float with [low <= x < high], the range of [uniform(low, high)]. *)
Definition in_uniform (low high x : Q) : bool :=
  is_float x && Qle_bool low x && negb (Qle_bool high x).

(** [low <= k < high], the range of numpy's [randint(low, high)]. *)
Definition in_randint (low high k : Z) : bool := (low <=? k) && (k <? high).

(** Each outcome lies in the support of its draw. *)
Definition valid_draws (t : Draws) : bool :=
  mem (d_category t) (map fst categories)
  && mem (d_subcategory t) (subcategories_of categories (d_category t))
  && in_uniform (fst (price_range (d_category t)))
                (snd (price_range (d_category t))) (d_price t)
  && in_randint 1 6 (d_quantity t)
  && memz (d_discount_percent t) [0; 5; 10; 15; 20; 25; 30]
  && memz (d_rating t) [1; 2; 3; 4; 5]
  && mem (d_review_length t) ["Short"; "Medium"; "Long"]
  && in_randint 1 11 (d_delivery_days t)
  && mem (d_delivery_status t) ["On Time"; "Delayed"; "Early"]
  && mem (d_return_status t) ["No"; "Yes"]
  && mem (d_customer_segment t) customer_segments
  && mem (d_payment_method t) payment_methods
  && mem (d_city t) cities
  && ((0 <=? d_day_offset t) && (d_day_offset t <=? 365))
  && in_uniform (2 # 10) (4 # 10) (d_profit_factor t).

(** [round(x, 2)] on a Python float, as a number of hundredths: the
    float's own value is rounded to two decimals, ties to even. *)
Definition round2 (x : Q) : Z := round_half_even (x * 100)%Q.

(** [round(x, 2)] on a numpy float64, as a number of hundredths:
    numpy multiplies by 100 in floating point and takes [rint] of the
    product. *)
Definition np_round2 (x : Q) : Z := rint (fmul x 100).

(** The amounts the loop body computes, in floating point:
    [(price * quantity * discount_percent) / 100] is a numpy float64
    because [discount_percent] is a numpy integer, and so are the two
    amounts computed from it. *)
Definition discount_amount_of (t : Draws) : Q :=
  fdiv (fmul (fmul (d_price t) (inject_Z (d_quantity t)))
             (inject_Z (d_discount_percent t)))
       100.

Definition final_price_of (t : Draws) : Q :=
  fsub (fmul (d_price t) (inject_Z (d_quantity t))) (discount_amount_of t).

Definition profit_margin_of (t : Draws) : Q :=
  fmul (final_price_of t) (d_profit_factor t).

(** The body of the loop at index [i]. *)
Definition record_of (i : Z) (t : Draws) : Record_ string :=
  let category := d_category t in
  let subcategory := d_subcategory t in
  let price := d_price t in
  let quantity := d_quantity t in
  let discount_percent := d_discount_percent t in
  let discount_amount := discount_amount_of t in
  let final_price := final_price_of t in
  let rating := d_rating t in
  let review_length := d_review_length t in
  let delivery_days := d_delivery_days t in
  let delivery_status := d_delivery_status t in
  let return_status := d_return_status t in
  let customer_segment := d_customer_segment t in
  let payment_method := d_payment_method t in
  let city := d_city t in
  let order_date := add_days start_date (d_day_offset t) in
  let delivery_date := add_days order_date delivery_days in
  let profit_margin := profit_margin_of t in
  {| Order_ID := "ORD" ++ str_of_int (10000 + i);
     Order_Date := strftime order_date;
     Delivery_Date := strftime delivery_date;
     Category := category;
     Subcategory := subcategory;
     Product_Price := round2 price;
     Quantity := quantity;
     Discount_Percent := discount_percent;
     Discount_Amount := np_round2 discount_amount;
     Final_Price := np_round2 final_price;
     Payment_Method := payment_method;
     Customer_Segment := customer_segment;
     City := city;
     Customer_Rating := rating;
     Review_Length := review_length;
     Delivery_Days := delivery_days;
     Delivery_Status := delivery_status;
     Returned := return_status;
     Profit_Margin := np_round2 profit_margin |}.

(** [for i in range(n_records): ...; data.append(record)]: the tape
    gives the draws of iteration [i]. *)
Definition data_of (n_records : nat) (tape : nat -> Draws) : list (Record_ string) :=
  map (fun i => record_of (Z.of_nat i) (tape i)) (seq 0 n_records).

Definition day_names : list (Z * string) :=
  [ (0, "Monday"); (1, "Tuesday"); (2, "Wednesday"); (3, "Thursday");
    (4, "Friday"); (5, "Saturday"); (6, "Sunday") ].

(** [Series.map(day_names)] on one value: a key that is absent gives NaN. *)
Fixpoint map_dict (d : list (Z * string)) (k : Z) : option string :=
  match d with
  | [] => None
  | (k', v) :: t => if k' =? k then Some v else map_dict t k
  end.

(** The derived columns of one row: each is computed from
    [pd.to_datetime(df['Order_Date'])], the day name from the
    day-of-week column. *)
Definition derive (rec : Record_ string) : result (Row string) :=
  dt <- to_datetime (Order_Date rec) ;;
  let order_dayofweek := weekday dt in
  Ok {| base := rec;
        Order_Month := month dt;
        Order_DayOfWeek := order_dayofweek;
        Order_Quarter := quarter dt;
        Order_DayName := map_dict day_names order_dayofweek |}.

(** [df = pd.DataFrame(data)], then the derived columns (lines 119-129).
    A frame built from an empty list has no columns, so on no record
    [df['Order_Date']] (line 122) raises KeyError. *)
Definition generate_amazon_sales_data (n_records : nat) (tape : nat -> Draws)
  : result (list (Row string)) :=
  let data := data_of n_records tape in
  match data with
  | [] => Raise KeyError
  | _ :: _ => mapM derive data
  end.

Definition valid_tape (n_records : nat) (tape : nat -> Draws) : bool :=
  forallb (fun i => valid_draws (tape i)) (seq 0 n_records).

End Generator.

Import Generator.

(* ================================================================== *)
(** ** pandas: keys, Series, group-by and reductions *)

(** Values usable as group keys and index labels: comparable for
    equality and ordered (pandas sorts group keys). *)
Class Key (K : Type) : Type := {
  key_eqb : K -> K -> bool;
  key_leb : K -> K -> bool
}.

#[export] Instance Key_string : Key string :=
  {| key_eqb := String.eqb; key_leb := String.leb |}.

#[export] Instance Key_Z : Key Z :=
  {| key_eqb := Z.eqb; key_leb := Z.leb |}.

#[export] Instance Key_date : Key date :=
  {| key_eqb := date_eqb; key_leb := date_leb |}.

(** The equality test of a key type decides equality. *)
Class KeyLaws (K : Type) `{Key K} : Prop := {
  key_eqb_eq : forall a b : K, key_eqb a b = true <-> a = b
}.

Module Pandas.

(** A Series: index labels with their values, in order. *)
Definition Series (K V : Type) : Type := list (K * V).

Section Sorting.
Context {A : Type} (leb : A -> A -> bool).

Fixpoint insert_sorted (a : A) (l : list A) : list A :=
  match l with
  | [] => [a]
  | b :: t => if leb a b then a :: b :: t else b :: insert_sorted a t
  end.

Fixpoint sort (l : list A) : list A :=
  match l with
  | [] => []
  | a :: t => insert_sorted a (sort t)
  end.
End Sorting.

Section Keys.
Context {K : Type} `{Key K}.

Fixpoint unique (l : list K) : list K :=
  match l with
  | [] => []
  | k :: t => k :: filter (fun x => negb (key_eqb x k)) (unique t)
  end.

Definition key_is (k : K) (o : option K) : bool :=
  match o with
  | Some k' => key_eqb k' k
  | None => false
  end.

Definition present (l : list (option K)) : list K :=
  flat_map (fun o => match o with Some k => [k] | None => [] end) l.

(** [Series.reindex(labels)]: a label that is absent gives NaN. *)
Fixpoint lookup {V : Type} (s : Series K V) (k : K) : option V :=
  match s with
  | [] => None
  | (k', v) :: t => if key_eqb k' k then Some v else lookup t k
  end.

Definition reindex {V : Type} (s : Series K V) (labels : list K)
  : Series K (option V) :=
  map (fun k => (k, lookup s k)) labels.
End Keys.

Section Frames.
Context {R K : Type} `{Key K}.

(** [df.groupby(col)]: one group per distinct key, keys sorted; rows
    whose key is NaN belong to no group. *)
Definition groupby (key : R -> option K) (df : list R) : Series K (list R) :=
  map (fun k => (k, filter (fun r => key_is k (key r)) df))
      (sort key_leb (unique (present (map key df)))).

Definition agg {V : Type} (f : list R -> V) (g : Series K (list R)) : Series K V :=
  map (fun kg => (fst kg, f (snd kg))) g.

(** The row's key is one of [ks]. *)
Definition in_group (key : R -> option K) (ks : list K) (r : R) : bool :=
  existsb (fun k => key_is k (key r)) ks.

(** The row has a key (it is not NaN). *)
Definition has_key (key : R -> option K) (r : R) : bool :=
  match key r with
  | Some _ => true
  | None => false
  end.
End Frames.

Definition values {K V : Type} (s : Series K V) : list V := map snd s.
Definition index {K V : Type} (s : Series K V) : list K := map fst s.

(** [Series.sum()]: 0 on an empty Series. *)
Definition sum (l : list Z) : Z := fold_right Z.add 0 l.

(** [Series.mean()]: NaN on an empty Series. *)
Definition mean (l : list Z) : option Q :=
  match l with
  | [] => None
  | _ :: _ => Some (sum l # Pos.of_nat (List.length l))%Q
  end.

Definition b2z (b : bool) : Z := if b then 1 else 0.

(** Order on means; a NaN compares below every number here, it does
    not occur among group means. *)
Definition mean_leb (a b : option Q) : bool :=
  match a, b with
  | Some x, Some y => Qle_bool x y
  | None, _ => true
  | Some _, None => false
  end.

Definition mean_ltb (a b : option Q) : bool := negb (mean_leb b a).

Section Reductions.
Context {K V : Type} (leb : V -> V -> bool).

Definition ltb (a b : V) : bool := negb (leb b a).

(** [Series.sort_values(ascending=True)]. *)
Definition sort_values (s : Series K V) : Series K V :=
  sort (fun a b => leb (snd a) (snd b)) s.

(** [Series.nlargest(n)]. *)
Definition nlargest (n : nat) (s : Series K V) : Series K V :=
  firstn n (sort (fun a b => leb (snd b) (snd a)) s).

Fixpoint argmax_from (best : K * V) (s : Series K V) : K :=
  match s with
  | [] => fst best
  | kv :: t =>
      if ltb (snd best) (snd kv) then argmax_from kv t else argmax_from best t
  end.

(** [Series.idxmax()]: the label of the first maximum; on an empty
    Series pandas raises ValueError (argmax of an empty sequence). *)
Definition idxmax (s : Series K V) : result K :=
  match s with
  | [] => Raise ValueError
  | kv :: t => Ok (argmax_from kv t)
  end.
End Reductions.

Section Counting.
Context {R K : Type} `{Key K}.

(** [df[col].value_counts()]: counts per value, most frequent first;
    values with the same count stay in the order of their first
    appearance in the column (the sort is stable), NaN is not counted. *)
Definition value_counts (col : R -> option K) (df : list R) : Series K Z :=
  sort (fun a b => Z.leb (snd b) (snd a))
       (map (fun k => (k, Z.of_nat (List.length
                                      (filter (fun r => key_is k (col r)) df))))
            (unique (present (map col df)))).

(** [Series.sort_index()]. *)
Definition sort_index {V : Type} (s : Series K V) : Series K V :=
  sort (fun a b => key_leb (fst a) (fst b)) s.

(** [df[col].mode()]: the most frequent values, sorted; empty on an
    empty column. *)
Definition mode (col : R -> option K) (df : list R) : list K :=
  let counts := agg (fun g => Z.of_nat (List.length g)) (groupby col df) in
  let top := fold_right Z.max 0 (values counts) in
  index (filter (fun kc => snd kc =? top) counts).
End Counting.

(** [s[0]] on a Series with the default integer index: KeyError when
    there is no label 0. *)
Definition getitem0 {A : Type} (s : list A) : result A :=
  match s with
  | [] => Raise KeyError
  | a :: _ => Ok a
  end.

End Pandas.

Import Pandas.

(* ================================================================== *)
(** ** Pearson correlation ([DataFrame.corr]) *)

Module Corr.
Local Open Scope R_scope.

Definition rsum (l : list R) : R := fold_right Rplus 0 l.

Definition rmean (l : list R) : R := rsum l / INR (List.length l).

(** Sum of squared deviations from the mean. *)
Definition ssqdm (l : list R) : R :=
  rsum (map (fun x => (x - rmean l) * (x - rmean l)) l).

(** Sum of products of deviations, over the paired observations. *)
Definition covxy (xs ys : list R) : R :=
  rsum (map (fun p => (fst p - rmean xs) * (snd p - rmean ys)) (combine xs ys)).

(** One entry of the matrix, as pandas' [nancorr] computes it with
    [min_periods=1]: NaN with no observation, and NaN when the divisor
    [sqrt(ssqdm_x * ssqdm_y)] is 0. *)
Definition pearson (xs ys : list R) : option R :=
  if (List.length xs <? 1)%nat then None
  else
    let divisor := sqrt (ssqdm xs * ssqdm ys) in
    if Req_dec_T divisor 0 then None else Some (covxy xs ys / divisor).

(** [df[cols].corr()] over columns given as lists of the same length. *)
Definition corr (cols : list (list R)) : list (list (option R)) :=
  map (fun xs => map (fun ys => pearson xs ys) cols) cols.

Definition entry (m : list (list (option R))) (i j : nat) : option R :=
  nth j (nth i m []) None.

(** A column takes at least two distinct values. *)
Definition varies (l : list R) : Prop :=
  exists x y, In x l /\ In y l /\ x <> y.

End Corr.

Import Corr.

(* ================================================================== *)
(** ** app.py *)

Module App.

Definition DataFrame : Type := list (Row date).

(** [df[col] = pd.to_datetime(df[col])] for the two date columns, on
    one row. *)
Definition convert_dates (r : Row string) : result (Row date) :=
  order_date <- to_datetime (Order_Date r) ;;
  delivery_date <- to_datetime (Delivery_Date r) ;;
  Ok {| base :=
          {| Order_ID := Order_ID r;
             Order_Date := order_date;
             Delivery_Date := delivery_date;
             Category := Category r;
             Subcategory := Subcategory r;
             Product_Price := Product_Price r;
             Quantity := Quantity r;
             Discount_Percent := Discount_Percent r;
             Discount_Amount := Discount_Amount r;
             Final_Price := Final_Price r;
             Payment_Method := Payment_Method r;
             Customer_Segment := Customer_Segment r;
             City := City r;
             Customer_Rating := Customer_Rating r;
             Review_Length := Review_Length r;
             Delivery_Days := Delivery_Days r;
             Delivery_Status := Delivery_Status r;
             Returned := Returned r;
             Profit_Margin := Profit_Margin r |};
        Order_Month := Order_Month r;
        Order_DayOfWeek := Order_DayOfWeek r;
        Order_Quarter := Order_Quarter r;
        Order_DayName := Order_DayName r |}.

(** The body of [load_data]: the rows of amazon_sales_data.csv, or
    [None] when the file is absent (FileNotFoundError is caught).  The
    decorator is modelled by [load_data_cached] below. *)
Definition load_data (file : option (list (Row string))) : result (option DataFrame) :=
  match file with
  | None => Ok None
  | Some rows => df <- mapM convert_dates rows ;; Ok (Some df)
  end.

(** The sidebar's selections. *)
Record FilterSpec : Type := mkFilter {
  selected_category : string;
  selected_city : string;
  selected_segment : string;
  start_date : date;
  end_date : date
}.

(** [if selected != 'All': filtered_df = filtered_df[filtered_df[col] == selected]] *)
Definition filter_eq (col : Row date -> string) (selected : string)
           (filtered_df : DataFrame) : DataFrame :=
  if negb (selected =? "All")%string
  then filter (fun r => (col r =? selected)%string) filtered_df
  else filtered_df.

Definition filter_category := filter_eq Category.
Definition filter_city := filter_eq City.
Definition filter_segment := filter_eq Customer_Segment.

Definition filter_dates (start_date end_date : date) (filtered_df : DataFrame)
  : DataFrame :=
  filter (fun r : Row date => date_leb start_date (Order_Date r)
                   && date_leb (Order_Date r) end_date) filtered_df.

(** Lines 96-110: the filters, applied in the order of the source. *)
Definition apply_filters (df : DataFrame) (f : FilterSpec) : DataFrame :=
  let filtered_df := df in
  let filtered_df := filter_category (selected_category f) filtered_df in
  let filtered_df := filter_city (selected_city f) filtered_df in
  let filtered_df := filter_segment (selected_segment f) filtered_df in
  filter_dates (start_date f) (end_date f) filtered_df.

(** *** The aggregate views *)

Definition col {A : Type} (c : Row date -> A) (df : DataFrame) : list A := map c df.

Definition notna {A : Type} (c : Row date -> A) : Row date -> option A :=
  fun r => Some (c r).

Definition total_sales (filtered_df : DataFrame) : Z :=
  sum (col Final_Price filtered_df).

Definition avg_order_value (filtered_df : DataFrame) : option Q :=
  mean (col Final_Price filtered_df).

Definition total_orders (filtered_df : DataFrame) : nat := List.length filtered_df.

Definition avg_rating (filtered_df : DataFrame) : option Q :=
  mean (col Customer_Rating filtered_df).

(** [(df[c] == v).mean() * 100] *)
Definition rate (c : Row date -> string) (v : string) (filtered_df : DataFrame)
  : option Q :=
  option_map (fun m => m * 100)%Q
             (mean (col (fun r : Row date => Pandas.b2z (c r =? v)%string) filtered_df)).

Definition return_rate := rate Returned "Yes".

Definition sum_by {K : Type} `{Key K} (key : Row date -> option K)
           (val : Row date -> Z) (filtered_df : DataFrame) : Series K Z :=
  agg (fun g => sum (col val g)) (groupby key filtered_df).

Definition mean_by {K : Type} `{Key K} (key : Row date -> option K)
           (val : Row date -> Z) (filtered_df : DataFrame) : Series K (option Q) :=
  agg (fun g => mean (col val g)) (groupby key filtered_df).

Definition category_sales (filtered_df : DataFrame) : Series string Z :=
  sort_values Z.leb (sum_by (notna Category) Final_Price filtered_df).

Definition payment_dist (filtered_df : DataFrame) : Series string Z :=
  value_counts (notna Payment_Method) filtered_df.

Definition daily_sales (filtered_df : DataFrame) : Series date Z :=
  sum_by (notna Order_Date) Final_Price filtered_df.

Definition top_products (filtered_df : DataFrame) : Series string Z :=
  nlargest Z.leb 10 (sum_by (notna Subcategory) Final_Price filtered_df).

Definition avg_rating_cat (filtered_df : DataFrame) : Series string (option Q) :=
  sort_values mean_leb (mean_by (notna Category) Customer_Rating filtered_df).

Definition segment_sales (filtered_df : DataFrame) : Series string Z :=
  sum_by (notna Customer_Segment) Final_Price filtered_df.

Definition city_sales (filtered_df : DataFrame) : Series string Z :=
  nlargest Z.leb 10 (sum_by (notna City) Final_Price filtered_df).

Definition rating_dist (filtered_df : DataFrame) : Series Z Z :=
  sort_index (value_counts (notna Customer_Rating) filtered_df).

Definition delivery_status (filtered_df : DataFrame) : Series string Z :=
  value_counts (notna Delivery_Status) filtered_df.

Definition avg_delivery (filtered_df : DataFrame) : Series string (option Q) :=
  sort_values mean_leb (mean_by (notna Category) Delivery_Days filtered_df).

Definition monthly_sales (filtered_df : DataFrame) : Series Z Z :=
  sum_by (notna Order_Month) Final_Price filtered_df.

Definition day_order : list string :=
  ["Monday"; "Tuesday"; "Wednesday"; "Thursday"; "Friday"; "Saturday"; "Sunday"].

Definition dow_sales (filtered_df : DataFrame) : Series string (option Z) :=
  reindex (sum_by Order_DayName Final_Price filtered_df) day_order.

(** A money column as a number: hundredths over 100. *)
Definition money (z : Z) : R := (IZR z / 100)%R.

Definition numeric_cols : list (string * (Row date -> R)) :=
  [ ("Product_Price", fun r : Row date => money (Product_Price r));
    ("Quantity", fun r : Row date => IZR (Quantity r));
    ("Discount_Percent", fun r : Row date => IZR (Discount_Percent r));
    ("Final_Price", fun r : Row date => money (Final_Price r));
    ("Customer_Rating", fun r : Row date => IZR (Customer_Rating r));
    ("Delivery_Days", fun r : Row date => IZR (Delivery_Days r));
    ("Profit_Margin", fun r : Row date => money (Profit_Margin r)) ].

(** Column [i] of the frame, among the numeric columns. *)
Definition column (i : nat) (df : DataFrame) : list R :=
  col (snd (nth i numeric_cols ("", fun _ => 0%R))) df.

Definition corr_matrix (filtered_df : DataFrame) : list (list (option R)) :=
  Corr.corr (map (fun c => col (snd c) filtered_df) numeric_cols).

(** Everything one run of the script computes and hands to the
    rendering calls. *)
Record Views : Type := mkViews {
  v_total_sales : Z;
  v_avg_order_value : option Q;
  v_total_orders : nat;
  v_avg_rating : option Q;
  v_return_rate : option Q;
  v_category_sales : Series string Z;
  v_payment_dist : Series string Z;
  v_daily_sales : Series date Z;
  v_top_products : Series string Z;
  v_avg_rating_cat : Series string (option Q);
  v_segment_sales : Series string Z;
  v_city_sales : Series string Z;
  v_rating_dist : Series Z Z;
  v_delivery_status : Series string Z;
  v_avg_delivery : Series string (option Q);
  v_monthly_sales : Series Z Z;
  v_dow_sales : Series string (option Z);
  v_corr_matrix : list (list (option R));
  v_highest_selling : string;
  v_most_profitable : string;
  v_best_rated : string;
  v_avg_delivery_time : option Q;
  v_on_time_rate : option Q;
  v_most_popular_payment : string
}.

(** Lines 404-406: the three [idxmax] insights, in source order. *)
Definition sales_insights (filtered_df : DataFrame) : result (string * string * string) :=
  highest_selling <- idxmax Z.leb (sum_by (notna Category) Final_Price filtered_df) ;;
  most_profitable <- idxmax Z.leb (sum_by (notna Category) Profit_Margin filtered_df) ;;
  best_rated <- idxmax mean_leb (mean_by (notna Category) Customer_Rating filtered_df) ;;
  Ok (highest_selling, most_profitable, best_rated).

(** Line 414: [filtered_df['Payment_Method'].mode()[0]]. *)
Definition most_popular_payment (filtered_df : DataFrame) : result string :=
  getitem0 (mode (notna Payment_Method) filtered_df).

(** [px.bar(x=s.values, y=s.index, ...)]: handed a Series without
    entries, plotly raises ValueError; handed data it returns the figure,
    which is not modelled. *)
Definition px_bar {K V : Type} (s : Series K V) : result unit :=
  match s with
  | [] => Raise ValueError
  | _ :: _ => Ok tt
  end.

(** The body of [if df is not None:], top to bottom.  The rendering
    calls ([st.metric], [px.bar], ...) take the values computed here;
    an exception ends the run at the statement that raises it.  The first
    chart (line 157) is drawn from the sales by category; the later charts
    are handed data whenever that one is. *)
Definition dashboard (df : DataFrame) (f : FilterSpec) : result Views :=
  let filtered_df := apply_filters df f in
  let total_sales := total_sales filtered_df in
  let avg_order_value := avg_order_value filtered_df in
  let total_orders := total_orders filtered_df in
  let avg_rating := avg_rating filtered_df in
  let return_rate := return_rate filtered_df in
  let category_sales := category_sales filtered_df in
  fig <- px_bar category_sales ;;
  let payment_dist := payment_dist filtered_df in
  let daily_sales := daily_sales filtered_df in
  let top_products := top_products filtered_df in
  let avg_rating_cat := avg_rating_cat filtered_df in
  let segment_sales := segment_sales filtered_df in
  let city_sales := city_sales filtered_df in
  let rating_dist := rating_dist filtered_df in
  let delivery_status := delivery_status filtered_df in
  let avg_delivery := avg_delivery filtered_df in
  let monthly_sales := monthly_sales filtered_df in
  let dow_sales := dow_sales filtered_df in
  let corr_matrix := corr_matrix filtered_df in
  insights <- sales_insights filtered_df ;;
  let avg_delivery_time := mean (col Delivery_Days filtered_df) in
  let on_time_rate := rate Delivery_Status "On Time" filtered_df in
  popular <- most_popular_payment filtered_df ;;
  Ok {| v_total_sales := total_sales;
        v_avg_order_value := avg_order_value;
        v_total_orders := total_orders;
        v_avg_rating := avg_rating;
        v_return_rate := return_rate;
        v_category_sales := category_sales;
        v_payment_dist := payment_dist;
        v_daily_sales := daily_sales;
        v_top_products := top_products;
        v_avg_rating_cat := avg_rating_cat;
        v_segment_sales := segment_sales;
        v_city_sales := city_sales;
        v_rating_dist := rating_dist;
        v_delivery_status := delivery_status;
        v_avg_delivery := avg_delivery;
        v_monthly_sales := monthly_sales;
        v_dow_sales := dow_sales;
        v_corr_matrix := corr_matrix;
        v_highest_selling := fst (fst insights);
        v_most_profitable := snd (fst insights);
        v_best_rated := snd insights;
        v_avg_delivery_time := avg_delivery_time;
        v_on_time_rate := on_time_rate;
        v_most_popular_payment := popular |}.

(** What the page shows. *)
Inductive Page : Type :=
| DataNotFound
| Dashboard (v : Views).

(** One run of the script in a fresh server process: nothing is cached
    yet, so [load_data] reads the file. *)
Definition app (file : option (list (Row string))) (f : FilterSpec) : result Page :=
  loaded <- load_data file ;;
  match loaded with
  | Some df => v <- dashboard df f ;; Ok (Dashboard v)
  | None => Ok DataNotFound
  end.

(** *** The cache of [load_data] *)

(** [@st.cache_data] on a function without arguments: one entry, empty
    until a call returns. *)
Definition Cache : Type := option (option DataFrame).

(** A call of the decorated [load_data]: the cached value when there is
    one, a cached [None] included; otherwise the body runs and what it
    returns is cached.  An exception is not cached. *)
Definition load_data_cached (cache : Cache) (file : option (list (Row string)))
  : result (option DataFrame) * Cache :=
  match cache with
  | Some loaded => (Ok loaded, cache)
  | None =>
      match load_data file with
      | Ok loaded => (Ok loaded, Some loaded)
      | Raise e => (Raise e, None)
      end
  end.

(** One run of the script with the cache as the process holds it. *)
Definition app_cached (cache : Cache) (file : option (list (Row string)))
           (f : FilterSpec) : result Page * Cache :=
  let (loaded, cache') := load_data_cached cache file in
  (df <- loaded ;;
   match df with
   | Some df => v <- dashboard df f ;; Ok (Dashboard v)
   | None => Ok DataNotFound
   end,
   cache').

(** The runs of one server process, in order: each finds the file as
    it is then and the selection of that run. *)
Fixpoint session (cache : Cache)
         (runs : list (option (list (Row string)) * FilterSpec))
  : list (result Page) :=
  match runs with
  | [] => []
  | (file, f) :: later =>
      let (page, cache') := app_cached cache file f in
      page :: session cache' later
  end.

End App.

Import App.

(** *** The filter contract, in the specification's words *)

(** A field filter lets a value through when the selection is "All" or
    equals the value. *)
Definition field_matches (selected value : string) : bool :=
  (selected =? "All")%string || (value =? selected)%string.

(** All constraints of a filter specification, combined by AND; the
    date bounds are inclusive. *)
Definition selects (f : FilterSpec) (r : Row date) : bool :=
  field_matches (selected_category f) (Category r)
  && field_matches (selected_city f) (City r)
  && field_matches (selected_segment f) (Customer_Segment r)
  && date_leb (start_date f) (Order_Date r)
  && date_leb (Order_Date r) (end_date f).

Definition spec_filter (df : DataFrame) (f : FilterSpec) : DataFrame :=
  filter (selects f) df.

(* ================================================================== *)
(** ** Notions used by the statements *)

(** [z] is a nearest integer to [x]. *)
Definition near (z : Z) (x : Q) : Prop :=
  (inject_Z z - x <= 1 # 2)%Q /\ (x - inject_Z z <= 1 # 2)%Q.

(** [x] and [y] differ by at most [tol]. *)
Definition within (tol x y : Q) : Prop := (x - y <= tol)%Q /\ (y - x <= tol)%Q.

(** [z] is within 0.501 of [x]: what [rint] of a float product leaves
    between the stored hundredths [z] and the exact amount [x] in
    hundredths, half a unit of rounding and at most a thousandth of a unit
    of floating-point error. *)
Definition near_float (z : Z) (x : Q) : Prop :=
  (inject_Z z - x <= 501 # 1000)%Q /\ (x - inject_Z z <= 501 # 1000)%Q.

(** The amounts of the loop body as exact numbers, from the drawn
    price, quantity, discount percent and profit factor. *)
Definition exact_discount_amount (t : Draws) : Q :=
  (d_price t * inject_Z (d_quantity t) * inject_Z (d_discount_percent t) / 100)%Q.

Definition exact_final_price (t : Draws) : Q :=
  (d_price t * inject_Z (d_quantity t) - exact_discount_amount t)%Q.

Definition exact_profit_margin (t : Draws) : Q :=
  (exact_final_price t * d_profit_factor t)%Q.

(** What [valid_draws] gives about the numeric draws. *)
Record draws_in_range (t : Draws) : Prop := {
  dr_price_low : (fst (price_range (d_category t)) <= d_price t)%Q;
  dr_quantity : 1 <= d_quantity t <= 5;
  dr_discount : In (d_discount_percent t) [0; 5; 10; 15; 20; 25; 30];
  dr_delivery_days : 1 <= d_delivery_days t <= 10;
  dr_day_offset : 0 <= d_day_offset t <= 365
}.

(** The text of the date [k] days after the epoch parses back to it, and
    its ordinal is the epoch's plus [k]. *)
Definition date_checks (k : Z) : bool :=
  let d := add_days Generator.start_date k in
  match to_datetime (strftime d) with
  | Ok d' => date_eqb d' d
  | Raise _ => false
  end
  && (toordinal d =? toordinal Generator.start_date + k).

(** The row that iteration [i] contributes, with the derived columns
    computed from the order date itself. *)
Definition row_of (i : Z) (t : Draws) : Row string :=
  let dt := add_days Generator.start_date (d_day_offset t) in
  {| base := record_of i t;
     Order_Month := month dt;
     Order_DayOfWeek := weekday dt;
     Order_Quarter := quarter dt;
     Order_DayName := map_dict day_names (weekday dt) |}.

Definition rows_of (n_records : nat) (tape : nat -> Draws) : list (Row string) :=
  map (fun i => row_of (Z.of_nat i) (tape i)) (seq 0 n_records).

(** The row of iteration [i] once [load_data] has converted its dates. *)
Definition loaded_row_of (i : Z) (t : Draws) : Row date :=
  let order_date := add_days Generator.start_date (d_day_offset t) in
  let r := row_of i t in
  {| base :=
       {| Order_ID := Order_ID r;
          Order_Date := order_date;
          Delivery_Date := add_days order_date (d_delivery_days t);
          Category := Category r;
          Subcategory := Subcategory r;
          Product_Price := Product_Price r;
          Quantity := Quantity r;
          Discount_Percent := Discount_Percent r;
          Discount_Amount := Discount_Amount r;
          Final_Price := Final_Price r;
          Payment_Method := Payment_Method r;
          Customer_Segment := Customer_Segment r;
          City := City r;
          Customer_Rating := Customer_Rating r;
          Review_Length := Review_Length r;
          Delivery_Days := Delivery_Days r;
          Delivery_Status := Delivery_Status r;
          Returned := Returned r;
          Profit_Margin := Profit_Margin r |};
     Order_Month := Order_Month r;
     Order_DayOfWeek := Order_DayOfWeek r;
     Order_Quarter := Order_Quarter r;
     Order_DayName := Order_DayName r |}.

(** The derived columns as one function of the order date's text. *)
Definition derived_of (order_date : string)
  : result (Z * Z * Z * option string) :=
  dt <- to_datetime order_date ;;
  Ok (month dt, weekday dt, quarter dt, map_dict day_names (weekday dt)).

Definition derived_columns {D : Type} (r : Row D) : Z * Z * Z * option string :=
  (Order_Month r, Order_DayOfWeek r, Order_Quarter r, Order_DayName r).

(** ** Sample inputs *)

(** The floats nearest to 100.004, to 0.3 and to 12345.67. *)
Definition sample_price : Q := Eval vm_compute in rnd (25001 # 250).
Definition sample_factor : Q := Eval vm_compute in rnd (3 # 10).
Definition sample_price' : Q := Eval vm_compute in rnd (1234567 # 100).

(** Draws with a price of 100.004, as a float, and no discount. *)
Definition sample_draws : Draws :=
  {| d_category := "Books"; d_subcategory := "Comics";
     d_price := sample_price;
     d_quantity := 5; d_discount_percent := 0;
     d_rating := 4; d_review_length := "Short"; d_delivery_days := 3;
     d_delivery_status := "On Time"; d_return_status := "No";
     d_customer_segment := "Prime"; d_payment_method := "UPI";
     d_city := "Mumbai"; d_day_offset := 1;
     d_profit_factor := sample_factor |}.

Definition sample_draws' : Draws :=
  {| d_category := "Electronics"; d_subcategory := "Laptops";
     d_price := sample_price';
     d_quantity := 2; d_discount_percent := 15;
     d_rating := 5; d_review_length := "Long"; d_delivery_days := 10;
     d_delivery_status := "Delayed"; d_return_status := "Yes";
     d_customer_segment := "New"; d_payment_method := "Amazon Pay";
     d_city := "Delhi"; d_day_offset := 365;
     d_profit_factor := (1 # 4)%Q |}.

(** Draws with a price of 1892.785 as a float, one item, no
    discount: a hundred times the price is a tie in floating point. *)
Definition tie_price : Q := Eval vm_compute in rnd (1892785 # 1000).

Definition tie_draws : Draws :=
  {| d_category := "Electronics"; d_subcategory := "Cameras";
     d_price := tie_price; d_quantity := 1; d_discount_percent := 0;
     d_rating := 3; d_review_length := "Medium"; d_delivery_days := 1;
     d_delivery_status := "Early"; d_return_status := "No";
     d_customer_segment := "Regular"; d_payment_method := "Credit Card";
     d_city := "Pune"; d_day_offset := 0;
     d_profit_factor := (1 # 4)%Q |}.

Definition sample_tape (i : nat) : Draws :=
  match i with
  | O => sample_draws
  | _ => sample_draws'
  end.

(** The file that the generator writes for two records, and the frame
    [load_data] makes of it. *)
Definition sample_file : list (Row string) := rows_of 2 sample_tape.

Definition sample_frame : DataFrame :=
  map (fun i => loaded_row_of (Z.of_nat i) (sample_tape i)) (seq 0 2).

Definition single_row_frame : DataFrame := [loaded_row_of 0 sample_draws].

(** A date range whose start is after its end. *)
Definition inverted_range : FilterSpec :=
  mkFilter "All" "All" "All" (mkdate 2023 6 2) (mkdate 2023 6 1).

(* ================================================================== *)
(** ** app.py: the sidebar's defaults *)

(** Python's [min] and [max] of two dates. *)
Definition date_min (a b : date) : date := if date_ltb b a then b else a.

Definition date_max (a b : date) : date := if date_ltb a b then b else a.

(** [df['Order_Date'].min().date()] (line 90); [None] on an empty frame,
    where pandas gives NaT. *)
Definition min_date (df : DataFrame) : option date :=
  match df with
  | [] => None
  | r :: t =>
      Some (fold_left (fun m (r' : Row date) => date_min m (Order_Date r')) t
                      (Order_Date r))
  end.

(** [df['Order_Date'].max().date()] (line 91). *)
Definition max_date (df : DataFrame) : option date :=
  match df with
  | [] => None
  | r :: t =>
      Some (fold_left (fun m (r' : Row date) => date_max m (Order_Date r')) t
                      (Order_Date r))
  end.

(** The selection before the user touches the sidebar: each selectbox
    on its first option, "All", and the two date inputs on [min_date] and
    [max_date] (lines 77-93). *)
Definition default_selection (df : DataFrame) : option FilterSpec :=
  match min_date df, max_date df with
  | Some lo, Some hi => Some (mkFilter "All" "All" "All" lo hi)
  | _, _ => None
  end.

(** How many rows of the frame have the value [k] in column [c]. *)
Definition occurrences {K : Type} `{Key K} (c : Row date -> K) (k : K)
           (df : DataFrame) : nat :=
  List.length (filter (fun r => key_eqb (c r) k) df).

(** A row's day name is [day]. *)
Definition on_day (day : string) (r : Row date) : bool :=
  key_is day (Order_DayName r).

(** What [valid_draws] gives about the categorical draws, the price's
    upper bound and the profit factor. *)
Record draws_in_support (t : Draws) : Prop := {
  ds_category : In (d_category t) (map fst categories);
  ds_subcategory :
    In (d_subcategory t) (subcategories_of categories (d_category t));
  ds_price_high : (d_price t < snd (price_range (d_category t)))%Q;
  ds_rating : In (d_rating t) [1; 2; 3; 4; 5];
  ds_review_length : In (d_review_length t) ["Short"; "Medium"; "Long"];
  ds_delivery_status : In (d_delivery_status t) ["On Time"; "Delayed"; "Early"];
  ds_return_status : In (d_return_status t) ["No"; "Yes"];
  ds_customer_segment : In (d_customer_segment t) customer_segments;
  ds_payment_method : In (d_payment_method t) payment_methods;
  ds_city : In (d_city t) cities;
  ds_profit_low : (2 # 10 <= d_profit_factor t)%Q;
  ds_profit_high : (d_profit_factor t < 4 # 10)%Q
}.

(** The order date [k] days after the epoch lies in 2023-01-01 ..
    2024-01-01 and every delivery date up to ten days on is later. *)
Definition delivery_checks (k : Z) : bool :=
  let order_date := add_days Generator.start_date k in
  date_leb (mkdate 2023 1 1) order_date
  && date_leb order_date (mkdate 2024 1 1)
  && forallb (fun dd => date_ltb order_date (add_days order_date dd))
             [1; 2; 3; 4; 5; 6; 7; 8; 9; 10].

(** A loaded row [l] carries the file's row [r]: its dates print back
    to the file's text and every other column is the same. *)
Definition carries (r : Row string) (l : Row date) : Prop :=
  strftime (Order_Date l) = Order_Date r
  /\ strftime (Delivery_Date l) = Delivery_Date r
  /\ Order_ID l = Order_ID r
  /\ Category l = Category r
  /\ Subcategory l = Subcategory r
  /\ Product_Price l = Product_Price r
  /\ Quantity l = Quantity r
  /\ Discount_Percent l = Discount_Percent r
  /\ Discount_Amount l = Discount_Amount r
  /\ Final_Price l = Final_Price r
  /\ Payment_Method l = Payment_Method r
  /\ Customer_Segment l = Customer_Segment r
  /\ City l = City r
  /\ Customer_Rating l = Customer_Rating r
  /\ Review_Length l = Review_Length r
  /\ Delivery_Days l = Delivery_Days r
  /\ Delivery_Status l = Delivery_Status r
  /\ Returned l = Returned r
  /\ Profit_Margin l = Profit_Margin r
  /\ derived_columns l = derived_columns r.

(** A row of a file whose order date is not a calendar date. *)
Definition bad_row : Row string :=
  {| base :=
       {| Order_ID := "ORD10002"; Order_Date := "2023-02-30";
          Delivery_Date := "2023-03-02"; Category := "Books";
          Subcategory := "Comics"; Product_Price := 10000; Quantity := 1;
          Discount_Percent := 0; Discount_Amount := 0; Final_Price := 10000;
          Payment_Method := "UPI"; Customer_Segment := "New"; City := "Pune";
          Customer_Rating := 4; Review_Length := "Short"; Delivery_Days := 2;
          Delivery_Status := "On Time"; Returned := "No";
          Profit_Margin := 3000 |};
     Order_Month := 2; Order_DayOfWeek := 3; Order_Quarter := 1;
     Order_DayName := Some "Thursday" |}.

(* ================================================================== *)
(** * Properties *)

(** ** The calendar on known dates *)

Example fromordinal_new_year :
  add_days (mkdate 2023 1 1) 365 = mkdate 2024 1 1.
Proof. reflexivity. Qed.

Example fromordinal_leap_day :
  add_days (mkdate 2024 2 28) 1 = mkdate 2024 2 29.
Proof. reflexivity. Qed.

Example strftime_pads : strftime (add_days (mkdate 2023 1 1) 59) = "2023-03-01".
Proof. reflexivity. Qed.

Example to_datetime_iso : to_datetime "2023-01-02" = Ok (mkdate 2023 1 2).
Proof. reflexivity. Qed.

Example to_datetime_rejects : to_datetime "2023-02-30" = Raise ValueError.
Proof. reflexivity. Qed.

Example weekday_monday : weekday (mkdate 2023 1 2) = 0.
Proof. reflexivity. Qed.

Example order_id_text : Order_ID (record_of 42 sample_draws) = "ORD10042".
Proof. reflexivity. Qed.

(** ** Lists and sorting *)

Lemma filter_all {A : Type} (p : A -> bool) (l : list A) :
  (forall a, In a l -> p a = true) -> filter p l = l.
Proof.
  induction l as [|a l IH]; simpl; intros Hp; [reflexivity|].
  rewrite (Hp a (or_introl eq_refl)). f_equal. apply IH. intros; apply Hp; auto.
Qed.

Lemma filter_filter {A : Type} (p q : A -> bool) (l : list A) :
  filter q (filter p l) = filter (fun a => p a && q a) l.
Proof.
  induction l as [|a l IH]; simpl; [reflexivity|].
  destruct (p a); simpl; [destruct (q a)|]; rewrite IH; reflexivity.
Qed.

Lemma filter_none {A : Type} (p : A -> bool) (l : list A) :
  (forall a, In a l -> p a = false) -> filter p l = [].
Proof.
  induction l as [|a l IH]; simpl; intros Hp; [reflexivity|].
  rewrite (Hp a (or_introl eq_refl)). apply IH. intros; apply Hp; auto.
Qed.

Lemma insert_sorted_perm {A : Type} (leb : A -> A -> bool) (a : A) (l : list A) :
  Permutation (insert_sorted leb a l) (a :: l).
Proof.
  induction l as [|b l IH]; simpl; [apply Permutation_refl|].
  destruct (leb a b); [apply Permutation_refl|].
  eapply perm_trans; [apply perm_skip, IH | apply perm_swap].
Qed.

Lemma sort_perm {A : Type} (leb : A -> A -> bool) (l : list A) :
  Permutation (sort leb l) l.
Proof.
  induction l as [|a l IH]; simpl; [constructor|].
  eapply perm_trans; [apply insert_sorted_perm | apply perm_skip, IH].
Qed.

Lemma sum_perm (l l' : list Z) : Permutation l l' -> sum l = sum l'.
Proof. induction 1; simpl; lia. Qed.

Lemma sum_app (l l' : list Z) : sum (l ++ l') = sum l + sum l'.
Proof. induction l; simpl; lia. Qed.

(** ** Filtering *)

Lemma filter_eq_spec (c : Row date -> string) (selected : string) (df : DataFrame) :
  filter_eq c selected df = filter (fun r => field_matches selected (c r)) df.
Proof.
  unfold filter_eq, field_matches.
  destruct (selected =? "All")%string; simpl.
  - symmetry. apply filter_all. reflexivity.
  - reflexivity.
Qed.

Lemma apply_filters_filter (df : DataFrame) (f : FilterSpec) :
  apply_filters df f = spec_filter df f.
Proof.
  unfold apply_filters, spec_filter, filter_category, filter_city,
    filter_segment, filter_dates.
  rewrite !filter_eq_spec, !filter_filter.
  apply filter_ext. intros r. unfold selects.
  rewrite !andb_assoc. reflexivity.
Qed.

Lemma field_matches_iff (selected value : string) :
  field_matches selected value = true <-> selected = "All" \/ value = selected.
Proof.
  unfold field_matches. rewrite orb_true_iff, !String.eqb_eq. reflexivity.
Qed.

Lemma field_matches_All (value : string) : field_matches "All" value = true.
Proof. reflexivity. Qed.

(** C3. The filter step returns exactly the rows of the base dataset
    that pass every constraint: each field selection is "All" or equals the
    row's value, and the order date lies between the start and end dates,
    bounds included.  It is the subset in the strong sense: the base rows in
    their order, each kept or dropped by the conjunction [selects]. *)
Theorem apply_filters_exact (df : DataFrame) (f : FilterSpec) :
  apply_filters df f = spec_filter df f
  /\ forall r : Row date,
      In r (apply_filters df f) <->
      In r df
      /\ (selected_category f = "All" \/ Category r = selected_category f)
      /\ (selected_city f = "All" \/ City r = selected_city f)
      /\ (selected_segment f = "All" \/ Customer_Segment r = selected_segment f)
      /\ date_leb (start_date f) (Order_Date r) = true
      /\ date_leb (Order_Date r) (end_date f) = true.
Proof.
  split; [apply apply_filters_filter|].
  intros r. rewrite apply_filters_filter. unfold spec_filter, selects.
  rewrite filter_In, !andb_true_iff, !field_matches_iff. tauto.
Qed.

Lemma date_leb_trans_lt (a b c : date) :
  date_leb a b = true -> date_leb b c = true -> date_ltb c a = false.
Proof.
  destruct a as [ya ma da], b as [yb mb db], c as [yc mc dc].
  unfold date_leb, date_ltb; simpl.
  rewrite !negb_true_iff, !orb_false_iff, !andb_false_iff, !orb_false_iff,
    !andb_false_iff, !Z.ltb_ge, !Z.eqb_neq.
  lia.
Qed.

(** C4. When the start date is strictly after the end date, no row
    passes the date filter: the filtered set is empty. *)
Theorem apply_filters_inverted_range (df : DataFrame) (f : FilterSpec) :
  date_ltb (end_date f) (start_date f) = true ->
  apply_filters df f = [].
Proof.
  intros Hlt. unfold apply_filters, filter_dates.
  apply filter_none. intros r _.
  destruct (date_leb (start_date f) (Order_Date r)) eqn:E1; simpl; [|reflexivity].
  destruct (date_leb (Order_Date r) (end_date f)) eqn:E2; [|reflexivity].
  rewrite (date_leb_trans_lt _ _ _ E1 E2) in Hlt. discriminate.
Qed.

Lemma apply_filters_inverted_range_witness :
  date_ltb (end_date inverted_range) (start_date inverted_range) = true
  /\ apply_filters sample_frame inverted_range = [].
Proof.
  split; [reflexivity|].
  apply (apply_filters_inverted_range sample_frame inverted_range). reflexivity.
Defined.

Lemma filter_eq_comm (c c' : Row date -> string) (s s' : string) (df : DataFrame) :
  filter_eq c' s' (filter_eq c s df) = filter_eq c s (filter_eq c' s' df).
Proof.
  rewrite !filter_eq_spec, !filter_filter.
  apply filter_ext. intros r. apply andb_comm.
Qed.

(** C5. Filtering by category and then by city gives the same rows
    as filtering by city and then by category, for the single filter steps
    and for whole filter passes that each set one field. *)
Theorem category_city_commute (df : DataFrame) (category city : string)
        (start_d end_d : date) :
  filter_city city (filter_category category df)
  = filter_category category (filter_city city df)
  /\ apply_filters (apply_filters df (mkFilter category "All" "All" start_d end_d))
                   (mkFilter "All" city "All" start_d end_d)
     = apply_filters (apply_filters df (mkFilter "All" city "All" start_d end_d))
                     (mkFilter category "All" "All" start_d end_d).
Proof.
  split.
  - apply filter_eq_comm.
  - rewrite !apply_filters_filter. unfold spec_filter.
    rewrite !filter_filter. apply filter_ext. intros r.
    unfold selects.
    cbn [selected_category selected_city selected_segment start_date end_date].
    rewrite !field_matches_All.
    destruct (field_matches category (Category r)),
      (field_matches city (City r)),
      (date_leb start_d (Order_Date r)),
      (date_leb (Order_Date r) end_d); reflexivity.
Qed.

(** ** Group-by partitions the rows *)

#[export] Instance KeyLaws_string : KeyLaws string.
Proof. constructor. exact String.eqb_eq. Qed.

#[export] Instance KeyLaws_Z : KeyLaws Z.
Proof. constructor. exact Z.eqb_eq. Qed.

Lemma date_eqb_eq (a b : date) : date_eqb a b = true <-> a = b.
Proof.
  destruct a as [y m d], b as [y' m' d']; unfold date_eqb; simpl.
  rewrite !andb_true_iff, !Z.eqb_eq. split.
  - intros [[-> ->] ->]; reflexivity.
  - intros E; injection E; auto.
Qed.

#[export] Instance KeyLaws_date : KeyLaws date.
Proof. constructor. exact date_eqb_eq. Qed.

Section GroupBy.
Context {K : Type} `{KeyLaws K}.

Lemma key_eqb_refl (k : K) : key_eqb k k = true.
Proof. apply key_eqb_eq. reflexivity. Qed.

Lemma unique_In (l : list K) (x : K) : In x (unique l) <-> In x l.
Proof.
  induction l as [|k t IH]; simpl; [tauto|].
  rewrite filter_In, IH, negb_true_iff. split.
  - intros [E | [Hx _]]; auto.
  - intros [E | Hx]; [auto|].
    destruct (key_eqb x k) eqn:E.
    + left. symmetry. apply key_eqb_eq, E.
    + right. auto.
Qed.

Lemma unique_NoDup (l : list K) : NoDup (unique l).
Proof.
  induction l as [|k t IH]; simpl; constructor.
  - rewrite filter_In, key_eqb_refl. intros [_ E]. discriminate.
  - apply NoDup_filter, IH.
Qed.

Lemma present_In (l : list (option K)) (k : K) : In k (present l) <-> In (Some k) l.
Proof.
  unfold present. rewrite in_flat_map. split.
  - intros [[k'|] [Hin Hk]]; simpl in Hk; [|contradiction].
    destruct Hk as [<- | []]. exact Hin.
  - intros Hin. exists (Some k). simpl. auto.
Qed.

Lemma in_group_In {R : Type} (key : R -> option K) (ks : list K) (r : R) :
  in_group key ks r = true <-> exists k, key r = Some k /\ In k ks.
Proof.
  unfold in_group. rewrite existsb_exists. split.
  - intros [k [Hin Hk]]. unfold key_is in Hk.
    destruct (key r) as [k'|]; [|discriminate].
    apply key_eqb_eq in Hk. subst k'. eauto.
  - intros [k [E Hin]]. exists k. split; [exact Hin|].
    rewrite E. simpl. apply key_eqb_refl.
Qed.

Lemma sum_filter_disjoint {R : Type} (val : R -> Z) (p q : R -> bool) (df : list R) :
  (forall r, In r df -> p r = true -> q r = false) ->
  sum (map val (filter (fun r => p r || q r) df))
  = sum (map val (filter p df)) + sum (map val (filter q df)).
Proof.
  induction df as [|r df IH]; simpl; intros Hd; [reflexivity|].
  assert (IH' := IH (fun r' Hr' => Hd r' (or_intror Hr'))).
  destruct (p r) eqn:Ep; simpl.
  - rewrite (Hd r (or_introl eq_refl) Ep). simpl. lia.
  - destruct (q r); simpl; lia.
Qed.

(** Summing the group sums over distinct keys is summing over the rows
    whose key is one of them. *)
Lemma sum_groups {R : Type} (key : R -> option K) (val : R -> Z) (df : list R)
      (ks : list K) :
  NoDup ks ->
  sum (map (fun k => sum (map val (filter (fun r => key_is k (key r)) df))) ks)
  = sum (map val (filter (in_group key ks) df)).
Proof.
  induction 1 as [|k ks Hk Hnd IH]; simpl.
  - rewrite filter_none; [reflexivity | reflexivity].
  - rewrite IH.
    change (in_group key (k :: ks)) with (fun r => key_is k (key r) || in_group key ks r).
    rewrite sum_filter_disjoint; [reflexivity|].
    intros r _ Hr. destruct (in_group key ks r) eqn:E; [|reflexivity].
    exfalso. apply Hk. apply in_group_In in E. destruct E as [k' [E Hin]].
    rewrite E in Hr. simpl in Hr. apply key_eqb_eq in Hr. subst k'. exact Hin.
Qed.

(** The group sums of a frame add up to the sum over its rows that
    have a key. *)
Lemma sum_groupby {R : Type} (key : R -> option K) (val : R -> Z) (df : list R) :
  sum (values (agg (fun g => sum (map val g)) (groupby key df)))
  = sum (map val (filter (has_key key) df)).
Proof.
  unfold values, agg, groupby. rewrite !map_map. simpl.
  set (ks := unique (present (map key df))).
  rewrite (sum_perm _ _ (Permutation_map _ (sort_perm key_leb ks))).
  rewrite (sum_groups key val df ks (unique_NoDup _)).
  f_equal. f_equal. apply filter_ext_in. intros r Hr.
  unfold has_key. destruct (key r) as [k|] eqn:E.
  - apply in_group_In. exists k. split; [exact E|].
    apply unique_In, present_In. rewrite <- E. apply in_map, Hr.
  - destruct (in_group key ks r) eqn:G; [|reflexivity].
    apply in_group_In in G. destruct G as [k [G _]]. congruence.
Qed.
End GroupBy.

(** C6. On a dataset with no filter applied, the per-category
    final-price sums of the "Sales by Category" view add up to the
    "Total Sales" figure. *)
Theorem category_sales_total (df : DataFrame) :
  sum (values (category_sales df)) = total_sales df.
Proof.
  unfold category_sales, sort_values, total_sales, values.
  rewrite (sum_perm _ _ (Permutation_map _ (sort_perm _ _))).
  unfold sum_by, col. fold (values (agg (fun g => sum (map (fun r : Row date => Final_Price r) g))
    (groupby (notna (fun r : Row date => Category r)) df))).
  rewrite sum_groupby. f_equal. f_equal. apply filter_all. reflexivity.
Qed.

(** ** Rounding to two decimals *)

Lemma round_half_even_near (x : Q) : near (round_half_even x) x.
Proof.
  unfold near, round_half_even.
  pose proof (Qfloor_le x) as Hlo. pose proof (Qlt_floor x) as Hhi.
  rewrite inject_Z_plus in Hhi. change (inject_Z 1) with 1%Q in Hhi.
  destruct (Qcompare_spec (x - inject_Z (Qfloor x)) (1 # 2)) as [E | E | E].
  - destruct (Z.even (Qfloor x));
      [|rewrite inject_Z_plus; change (inject_Z 1) with 1%Q]; split; lra.
  - split; lra.
  - rewrite inject_Z_plus; change (inject_Z 1) with 1%Q; split; lra.
Qed.

Lemma round_half_even_ge (x : Q) (z : Z) :
  (inject_Z z <= x)%Q -> z <= round_half_even x.
Proof.
  intros Hz. apply Qfloor_resp_le in Hz. rewrite Qfloor_Z in Hz.
  unfold round_half_even.
  destruct (x - inject_Z (Qfloor x) ?= 1 # 2)%Q; [destruct (Z.even _)| |]; lia.
Qed.

Ltac q_literals :=
  unfold Qdiv; change (/ 100)%Q with (1 # 100)%Q; unfold inject_Z.

Ltac z_to_q :=
  rewrite ?inject_Z_plus, ?inject_Z_opp, ?inject_Z_mult.

Lemma Z_lt_of_Q (a b : Z) : (inject_Z a < inject_Z b)%Q -> a < b.
Proof. intros Hlt. rewrite Zlt_Qlt. exact Hlt. Qed.

Lemma Z_abs_lt_of_Q (z b : Z) :
  (inject_Z (- b) < inject_Z z)%Q -> (inject_Z z < inject_Z b)%Q -> Z.abs z < b.
Proof.
  intros Hlo Hhi. rewrite <- Zlt_Qlt in Hlo, Hhi. lia.
Qed.

(** Three independent roundings keep the stored final price within
    three hundredths of stored price times quantity minus stored discount. *)
Lemma stored_relation_bound (pp da fp q : Z) (p D : Q) :
  1 <= q <= 5 ->
  near pp (p * 100)%Q ->
  near_float da (D * 100)%Q ->
  near_float fp ((p * inject_Z q - D) * 100)%Q ->
  Z.abs (fp - (pp * q - da)) <= 3.
Proof.
  intros Hq [P1 P2] [D1 D2] [F1 F2].
  assert (q = 1 \/ q = 2 \/ q = 3 \/ q = 4 \/ q = 5) as Hq' by lia.
  apply Z.lt_succ_r.
  replace (fp - (pp * q - da)) with (fp + - (pp * q) + da) by lia.
  apply Z_abs_lt_of_Q; z_to_q;
    revert P1 P2 D1 D2 F1 F2;
    generalize (inject_Z pp) (inject_Z da) (inject_Z fp); intros a b c;
    destruct Hq' as [-> | [-> | [-> | [-> | ->]]]];
    q_literals; simpl Z.succ; simpl Z.opp; intros; lra.
Qed.

(** ** Accuracy of the float operations *)

Lemma pow2_pos (e : Z) : (0 < pow2 e)%Q.
Proof. apply Qpower_0_lt. reflexivity. Qed.

Lemma pow2_inject (k : Z) : 0 <= k -> (pow2 k == inject_Z (2 ^ k))%Q.
Proof. intros Hk. unfold pow2. rewrite Zpower_Qpower by exact Hk. reflexivity. Qed.

(** [ilog2] does not overshoot. *)
Lemma ilog2_le (x : Q) : (0 < x)%Q -> (pow2 (ilog2 x) <= x)%Q.
Proof.
  intros Hx. unfold ilog2.
  destruct (Qle_bool (pow2 (Z.log2 (Qnum x) - Z.log2 (Z.pos (Qden x)))) x) eqn:E.
  - apply Qle_bool_iff, E.
  - clear E. destruct x as [n d]. cbn [Qnum Qden].
    assert (0 < n) as Hn by (unfold Qlt in Hx; simpl in Hx; lia).
    pose proof (Z.log2_spec n Hn) as [Hlo _].
    pose proof (Z.log2_spec (Z.pos d) eq_refl) as [_ Hhi].
    pose proof (Z.log2_nonneg n) as Hln.
    pose proof (Z.log2_nonneg (Z.pos d)) as Hld.
    replace (Z.log2 n - Z.log2 (Z.pos d) - 1)
      with (Z.log2 n - Z.succ (Z.log2 (Z.pos d))) by lia.
    unfold pow2. rewrite Qpower_minus by discriminate.
    fold (pow2 (Z.log2 n)). fold (pow2 (Z.succ (Z.log2 (Z.pos d)))).
    rewrite !pow2_inject by lia.
    apply Qle_shift_div_r.
    + rewrite <- (Zlt_Qlt 0). lia.
    + rewrite Zle_Qle in Hlo. rewrite Zlt_Qlt in Hhi.
      assert ((n # d) * inject_Z (Z.pos d) == inject_Z n)%Q as Hnd.
      { unfold Qeq, Qmult, inject_Z. simpl. lia. }
      assert (0 < inject_Z (Z.pos d))%Q as Hd by reflexivity.
      revert Hx Hlo Hhi Hnd Hd.
      generalize (inject_Z (2 ^ Z.log2 n)) (inject_Z (2 ^ Z.succ (Z.log2 (Z.pos d))))
                 (inject_Z (Z.pos d)) (inject_Z n) (n # d).
      intros a b dq nq x Hx Hlo Hhi Hnd Hd. nra.
Qed.

(** ... and does not fall short: it is the floor of the binary logarithm. *)
Lemma ilog2_lt (x : Q) : (0 < x)%Q -> (x < pow2 (ilog2 x + 1))%Q.
Proof.
  intros Hx. unfold ilog2.
  destruct (Qle_bool (pow2 (Z.log2 (Qnum x) - Z.log2 (Z.pos (Qden x)))) x) eqn:E.
  - clear E. destruct x as [n d]. cbn [Qnum Qden].
    assert (0 < n) as Hn by (unfold Qlt in Hx; simpl in Hx; lia).
    pose proof (Z.log2_spec n Hn) as [_ Hhi].
    pose proof (Z.log2_spec (Z.pos d) eq_refl) as [Hlo _].
    pose proof (Z.log2_nonneg n) as Hln.
    pose proof (Z.log2_nonneg (Z.pos d)) as Hld.
    replace (Z.log2 n - Z.log2 (Z.pos d) + 1)
      with (Z.succ (Z.log2 n) - Z.log2 (Z.pos d)) by lia.
    unfold pow2. rewrite Qpower_minus by discriminate.
    fold (pow2 (Z.succ (Z.log2 n))). fold (pow2 (Z.log2 (Z.pos d))).
    rewrite !pow2_inject by lia.
    apply Qlt_shift_div_l.
    + rewrite <- (Zlt_Qlt 0). apply Z.pow_pos_nonneg; lia.
    + rewrite Zlt_Qlt in Hhi. rewrite Zle_Qle in Hlo.
      assert ((n # d) * inject_Z (Z.pos d) == inject_Z n)%Q as Hnd.
      { unfold Qeq, Qmult, inject_Z. simpl. lia. }
      revert Hx Hlo Hhi Hnd.
      generalize (inject_Z (2 ^ Z.succ (Z.log2 n))) (inject_Z (2 ^ Z.log2 (Z.pos d)))
                 (inject_Z (Z.pos d)) (inject_Z n) (n # d).
      intros a b dq nq x Hx Hlo Hhi Hnd. nra.
  - replace (Z.log2 (Qnum x) - Z.log2 (Z.pos (Qden x)) - 1 + 1)
      with (Z.log2 (Qnum x) - Z.log2 (Z.pos (Qden x))) by lia.
    apply Qnot_le_lt. intros Hle. apply Qle_bool_iff in Hle. congruence.
Qed.

Lemma Qabs_pos_eq (x : Q) : (0 < x)%Q -> Qabs x = x.
Proof.
  destruct x as [n d]. unfold Qlt, Qabs. simpl. intros Hn.
  rewrite Z.abs_eq by lia. reflexivity.
Qed.

(** The unit in the last place of a positive number is at most 2^-52
    times the number. *)
Lemma exponent_le (x : Q) : (1 <= x)%Q -> (pow2 (exponent x) <= x * (1 # 2 ^ 52))%Q.
Proof.
  intros Hx. unfold exponent. rewrite Qabs_pos_eq by lra.
  destruct (Z.max_spec (ilog2 x - 52) (-1074)) as [[_ ->] | [_ ->]].
  - assert (pow2 (-1074) <= 1 # 2 ^ 52)%Q by (vm_compute; discriminate). 
    assert (0 < 1 # 2 ^ 52)%Q by reflexivity. nra.
  - unfold pow2. rewrite Qpower_minus by discriminate.
    fold (pow2 (ilog2 x)). pose proof (ilog2_le x) as H. 
    assert (2 ^ 52 == inject_Z (2 ^ 52))%Q as -> by reflexivity.
    apply Qle_shift_div_r; [reflexivity|].
    assert (x * (1 # 2 ^ 52) * inject_Z (2 ^ 52) == x)%Q as ->.
    { change (inject_Z (2 ^ 52)) with (4503599627370496 # 1)%Q.
      change (1 # 2 ^ 52)%Q with (1 # 4503599627370496)%Q. field. }
    apply H. lra.
Qed.

Lemma rnd_error (x : Q) :
  (1 <= x)%Q ->
  (rnd x - x <= x * (1 # 2 ^ 53))%Q /\ (x - rnd x <= x * (1 # 2 ^ 53))%Q.
Proof.
  intros Hx. unfold rnd.
  destruct (Qeq_bool x 0) eqn:E; [apply Qeq_bool_iff in E; lra|]. clear E.
  cbv zeta. rewrite Qred_correct.
  pose proof (exponent_le x Hx) as He.
  pose proof (pow2_pos (exponent x)) as Hp.
  destruct (round_half_even_near (x / pow2 (exponent x))) as [H1 H2].
  revert H1 H2. generalize (inject_Z (round_half_even (x / pow2 (exponent x)))).
  intros m H1 H2.
  assert (x / pow2 (exponent x) * pow2 (exponent x) == x)%Q as Hy
    by (field; lra).
  revert He Hp H1 H2 Hy.
  generalize (x / pow2 (exponent x))%Q (pow2 (exponent x)).
  intros y w He Hp H1 H2 Hy.
  assert ((1 # 2 ^ 53) == (1 # 2 ^ 52) * (1 # 2))%Q as Hu by reflexivity.
  rewrite Hu. split; nra.
Qed.

(** The rounding error of one operation on the generator's amounts,
    which are 0 or between 1 and 2^27: at most 2^-26, and none at 0. *)
Lemma rnd_near (x : Q) :
  (x == 0 \/ 1 <= x)%Q -> (x <= 134217728)%Q ->
  (rnd x - x <= 1 # 67108864)%Q /\ (x - rnd x <= 1 # 67108864)%Q
  /\ (x == 0 -> rnd x == 0)%Q.
Proof.
  intros Hx Hb.
  assert (x == 0 -> rnd x == 0)%Q as Hzero.
  { intros Hz. unfold rnd. apply Qeq_bool_iff in Hz. rewrite Hz. reflexivity. }
  destruct Hx as [Hz | Hx].
  - specialize (Hzero Hz). split; [lra|]. split; [lra|]. intros _. exact Hzero.
  - split; [|split; [|exact Hzero]].
    all: destruct (rnd_error x Hx) as [H1 H2].
    all: assert ((1 # 67108864) == 134217728 * (1 # 2 ^ 53))%Q as Hu by reflexivity.
    all: assert (0 < 1 # 2 ^ 53)%Q as Hpos by reflexivity.
    all: revert H1 H2 Hu Hpos.
    all: generalize (1 # 2 ^ 53)%Q (1 # 67108864)%Q (rnd x).
    all: intros u v r H1 H2 Hu Hpos.
    all: assert (x * u <= 134217728 * u)%Q by (apply Qmult_le_compat_r; lra).
    all: lra.
Qed.

Lemma discount_cases (d : Z) :
  In d [0; 5; 10; 15; 20; 25; 30] ->
  d = 0 \/ d = 5 \/ d = 10 \/ d = 15 \/ d = 20 \/ d = 25 \/ d = 30.
Proof. simpl. intuition auto. Qed.

(** One operation: its result [r] is recorded with its error bound, and
    as 0 when the exact result is. *)
Ltac rnd_step x :=
  let H1 := fresh "H" in
  let H2 := fresh "H" in
  let Hz := fresh "Hz" in
  let E := fresh "E" in
  let r := fresh "r" in
  destruct (rnd_near x) as [H1 [H2 Hz]];
  [ first [left; lra | right; lra | right; nra] | first [lra | nra] | ];
  first [ assert (E : (rnd x == 0)%Q) by (apply Hz; lra)
        | assert (E : True) by exact I ];
  clear Hz; revert H1 H2 E; generalize (rnd x); intros r H1 H2 E.

Ltac rnd_next :=
  match goal with
  | |- context [rnd ?a] =>
      lazymatch a with
      | context [rnd _] => fail
      | _ => rnd_step a
      end
  end.

(** The discount amount and the final price as the floats compute
    them, against the exact values (A stands for price x quantity). *)
Lemma discount_accurate (A : Q) (d : Z) :
  (100 <= A)%Q -> (A <= 750000)%Q ->
  In d [0; 5; 10; 15; 20; 25; 30] ->
  let D := (A * inject_Z d / 100)%Q in
  let discount_amount := fdiv (fmul (rnd A) (inject_Z d)) 100 in
  let final_price := fsub (rnd A) discount_amount in
  within (1 # 10000000) discount_amount D
  /\ within (1 # 10000000) final_price (A - D)
  /\ (discount_amount == 0 \/ 1 <= discount_amount)%Q
  /\ (discount_amount <= 300000)%Q
  /\ (69 <= final_price)%Q /\ (final_price <= 750001)%Q.
Proof.
  intros HA1 HA2 Hd. cbv zeta. unfold within, fmul, fdiv, fsub.
  apply discount_cases in Hd.
  destruct Hd as [-> | [-> | [-> | [-> | [-> | [-> | ->]]]]]];
    unfold inject_Z, Qdiv; change (/ 100)%Q with (1 # 100)%Q;
    repeat rnd_next;
    (split; [split; lra|]); (split; [split; lra|]);
    (split; [first [left; lra | right; lra]|]); repeat split; lra.
Qed.

(** Multiplying by 100 before [rint] keeps an amount that is accurate
    to 1e-7 accurate to 1e-3. *)
Lemma times100_accurate (y Y : Q) :
  (y == 0 \/ 1 <= y)%Q -> (y <= 1000000)%Q ->
  within (1 # 10000000) y Y ->
  within (1 # 1000) (fmul y 100) (Y * 100).
Proof.
  intros Hy Hb [H1 H2]. unfold within, fmul.
  destruct (rnd_near (y * 100)) as [R1 [R2 _]]; [destruct Hy; [left|right]; lra | lra |].
  revert R1 R2. generalize (rnd (y * 100)). intros r R1 R2. split; lra.
Qed.

(** The profit from an accurate final price and a factor between 0.2
    and 0.4. *)
Lemma profit_accurate (fp E f : Q) :
  (69 <= fp)%Q -> (fp <= 750001)%Q ->
  within (1 # 10000000) fp E ->
  (2 # 10 <= f)%Q -> (f <= 4 # 10)%Q ->
  within (1 # 10000000) (fmul fp f) (E * f)
  /\ (1 <= fmul fp f)%Q /\ (fmul fp f <= 1000000)%Q.
Proof.
  intros Hlo Hhi [H1 H2] Hf1 Hf2. unfold within, fmul.
  assert (69 * f <= fp * f)%Q as P1 by (apply Qmult_le_compat_r; lra).
  assert (fp * f <= 750001 * f)%Q as P2 by (apply Qmult_le_compat_r; lra).
  assert ((fp - E) * f <= (1 # 10000000) * f)%Q as P3
    by (apply Qmult_le_compat_r; lra).
  assert ((E - fp) * f <= (1 # 10000000) * f)%Q as P4
    by (apply Qmult_le_compat_r; lra).
  destruct (rnd_near (fp * f)) as [R1 [R2 _]]; [right; lra | lra |].
  revert R1 R2. generalize (rnd (fp * f)). intros r R1 R2.
  repeat split; lra.
Qed.

(** On a price of 1892.785, three items and 15 percent, each
    operation of the loop body gives the number that the standard library's
    IEEE 754 operation gives. *)
Example float_operations_agree :
  let p := b64_div (b64_of_int 1892785) (b64_of_int 1000) in
  let f := b64_div (b64_of_int 3) (b64_of_int 10) in
  let x1 := b64_mul p (b64_of_int 3) in
  let x2 := b64_mul x1 (b64_of_int 15) in
  let da := b64_div x2 (b64_of_int 100) in
  let fp := b64_sub x1 da in
  let pm := b64_mul fp f in
  (of_spec p == rnd (1892785 # 1000)
   /\ of_spec f == rnd (3 # 10)
   /\ of_spec x1 == fmul (of_spec p) 3
   /\ of_spec x2 == fmul (of_spec x1) 15
   /\ of_spec da == fdiv (of_spec x2) 100
   /\ of_spec fp == fsub (of_spec x1) (of_spec da)
   /\ of_spec pm == fmul (of_spec fp) (of_spec f)
   /\ of_spec (b64_mul da (b64_of_int 100)) == fmul (of_spec da) 100
   /\ of_spec (b64_mul fp (b64_of_int 100)) == fmul (of_spec fp) 100
   /\ of_spec (b64_mul pm (b64_of_int 100)) == fmul (of_spec pm) 100)%Q.
Proof. vm_compute. repeat split. Qed.

(** Python's [round] and numpy's differ on a tie that only the float
    product has: the price 1892.785 is stored as 1892.79, the final price
    of one item without discount as 1892.78. *)
Example round_of_float_and_of_float64 :
  valid_draws tie_draws = true
  /\ Product_Price (record_of 0 tie_draws) = 189279
  /\ Discount_Amount (record_of 0 tie_draws) = 0
  /\ Final_Price (record_of 0 tie_draws) = 189278.
Proof. vm_compute. repeat split. Qed.

(** What [rint] stores of an amount that is accurate to a thousandth. *)
Lemma near_float_rint (y Y : Q) : within (1 # 1000) y Y -> near_float (rint y) Y.
Proof.
  intros [H1 H2]. destruct (round_half_even_near y) as [R1 R2].
  unfold near_float, rint. revert R1 R2.
  generalize (inject_Z (round_half_even y)). intros r R1 R2. split; lra.
Qed.

(** ** The dates the generator writes *)

Lemma forallb_range (P : Z -> bool) (n : nat) :
  forallb P (map Z.of_nat (seq 0 n)) = true ->
  forall k, 0 <= k < Z.of_nat n -> P k = true.
Proof.
  intros Hall k Hk. rewrite forallb_forall in Hall. apply Hall.
  apply in_map_iff. exists (Z.to_nat k). split; [lia|].
  apply in_seq. lia.
Qed.

Lemma generator_dates_checked :
  forallb date_checks (map Z.of_nat (seq 0 376)) = true.
Proof. vm_compute. reflexivity. Qed.

Lemma date_checks_range (k : Z) : 0 <= k <= 375 -> date_checks k = true.
Proof.
  intros Hk. apply (forallb_range date_checks 376 generator_dates_checked).
  change (Z.of_nat 376) with 376. lia.
Qed.

Lemma strftime_to_datetime (k : Z) :
  0 <= k <= 375 ->
  to_datetime (strftime (add_days Generator.start_date k))
  = Ok (add_days Generator.start_date k).
Proof.
  intros Hk. apply date_checks_range in Hk. unfold date_checks in Hk.
  apply andb_true_iff in Hk. destruct Hk as [Hk _].
  destruct (to_datetime _) as [d'|e]; [|discriminate].
  apply date_eqb_eq in Hk. congruence.
Qed.

Lemma add_days_add_days (k dd : Z) :
  0 <= k <= 375 ->
  add_days (add_days Generator.start_date k) dd
  = add_days Generator.start_date (k + dd).
Proof.
  intros Hk. apply date_checks_range in Hk. unfold date_checks in Hk.
  apply andb_true_iff in Hk. destruct Hk as [_ Hk]. apply Z.eqb_eq in Hk.
  unfold add_days at 1. rewrite Hk. unfold add_days. f_equal. lia.
Qed.

(** ** What the generator returns *)

Lemma mapM_ok {A B : Type} (f : A -> result B) (g : A -> B) (l : list A) :
  (forall a, In a l -> f a = Ok (g a)) -> mapM f l = Ok (map g l).
Proof.
  induction l as [|a l IH]; simpl; intros Hf; [reflexivity|].
  rewrite (Hf a (or_introl eq_refl)). simpl.
  rewrite IH by (intros; apply Hf; auto). reflexivity.
Qed.

Lemma mapM_In {A B : Type} (f : A -> result B) (l : list A) (l' : list B) (b : B) :
  mapM f l = Ok l' -> In b l' -> exists a, In a l /\ f a = Ok b.
Proof.
  revert l'. induction l as [|a l IH]; simpl; intros l' E Hb.
  - injection E as <-. contradiction.
  - destruct (f a) as [b0|e] eqn:Ea; simpl in E; [|discriminate].
    destruct (mapM f l) as [bs|e]; simpl in E; [|discriminate].
    injection E as <-. destruct Hb as [<- | Hb].
    + exists a. auto.
    + destruct (IH bs eq_refl Hb) as [a' [Ha' Ea']]. exists a'. auto.
Qed.

Lemma memz_In (z : Z) (l : list Z) : memz z l = true -> In z l.
Proof.
  unfold memz. rewrite existsb_exists. intros [x [Hx E]].
  apply Z.eqb_eq in E. subst. exact Hx.
Qed.

Lemma valid_draws_in_range (t : Draws) : valid_draws t = true -> draws_in_range t.
Proof.
  unfold valid_draws, in_uniform, in_randint.
  rewrite !andb_true_iff, !Z.leb_le, !Z.ltb_lt.
  intros H. decompose [and] H. constructor.
  - apply Qle_bool_iff. assumption.
  - lia.
  - apply memz_In. assumption.
  - lia.
  - lia.
Qed.

Lemma valid_tape_draws (n : nat) (tape : nat -> Draws) (i : nat) :
  valid_tape n tape = true -> (i < n)%nat -> valid_draws (tape i) = true.
Proof.
  unfold valid_tape. rewrite forallb_forall. intros Hall Hi.
  apply Hall. apply in_seq. lia.
Qed.

Lemma derive_record_of (i : Z) (t : Draws) :
  0 <= d_day_offset t <= 365 -> derive (record_of i t) = Ok (row_of i t).
Proof.
  intros Hk. unfold derive. cbn [Order_Date record_of].
  rewrite strftime_to_datetime by lia. reflexivity.
Qed.

(** With at least one record the frame has its columns, and the
    derived columns are computed row by row. *)
Lemma generate_mapM (n : nat) (tape : nat -> Draws) :
  (0 < n)%nat ->
  generate_amazon_sales_data n tape = mapM derive (data_of n tape).
Proof.
  intros Hn. unfold generate_amazon_sales_data.
  destruct n as [|n]; [lia|]. reflexivity.
Qed.

(** With no record the generator raises. *)
Lemma generate_none (tape : nat -> Draws) :
  generate_amazon_sales_data 0 tape = Raise KeyError.
Proof. reflexivity. Qed.

(** On draws in range the generator returns, and returns one row per
    iteration. *)
Lemma generate_ok (n : nat) (tape : nat -> Draws) :
  (0 < n)%nat ->
  valid_tape n tape = true ->
  generate_amazon_sales_data n tape = Ok (rows_of n tape).
Proof.
  intros Hn Hv. rewrite generate_mapM by exact Hn. unfold data_of, rows_of.
  rewrite (mapM_ok derive (fun rec => match derive rec with Ok r => r | Raise _ =>
             row_of 0 (tape O) end)).
  - rewrite map_map. f_equal. apply map_ext_in. intros i Hi.
    apply in_seq in Hi. rewrite derive_record_of; [reflexivity|].
    apply valid_draws_in_range, (valid_tape_draws n tape i Hv). lia.
  - intros rec Hrec. apply in_map_iff in Hrec. destruct Hrec as [i [<- Hi]].
    apply in_seq in Hi. rewrite derive_record_of; [reflexivity|].
    apply valid_draws_in_range, (valid_tape_draws n tape i Hv). lia.
Qed.

Lemma rows_of_In (n : nat) (tape : nat -> Draws) (r : Row string) :
  valid_tape n tape = true ->
  In r (rows_of n tape) ->
  exists i, (i < n)%nat /\ r = row_of (Z.of_nat i) (tape i)
            /\ draws_in_range (tape i).
Proof.
  intros Hv Hr. apply in_map_iff in Hr. destruct Hr as [i [<- Hi]].
  apply in_seq in Hi. exists i. split; [lia|]. split; [reflexivity|].
  apply valid_draws_in_range, (valid_tape_draws n tape i Hv). lia.
Qed.

Lemma mem_In (s : string) (l : list string) : mem s l = true -> In s l.
Proof.
  unfold mem. rewrite existsb_exists. intros [x [Hx E]].
  apply String.eqb_eq in E. subst. exact Hx.
Qed.

Lemma valid_draws_in_support (t : Draws) :
  valid_draws t = true -> draws_in_support t.
Proof.
  unfold valid_draws, in_uniform, in_randint.
  rewrite !andb_true_iff, !negb_true_iff.
  intros H. decompose [and] H.
  constructor; try (apply mem_In; assumption); try (apply memz_In; assumption).
  - apply Qnot_le_lt. intros Hle. apply Qle_bool_iff in Hle. congruence.
  - apply Qle_bool_iff. assumption.
  - apply Qnot_le_lt. intros Hle. apply Qle_bool_iff in Hle. congruence.
Qed.

Lemma rows_of_In_support (n : nat) (tape : nat -> Draws) (r : Row string) :
  valid_tape n tape = true ->
  In r (rows_of n tape) ->
  exists i, (i < n)%nat /\ r = row_of (Z.of_nat i) (tape i)
            /\ draws_in_range (tape i) /\ draws_in_support (tape i).
Proof.
  intros Hv Hr. apply in_map_iff in Hr. destruct Hr as [i [<- Hi]].
  apply in_seq in Hi. exists i. split; [lia|]. split; [reflexivity|].
  pose proof (valid_tape_draws n tape i Hv ltac:(lia)) as Hd.
  split; [apply valid_draws_in_range | apply valid_draws_in_support]; exact Hd.
Qed.

Lemma rows_of_length (n : nat) (tape : nat -> Draws) :
  List.length (rows_of n tape) = n.
Proof. unfold rows_of. rewrite length_map, length_seq. reflexivity. Qed.

(** ** Prices *)

Lemma price_range_low (category : string) :
  (100 <= fst (price_range category))%Q.
Proof.
  unfold price_range.
  repeat match goal with
         | |- context [if ?b then _ else _] => destruct b
         end; simpl; lra.
Qed.

Lemma price_range_high (category : string) :
  (snd (price_range category) <= 150000)%Q.
Proof.
  unfold price_range.
  repeat match goal with
         | |- context [if ?b then _ else _] => destruct b
         end; simpl; lra.
Qed.

Ltac split_draws q d :=
  match goal with
  | Hq : 1 <= q <= 5, Hd : In d _ |- _ =>
      let Hq' := fresh in
      assert (q = 1 \/ q = 2 \/ q = 3 \/ q = 4 \/ q = 5) as Hq' by lia;
      apply discount_cases in Hd;
      destruct Hq' as [-> | [-> | [-> | [-> | ->]]]];
      destruct Hd as [-> | [-> | [-> | [-> | [-> | [-> | ->]]]]]]
  end.

(** The unrounded final price is at least 70: at least 70 percent of a
    price of at least 100, times a quantity of at least 1. *)
Lemma final_price_low (p : Q) (q d : Z) :
  (100 <= p)%Q -> 1 <= q <= 5 -> In d [0; 5; 10; 15; 20; 25; 30] ->
  (inject_Z 7000 <= (p * inject_Z q - p * inject_Z q * inject_Z d / 100) * 100)%Q.
Proof.
  intros Hp Hq Hd. split_draws q d; q_literals; lra.
Qed.

(** The stored discount amount against the stored price, quantity and
    percentage: within 1.25 hundredths, written without fractions. *)
Lemma stored_discount_bound (pp da q d : Z) (p : Q) :
  1 <= q <= 5 -> In d [0; 5; 10; 15; 20; 25; 30] ->
  near pp (p * 100)%Q ->
  near_float da (p * inject_Z q * inject_Z d / 100 * 100)%Q ->
  Z.abs (100 * da - pp * q * d) <= 125.
Proof.
  intros Hq Hd [P1 P2] [D1 D2].
  apply Z.lt_succ_r.
  replace (100 * da - pp * q * d) with (100 * da + - (pp * q * d)) by lia.
  apply Z_abs_lt_of_Q; z_to_q;
    revert P1 P2 D1 D2; generalize (inject_Z pp) (inject_Z da); intros a b;
    split_draws q d; q_literals; simpl Z.succ; simpl Z.opp; intros; lra.
Qed.

(** The four amounts a record stores, against the exact amounts of
    its draws: the price is rounded from the drawn float itself, the other
    three come out of float arithmetic and numpy's rounding. *)
Lemma stored_amounts (i : Z) (t : Draws) :
  draws_in_range t -> draws_in_support t ->
  near (Product_Price (record_of i t)) (d_price t * 100)
  /\ near_float (Discount_Amount (record_of i t)) (exact_discount_amount t * 100)
  /\ near_float (Final_Price (record_of i t)) (exact_final_price t * 100)
  /\ near_float (Profit_Margin (record_of i t)) (exact_profit_margin t * 100).
Proof.
  intros [Hp Hq Hd _ _] Hs.
  destruct Hs as [_ _ Hhi _ _ _ _ _ _ _ Hflo Hfhi].
  pose proof (price_range_low (d_category t)) as Hlo'.
  pose proof (price_range_high (d_category t)) as Hhi'.
  cbn [Product_Price Discount_Amount Final_Price Profit_Margin record_of].
  split; [apply round_half_even_near|].
  assert (100 <= d_price t * inject_Z (d_quantity t)
          /\ d_price t * inject_Z (d_quantity t) <= 750000)%Q as [HA1 HA2].
  { assert (d_quantity t = 1 \/ d_quantity t = 2 \/ d_quantity t = 3
            \/ d_quantity t = 4 \/ d_quantity t = 5) as Hq' by lia.
    revert Hp Hhi Hlo' Hhi'.
    generalize (fst (price_range (d_category t)))
               (snd (price_range (d_category t))) (d_price t).
    intros lo hi p Hp Hhi Hlo' Hhi'.
    destruct Hq' as [-> | [-> | [-> | [-> | ->]]]]; unfold inject_Z; split; lra. }
  pose proof (discount_accurate _ _ HA1 HA2 Hd) as Hacc. cbv zeta in Hacc.
  change (fdiv (fmul (rnd (d_price t * inject_Z (d_quantity t)))
                     (inject_Z (d_discount_percent t))) 100)
    with (discount_amount_of t) in Hacc.
  change (fsub (rnd (d_price t * inject_Z (d_quantity t))) (discount_amount_of t))
    with (final_price_of t) in Hacc.
  change (d_price t * inject_Z (d_quantity t) * inject_Z (d_discount_percent t) / 100)%Q
    with (exact_discount_amount t) in Hacc.
  change (d_price t * inject_Z (d_quantity t) - exact_discount_amount t)%Q
    with (exact_final_price t) in Hacc.
  destruct Hacc as [HD [HF [HDz [HDhi [HFlo HFhi]]]]].
  assert (d_profit_factor t <= 4 # 10)%Q as Hfhi' by lra.
  destruct (profit_accurate _ _ _ HFlo HFhi HF Hflo Hfhi') as [HP [HPlo HPhi]].
  change (fmul (final_price_of t) (d_profit_factor t))
    with (profit_margin_of t) in HP, HPlo, HPhi.
  change (exact_final_price t * d_profit_factor t)%Q
    with (exact_profit_margin t) in HP.
  unfold np_round2.
  split; [|split]; apply near_float_rint, times100_accurate;
    try assumption; lra.
Qed.

(** The exact final price is at least 70. *)
Lemma exact_final_price_low (t : Draws) :
  draws_in_range t -> (inject_Z 7000 <= exact_final_price t * 100)%Q.
Proof.
  intros [Hp Hq Hd _ _]. unfold exact_final_price, exact_discount_amount.
  apply final_price_low; try assumption.
  eapply Qle_trans; [apply price_range_low | exact Hp].
Qed.

(** C10. Every generated record has a strictly positive final
    price: the generator returns, and each row's stored Final_Price is
    above zero. *)
Theorem final_price_positive (n : nat) (tape : nat -> Draws) :
  (0 < n)%nat ->
  valid_tape n tape = true ->
  exists df, generate_amazon_sales_data n tape = Ok df
             /\ List.length df = n
             /\ forall r, In r df -> 0 < Final_Price r.
Proof.
  intros Hn Hv. exists (rows_of n tape).
  split; [apply generate_ok; assumption|]. split; [apply rows_of_length|].
  intros r Hr.
  destruct (rows_of_In_support n tape r Hv Hr) as [i [_ [-> [Hrange Hsupp]]]].
  destruct (stored_amounts (Z.of_nat i) (tape i) Hrange Hsupp)
    as [_ [_ [[_ HF] _]]].
  pose proof (exact_final_price_low (tape i) Hrange) as Hlow.
  cbn [Final_Price base row_of].
  apply Z_lt_of_Q. revert HF Hlow.
  generalize (inject_Z (Final_Price (record_of (Z.of_nat i) (tape i))))
             (exact_final_price (tape i)).
  intros a F HF Hlow. unfold inject_Z in *. lra.
Qed.

Lemma final_price_positive_witness :
  (0 < 2)%nat
  /\ valid_tape 2 sample_tape = true
  /\ exists df, generate_amazon_sales_data 2 sample_tape = Ok df
                /\ List.length df = 2%nat
                /\ forall r, In r df -> 0 < Final_Price r.
Proof.
  split; [lia|]. split; [reflexivity|].
  apply (final_price_positive 2 sample_tape); [lia | reflexivity].
Defined.

(** C2, as stated, fails: with the float nearest to 100.004 as the
    price draw, quantity 5 and no discount the record stores Product_Price
    100.00, Discount_Amount 0.00 and Final_Price 500.02, not 500.00. *)
Lemma final_price_not_exact :
  valid_tape 1 sample_tape = true
  /\ exists r, generate_amazon_sales_data 1 sample_tape = Ok [r]
               /\ Product_Price r = 10000 /\ Quantity r = 5
               /\ Discount_Percent r = 0 /\ Discount_Amount r = 0
               /\ Final_Price r = 50002
               /\ Final_Price r <> Product_Price r * Quantity r - Discount_Amount r.
Proof.
  split; [reflexivity|].
  eexists. split; [vm_compute; reflexivity|].
  cbn. repeat split; discriminate.
Qed.

(** C2, amended. For every generated record, the stored Final_Price
    is at least 0 and within 0.03 of stored Product_Price x Quantity -
    Discount_Amount, and the stored Discount_Amount is within 0.0125 of
    stored Product_Price x Quantity x Discount_Percent / 100: the three
    fields are rounded to two decimals one by one, so the relation holds up
    to rounding only.  Amounts are in hundredths. *)
Theorem final_price_relation (n : nat) (tape : nat -> Draws) :
  (0 < n)%nat ->
  valid_tape n tape = true ->
  exists df, generate_amazon_sales_data n tape = Ok df
    /\ forall r, In r df ->
         0 <= Final_Price r
         /\ Z.abs (Final_Price r
                   - (Product_Price r * Quantity r - Discount_Amount r)) <= 3
         /\ Z.abs (100 * Discount_Amount r
                   - Product_Price r * Quantity r * Discount_Percent r) <= 125.
Proof.
  intros Hn Hv. exists (rows_of n tape). split; [apply generate_ok; assumption|].
  intros r Hr.
  destruct (rows_of_In_support n tape r Hv Hr) as [i [_ [-> [Hrange Hsupp]]]].
  destruct (stored_amounts (Z.of_nat i) (tape i) Hrange Hsupp)
    as [HP [HD [HF _]]].
  pose proof (exact_final_price_low (tape i) Hrange) as Hlow.
  destruct Hrange as [Hp Hq Hd _ _].
  change (Product_Price (row_of (Z.of_nat i) (tape i)))
    with (Product_Price (record_of (Z.of_nat i) (tape i))).
  change (Discount_Amount (row_of (Z.of_nat i) (tape i)))
    with (Discount_Amount (record_of (Z.of_nat i) (tape i))).
  change (Final_Price (row_of (Z.of_nat i) (tape i)))
    with (Final_Price (record_of (Z.of_nat i) (tape i))).
  change (Quantity (row_of (Z.of_nat i) (tape i))) with (d_quantity (tape i)).
  change (Discount_Percent (row_of (Z.of_nat i) (tape i)))
    with (d_discount_percent (tape i)).
  split; [|split].
  - apply Z.lt_le_incl, Z_lt_of_Q. destruct HF as [_ HF]. revert HF Hlow.
    generalize (inject_Z (Final_Price (record_of (Z.of_nat i) (tape i))))
               (exact_final_price (tape i)).
    intros a F HF Hlow. unfold inject_Z in *. lra.
  - apply (stored_relation_bound _ _ _ _ (d_price (tape i))
             (exact_discount_amount (tape i))); assumption.
  - apply (stored_discount_bound _ _ _ _ (d_price (tape i))); assumption.
Qed.

Lemma final_price_relation_witness :
  (0 < 2)%nat
  /\ valid_tape 2 sample_tape = true
  /\ exists df, generate_amazon_sales_data 2 sample_tape = Ok df
    /\ forall r, In r df ->
         0 <= Final_Price r
         /\ Z.abs (Final_Price r
                   - (Product_Price r * Quantity r - Discount_Amount r)) <= 3
         /\ Z.abs (100 * Discount_Amount r
                   - Product_Price r * Quantity r * Discount_Percent r) <= 125.
Proof.
  split; [lia|]. split; [reflexivity|].
  apply (final_price_relation 2 sample_tape); [lia | reflexivity].
Defined.

(** ** Dates of a record *)

Lemma record_dates (i : Z) (t : Draws) :
  draws_in_range t ->
  to_datetime (Order_Date (row_of i t))
  = Ok (add_days Generator.start_date (d_day_offset t))
  /\ to_datetime (Delivery_Date (row_of i t))
     = Ok (add_days (add_days Generator.start_date (d_day_offset t))
                    (d_delivery_days t)).
Proof.
  intros [_ _ _ Hdd Hk]. cbn [Order_Date Delivery_Date base row_of record_of].
  split.
  - apply strftime_to_datetime. lia.
  - rewrite add_days_add_days by lia. apply strftime_to_datetime. lia.
Qed.

Lemma convert_dates_row_of (i : Z) (t : Draws) :
  draws_in_range t -> convert_dates (row_of i t) = Ok (loaded_row_of i t).
Proof.
  intros Hr. destruct (record_dates i t Hr) as [Ho Hd].
  unfold convert_dates. rewrite Ho, Hd. reflexivity.
Qed.

Lemma load_rows_of (n : nat) (tape : nat -> Draws) :
  valid_tape n tape = true ->
  load_data (Some (rows_of n tape))
  = Ok (Some (map (fun i => loaded_row_of (Z.of_nat i) (tape i)) (seq 0 n))).
Proof.
  intros Hv. unfold load_data, rows_of.
  rewrite (mapM_ok convert_dates
             (fun r => match convert_dates r with
                       | Ok r' => r'
                       | Raise _ => loaded_row_of 0 (tape O)
                       end)).
  - simpl. rewrite map_map. do 2 f_equal. apply map_ext_in. intros i Hi.
    apply in_seq in Hi. rewrite convert_dates_row_of; [reflexivity|].
    apply valid_draws_in_range, (valid_tape_draws n tape i Hv). lia.
  - intros r Hr. destruct (rows_of_In n tape r Hv Hr) as [i [_ [-> Hrange]]].
    rewrite convert_dates_row_of by assumption. reflexivity.
Qed.

Lemma generator_deliveries_checked :
  forallb delivery_checks (map Z.of_nat (seq 0 366)) = true.
Proof. vm_compute. reflexivity. Qed.

Lemma delivery_checks_range (k : Z) : 0 <= k <= 365 -> delivery_checks k = true.
Proof.
  intros Hk. apply (forallb_range delivery_checks 366 generator_deliveries_checked).
  change (Z.of_nat 366) with 366. lia.
Qed.

Lemma toordinal_add_days (k : Z) :
  0 <= k <= 375 ->
  toordinal (add_days Generator.start_date k)
  = toordinal Generator.start_date + k.
Proof.
  intros Hk. apply date_checks_range in Hk. unfold date_checks in Hk.
  apply andb_true_iff in Hk. destruct Hk as [_ Hk]. apply Z.eqb_eq, Hk.
Qed.

(** The two dates of a generated record are its delivery days apart. *)
Lemma record_ordinals (t : Draws) :
  draws_in_range t ->
  let order_date := add_days Generator.start_date (d_day_offset t) in
  toordinal (add_days order_date (d_delivery_days t)) - toordinal order_date
  = d_delivery_days t.
Proof.
  intros [_ _ _ Hdd Hk]. cbv zeta.
  rewrite add_days_add_days by lia.
  rewrite !toordinal_add_days by lia. lia.
Qed.

Lemma apply_filters_In (df : DataFrame) (f : FilterSpec) (r : Row date) :
  In r (apply_filters df f) -> In r df.
Proof.
  rewrite apply_filters_filter. unfold spec_filter. rewrite filter_In. tauto.
Qed.

(** C7. For every record of the generator, for every record count
    of at least one, the delivery date is the order date plus the record's
    delivery days: the day numbers of the two dates differ by exactly
    Delivery_Days.  The dates that [load_data] converts still satisfy it,
    and so does every row of every filtered set, which the dashboard only
    selects and never rewrites. *)
Theorem delivery_date_invariant (n : nat) (tape : nat -> Draws) :
  (0 < n)%nat ->
  valid_tape n tape = true ->
  exists df, generate_amazon_sales_data n tape = Ok df
    /\ List.length df = n
    /\ (forall r, In r df ->
          exists order_date delivery_date,
            to_datetime (Order_Date r) = Ok order_date
            /\ to_datetime (Delivery_Date r) = Ok delivery_date
            /\ delivery_date = add_days order_date (Delivery_Days r)
            /\ toordinal delivery_date - toordinal order_date
               = Delivery_Days r)
    /\ exists loaded, load_data (Some df) = Ok (Some loaded)
         /\ (forall r : Row date, In r loaded ->
               Delivery_Date r = add_days (Order_Date r) (Delivery_Days r)
               /\ toordinal (Delivery_Date r) - toordinal (Order_Date r)
                  = Delivery_Days r)
         /\ (forall (f : FilterSpec) (r : Row date),
               In r (apply_filters loaded f) ->
               In r loaded
               /\ Delivery_Date r = add_days (Order_Date r) (Delivery_Days r)
               /\ toordinal (Delivery_Date r) - toordinal (Order_Date r)
                  = Delivery_Days r).
Proof.
  intros Hn Hv. exists (rows_of n tape).
  split; [apply generate_ok; assumption|]. split; [apply rows_of_length|]. split.
  - intros r Hr. destruct (rows_of_In n tape r Hv Hr) as [i [_ [-> Hrange]]].
    destruct (record_dates (Z.of_nat i) (tape i) Hrange) as [Ho Hd].
    eexists. eexists. split; [exact Ho|]. split; [exact Hd|].
    split; [reflexivity|].
    cbn [Delivery_Days base row_of record_of].
    apply (record_ordinals (tape i) Hrange).
  - eexists. split; [apply load_rows_of, Hv|].
    assert (forall r : Row date,
               In r (map (fun i => loaded_row_of (Z.of_nat i) (tape i)) (seq 0 n)) ->
               Delivery_Date r = add_days (Order_Date r) (Delivery_Days r)
               /\ toordinal (Delivery_Date r) - toordinal (Order_Date r)
                  = Delivery_Days r) as Hinv.
    { intros r Hr. apply in_map_iff in Hr. destruct Hr as [i [<- Hi]].
      apply in_seq in Hi. split; [reflexivity|].
      cbn [Delivery_Date Order_Date Delivery_Days base loaded_row_of row_of
           record_of].
      apply (record_ordinals (tape i)).
      apply valid_draws_in_range, (valid_tape_draws n tape i Hv). lia. }
    split; [exact Hinv|].
    intros f r Hr. apply apply_filters_In in Hr. split; [exact Hr | apply Hinv, Hr].
Qed.

Lemma delivery_date_invariant_witness :
  (0 < 2)%nat
  /\ valid_tape 2 sample_tape = true
  /\ exists df, generate_amazon_sales_data 2 sample_tape = Ok df
    /\ List.length df = 2%nat
    /\ (forall r, In r df ->
          exists order_date delivery_date,
            to_datetime (Order_Date r) = Ok order_date
            /\ to_datetime (Delivery_Date r) = Ok delivery_date
            /\ delivery_date = add_days order_date (Delivery_Days r)
            /\ toordinal delivery_date - toordinal order_date
               = Delivery_Days r)
    /\ exists loaded, load_data (Some df) = Ok (Some loaded)
         /\ (forall r : Row date, In r loaded ->
               Delivery_Date r = add_days (Order_Date r) (Delivery_Days r)
               /\ toordinal (Delivery_Date r) - toordinal (Order_Date r)
                  = Delivery_Days r)
         /\ (forall (f : FilterSpec) (r : Row date),
               In r (apply_filters loaded f) ->
               In r loaded
               /\ Delivery_Date r = add_days (Order_Date r) (Delivery_Days r)
               /\ toordinal (Delivery_Date r) - toordinal (Order_Date r)
                  = Delivery_Days r).
Proof.
  split; [lia|]. split; [reflexivity|].
  apply (delivery_date_invariant 2 sample_tape); [lia | reflexivity].
Defined.

(** ** Derived date columns *)

Lemma derive_derived_of (rec : Record_ string) (r : Row string) :
  derive rec = Ok r ->
  base r = rec /\ derived_of (Order_Date rec) = Ok (derived_columns r).
Proof.
  unfold derive, derived_of. destruct (to_datetime (Order_Date rec)) as [dt|e];
    simpl; [|discriminate].
  intros E. injection E as <-. split; reflexivity.
Qed.

(** C9. In every generated dataset the four derived columns of a
    row are the value of one function, [derived_of], at the row's order
    date and nothing else; two rows with the same order date agree on them;
    and a row dated 2023-01-02 has day name Monday, month 1 and quarter 1. *)
Theorem derived_columns_pure (n : nat) (tape : nat -> Draws) :
  (0 < n)%nat ->
  valid_tape n tape = true ->
  exists df, generate_amazon_sales_data n tape = Ok df
    /\ List.length df = n
    /\ (forall r, In r df ->
          derived_of (Order_Date r) = Ok (derived_columns r))
    /\ (forall r r', In r df -> In r' df -> Order_Date r = Order_Date r' ->
          derived_columns r = derived_columns r')
    /\ (forall r, In r df -> Order_Date r = "2023-01-02" ->
          Order_DayName r = Some "Monday"
          /\ Order_Month r = 1 /\ Order_Quarter r = 1
          /\ Order_DayOfWeek r = 0).
Proof.
  intros Hn Hv. exists (rows_of n tape).
  pose proof (generate_ok n tape Hn Hv) as Hgen.
  assert (forall r, In r (rows_of n tape) ->
            derived_of (Order_Date r) = Ok (derived_columns r)) as Hpure.
  { intros r Hr. rewrite generate_mapM in Hgen by exact Hn.
    destruct (mapM_In _ _ _ r Hgen Hr) as [rec [_ Hd]].
    apply derive_derived_of in Hd. destruct Hd as [<- Hd]. exact Hd. }
  split; [exact Hgen|]. split; [apply rows_of_length|]. split; [exact Hpure|].
  split.
  - intros r r' Hr Hr' E. apply Hpure in Hr, Hr'. rewrite E in Hr. congruence.
  - intros r Hr E. apply Hpure in Hr. rewrite E in Hr.
    assert (derived_of "2023-01-02" = Ok (1, 0, 1, Some "Monday")) as Hmon
      by (vm_compute; reflexivity).
    rewrite Hmon in Hr. unfold derived_columns in Hr.
    injection Hr as E1 E2 E3 E4. auto.
Qed.

Lemma derived_columns_pure_witness :
  (0 < 2)%nat
  /\ valid_tape 2 sample_tape = true
  /\ exists df, generate_amazon_sales_data 2 sample_tape = Ok df
    /\ List.length df = 2%nat
    /\ (forall r, In r df ->
          derived_of (Order_Date r) = Ok (derived_columns r))
    /\ (forall r r', In r df -> In r' df -> Order_Date r = Order_Date r' ->
          derived_columns r = derived_columns r')
    /\ (forall r, In r df -> Order_Date r = "2023-01-02" ->
          Order_DayName r = Some "Monday"
          /\ Order_Month r = 1 /\ Order_Quarter r = 1
          /\ Order_DayOfWeek r = 0).
Proof.
  split; [lia|]. split; [reflexivity|].
  apply (derived_columns_pure 2 sample_tape); [lia | reflexivity].
Defined.

(** ** The correlation matrix *)

Module CorrFacts.
Local Open Scope R_scope.

Lemma rsum_sq_nonneg (f : R -> R) (l : list R) :
  0 <= rsum (map (fun x => f x * f x) l).
Proof.
  induction l as [|a l IH]; simpl; [lra|].
  pose proof (Rle_0_sqr (f a)) as Ha. unfold Rsqr in Ha. lra.
Qed.

Lemma rsum_sq_zero (f : R -> R) (l : list R) :
  rsum (map (fun x => f x * f x) l) = 0 -> forall x, In x l -> f x = 0.
Proof.
  induction l as [|a l IH]; simpl; intros E x Hx; [contradiction|].
  pose proof (Rle_0_sqr (f a)) as Ha. unfold Rsqr in Ha.
  pose proof (rsum_sq_nonneg f l) as Hl.
  destruct Hx as [<- | Hx].
  - apply Rsqr_0_uniq. unfold Rsqr. lra.
  - apply IH; [lra | exact Hx].
Qed.

Lemma ssqdm_nonneg (l : list R) : 0 <= ssqdm l.
Proof. apply (rsum_sq_nonneg (fun x => x - rmean l)). Qed.

Lemma varies_ssqdm (l : list R) : varies l -> ssqdm l <> 0.
Proof.
  intros [x [y [Hx [Hy Hne]]]] E.
  pose proof (rsum_sq_zero (fun x => x - rmean l) l E) as Hz.
  pose proof (Hz x Hx). pose proof (Hz y Hy). simpl in *. lra.
Qed.

Lemma rsum_constant (c : R) (l : list R) :
  (forall x, In x l -> x = c) -> rsum l = INR (List.length l) * c.
Proof.
  induction l as [|a l IH]; intros Hc.
  - simpl. lra.
  - change (rsum (a :: l)) with (a + rsum l).
    change (List.length (a :: l)) with (S (List.length l)).
    rewrite S_INR, IH by (intros; apply Hc; right; assumption).
    rewrite (Hc a (or_introl eq_refl)). lra.
Qed.

Lemma rsum_zero (f : R -> R) (l : list R) :
  (forall x, In x l -> f x = 0) -> rsum (map f l) = 0.
Proof.
  induction l as [|a l IH]; simpl; intros Hz; [reflexivity|].
  rewrite (Hz a (or_introl eq_refl)), IH by (intros; apply Hz; auto). lra.
Qed.

Lemma constant_ssqdm (l : list R) : ~ varies l -> ssqdm l = 0.
Proof.
  intros Hnv. destruct l as [|c l]; [reflexivity|].
  assert (forall x, In x (c :: l) -> x = c) as Hc.
  { intros x Hx. destruct (Req_dec_T x c) as [E | Hne]; [exact E|].
    exfalso. apply Hnv. exists x, c. simpl. simpl in Hx. tauto. }
  assert (rmean (c :: l) = c) as Hm.
  { unfold rmean. rewrite (rsum_constant c) by exact Hc.
    assert (INR (List.length (c :: l)) <> 0) by (apply not_0_INR; discriminate).
    field. assumption. }
  unfold ssqdm. apply rsum_zero. intros x Hx.
  rewrite Hm, (Hc x Hx). lra.
Qed.

Lemma combine_diag (l : list R) : combine l l = map (fun x => (x, x)) l.
Proof. induction l as [|a l IH]; simpl; [|rewrite IH]; reflexivity. Qed.

Lemma covxy_diag (xs : list R) : covxy xs xs = ssqdm xs.
Proof. unfold covxy, ssqdm. rewrite combine_diag, map_map. reflexivity. Qed.

Lemma combine_swap (xs ys : list R) :
  combine ys xs = map (fun p => (snd p, fst p)) (combine xs ys).
Proof.
  revert ys. induction xs as [|x xs IH]; intros [|y ys]; simpl;
    [reflexivity .. |]. rewrite IH. reflexivity.
Qed.

Lemma covxy_sym (xs ys : list R) : covxy xs ys = covxy ys xs.
Proof.
  unfold covxy. rewrite (combine_swap xs ys), map_map. f_equal.
  apply map_ext. intros [x y]. simpl. lra.
Qed.

Lemma pearson_sym (xs ys : list R) :
  List.length xs = List.length ys -> pearson xs ys = pearson ys xs.
Proof.
  intros E. unfold pearson. rewrite E, (Rmult_comm (ssqdm ys)), (covxy_sym ys xs).
  reflexivity.
Qed.

Lemma pearson_diag_varies (xs : list R) : varies xs -> pearson xs xs = Some 1.
Proof.
  intros Hv. pose proof (varies_ssqdm xs Hv) as Hne.
  pose proof (ssqdm_nonneg xs) as Hpos.
  unfold pearson. destruct xs as [|x xs]; [exfalso; apply Hne; reflexivity|].
  simpl Nat.ltb. cbv iota.
  rewrite sqrt_square by exact Hpos.
  destruct (Req_dec_T (ssqdm (x :: xs)) 0) as [E | _]; [contradiction|].
  rewrite covxy_diag. apply f_equal. field. exact Hne.
Qed.

Lemma pearson_diag_constant (xs : list R) : ~ varies xs -> pearson xs xs = None.
Proof.
  intros Hv. unfold pearson. rewrite (constant_ssqdm xs Hv).
  destruct (List.length xs <? 1)%nat; [reflexivity|].
  rewrite Rmult_0_l, sqrt_0.
  destruct (Req_dec_T 0 0) as [_ | Hne]; [reflexivity | contradiction].
Qed.

Lemma entry_corr (cols : list (list R)) (i j : nat) :
  (i < List.length cols)%nat -> (j < List.length cols)%nat ->
  entry (corr cols) i j = pearson (nth i cols []) (nth j cols []).
Proof.
  intros Hi Hj. unfold entry, corr.
  rewrite (nth_indep _ [] (map (fun ys => pearson [] ys) cols))
    by (rewrite length_map; exact Hi).
  rewrite (map_nth (fun xs => map (fun ys => pearson xs ys) cols) cols [] i).
  rewrite (nth_indep _ None (pearson (nth i cols []) []))
    by (rewrite length_map; exact Hj).
  apply (map_nth (fun ys => pearson (nth i cols []) ys) cols [] j).
Qed.

Lemma entry_corr_matrix (df : DataFrame) (i j : nat) :
  (i < 7)%nat -> (j < 7)%nat ->
  entry (corr_matrix df) i j = pearson (column i df) (column j df).
Proof.
  intros Hi Hj. unfold corr_matrix.
  rewrite entry_corr by (rewrite length_map; exact Hi || exact Hj).
  unfold column.
  rewrite !(nth_indep _ [] (col (snd ("", fun _ : Row date => 0)) df))
    by (rewrite length_map; exact Hi || exact Hj).
  rewrite !(map_nth (fun c => col (snd c) df)). reflexivity.
Qed.

Lemma column_length (i : nat) (df : DataFrame) :
  List.length (column i df) = List.length df.
Proof. unfold column, col. apply length_map. Qed.

End CorrFacts.

Import CorrFacts.

Lemma single_not_varies (v : R) : ~ varies [v].
Proof.
  intros [x [y [Hx [Hy Hne]]]]. simpl in Hx, Hy.
  destruct Hx as [<- | []], Hy as [<- | []]. apply Hne. reflexivity.
Qed.

(** C8, as stated, fails: on a filtered set of one row the divisor
    of every coefficient is 0, and the diagonal entries are NaN, not 1.0. *)
Lemma corr_diag_single_row :
  (1 <= List.length single_row_frame)%nat
  /\ entry (corr_matrix single_row_frame) 0 0 = None
  /\ entry (corr_matrix single_row_frame) 0 0 <> Some 1%R.
Proof.
  assert (entry (corr_matrix single_row_frame) 0 0 = None) as E.
  { rewrite entry_corr_matrix by lia. apply pearson_diag_constant.
    apply single_not_varies. }
  split; [simpl; lia|]. split; [exact E|]. rewrite E. discriminate.
Qed.

(** C8, amended. Over the seven numeric fields the correlation
    matrix of any filtered set is symmetric (entry (i,j) and entry (j,i)
    are the same number, or both NaN); a diagonal entry is 1 when its field
    takes at least two distinct values in the set, and NaN otherwise, as on
    a single row or a constant column.  Coefficients are exact reals here. *)
Theorem corr_matrix_diag_sym (df : DataFrame) (i j : nat) :
  (i < 7)%nat -> (j < 7)%nat ->
  entry (corr_matrix df) i j = entry (corr_matrix df) j i
  /\ (varies (column i df) -> entry (corr_matrix df) i i = Some 1%R)
  /\ (~ varies (column i df) -> entry (corr_matrix df) i i = None).
Proof.
  intros Hi Hj. rewrite !entry_corr_matrix by assumption.
  split; [|split].
  - apply pearson_sym. rewrite !column_length. reflexivity.
  - apply pearson_diag_varies.
  - apply pearson_diag_constant.
Qed.

Lemma corr_matrix_diag_sym_witness :
  entry (corr_matrix sample_frame) 0 3 = entry (corr_matrix sample_frame) 3 0
  /\ entry (corr_matrix sample_frame) 0 0 = Some 1%R.
Proof.
  destruct (corr_matrix_diag_sym sample_frame 0 3) as [Hsym [Hdiag _]];
    [lia | lia |].
  split; [exact Hsym|]. apply Hdiag.
  exists (money 10000), (money 1234567).
  split; [left; reflexivity|]. split; [right; left; reflexivity|].
  unfold money. lra.
Defined.

(** ** Views over an empty selection *)

Lemma sales_insights_nil : sales_insights [] = Raise ValueError.
Proof. reflexivity. Qed.

Lemma most_popular_payment_nil : most_popular_payment [] = Raise KeyError.
Proof. reflexivity. Qed.

(** On an empty selection the run ends at the first chart, which is
    handed no data. *)
Lemma dashboard_empty (df : DataFrame) (f : FilterSpec) :
  apply_filters df f = [] -> dashboard df f = Raise ValueError.
Proof. intros E. unfold dashboard. rewrite E. reflexivity. Qed.

Lemma app_empty (file : option (list (Row string))) (df : DataFrame)
      (f : FilterSpec) :
  load_data file = Ok (Some df) -> apply_filters df f = [] ->
  app file f = Raise ValueError.
Proof.
  intros Hload Hempty. unfold app. rewrite Hload. cbn [bind].
  rewrite (dashboard_empty df f Hempty). reflexivity.
Qed.

(** C1, the code at a selection of zero rows (start date after end
    date): the scalar KPIs and the grouped views give 0, NaN or an empty
    Series, but the Key Insights raise ValueError at [idxmax] and the modal
    payment method raises KeyError at [mode()[0]]; the page run ends in the
    exception instead of reporting "no data" (it ends with ValueError at
    the first chart already, which is handed the empty sales by
    category). *)
Theorem empty_selection_raises :
  load_data (Some sample_file) = Ok (Some sample_frame)
  /\ apply_filters sample_frame inverted_range = []
  /\ total_sales [] = 0
  /\ avg_order_value [] = None
  /\ avg_rating [] = None
  /\ return_rate [] = None
  /\ category_sales [] = []
  /\ payment_dist [] = []
  /\ sales_insights (apply_filters sample_frame inverted_range) = Raise ValueError
  /\ most_popular_payment (apply_filters sample_frame inverted_range)
     = Raise KeyError
  /\ dashboard sample_frame inverted_range = Raise ValueError
  /\ app (Some sample_file) inverted_range = Raise ValueError.
Proof.
  assert (load_data (Some sample_file) = Ok (Some sample_frame)) as Hload
    by (apply (load_rows_of 2 sample_tape); reflexivity).
  assert (apply_filters sample_frame inverted_range = []) as Hempty
    by (vm_compute; reflexivity).
  split; [exact Hload|]. split; [exact Hempty|].
  do 6 (split; [reflexivity|]).
  rewrite Hempty.
  split; [apply sales_insights_nil|]. split; [apply most_popular_payment_nil|].
  split; [apply dashboard_empty, Hempty|].
  apply (app_empty _ _ _ Hload Hempty).
Qed.

(* ================================================================== *)
(** * Further properties of the code *)

(** ** The order of dates *)

Ltac date_order :=
  repeat match goal with
         | d : date |- _ => destruct d
         end;
  unfold date_min, date_max, date_leb, date_ltb in *; simpl in *;
  repeat match goal with
         | H : context [if ?b then _ else _] |- _ => destruct b eqn:?; simpl in H
         | |- context [if ?b then _ else _] => destruct b eqn:?; simpl
         end;
  rewrite ?negb_true_iff, ?negb_false_iff, ?orb_true_iff, ?orb_false_iff,
    ?andb_true_iff, ?andb_false_iff, ?orb_true_iff, ?orb_false_iff,
    ?andb_true_iff, ?andb_false_iff, ?Z.ltb_lt, ?Z.ltb_ge, ?Z.eqb_eq, ?Z.eqb_neq in *;
  try lia.

Lemma date_leb_refl (a : date) : date_leb a a = true.
Proof. date_order. Qed.

Lemma date_leb_trans (a b c : date) :
  date_leb a b = true -> date_leb b c = true -> date_leb a c = true.
Proof. intros H1 H2. date_order. Qed.

Lemma date_min_le_l (a b : date) : date_leb (date_min a b) a = true.
Proof. date_order. Qed.

Lemma date_min_le_r (a b : date) : date_leb (date_min a b) b = true.
Proof. date_order. Qed.

Lemma date_max_ge_l (a b : date) : date_leb a (date_max a b) = true.
Proof. date_order. Qed.

Lemma date_max_ge_r (a b : date) : date_leb b (date_max a b) = true.
Proof. date_order. Qed.

Lemma fold_date_min_le (t : DataFrame) (m : date) :
  let lo := fold_left (fun m (r : Row date) => date_min m (Order_Date r)) t m in
  date_leb lo m = true
  /\ forall r : Row date, In r t -> date_leb lo (Order_Date r) = true.
Proof.
  revert m. induction t as [|r t IH]; intros m; simpl.
  - split; [apply date_leb_refl | contradiction].
  - destruct (IH (date_min m (Order_Date r))) as [Hm Ht]. split.
    + eapply date_leb_trans; [exact Hm | apply date_min_le_l].
    + intros r' [<- | Hr'].
      * eapply date_leb_trans; [exact Hm | apply date_min_le_r].
      * apply Ht, Hr'.
Qed.

Lemma fold_date_max_ge (t : DataFrame) (m : date) :
  let hi := fold_left (fun m (r : Row date) => date_max m (Order_Date r)) t m in
  date_leb m hi = true
  /\ forall r : Row date, In r t -> date_leb (Order_Date r) hi = true.
Proof.
  revert m. induction t as [|r t IH]; intros m; simpl.
  - split; [apply date_leb_refl | contradiction].
  - destruct (IH (date_max m (Order_Date r))) as [Hm Ht]. split.
    + eapply date_leb_trans; [apply date_max_ge_l | exact Hm].
    + intros r' [<- | Hr'].
      * eapply date_leb_trans; [apply date_max_ge_r | exact Hm].
      * apply Ht, Hr'.
Qed.

(** ** Filtering, further *)

(** X1. With the sidebar untouched (every selectbox on "All", the date
    inputs on the smallest and largest order date of the dataset) the
    filtered set is the whole dataset. *)
Theorem default_selection_keeps_all (df : DataFrame) (f : FilterSpec) :
  default_selection df = Some f -> apply_filters df f = df.
Proof.
  unfold default_selection, min_date, max_date.
  destruct df as [|r t]; [discriminate|].
  intros E. injection E as <-.
  rewrite apply_filters_filter. unfold spec_filter.
  apply filter_all. intros r' Hr'. unfold selects.
  cbn [selected_category selected_city selected_segment start_date end_date].
  rewrite !field_matches_All. simpl.
  destruct (fold_date_min_le t (Order_Date r)) as [Hlo Hlos].
  destruct (fold_date_max_ge t (Order_Date r)) as [Hhi His].
  apply andb_true_iff. destruct Hr' as [<- | Hr'].
  - split; assumption.
  - split; [apply Hlos | apply His]; exact Hr'.
Qed.

Lemma default_selection_keeps_all_witness :
  default_selection sample_frame
  = Some (mkFilter "All" "All" "All" (mkdate 2023 1 2) (mkdate 2024 1 1))
  /\ apply_filters sample_frame
       (mkFilter "All" "All" "All" (mkdate 2023 1 2) (mkdate 2024 1 1))
     = sample_frame.
Proof.
  split; [reflexivity|].
  apply (default_selection_keeps_all sample_frame). reflexivity.
Defined.

Lemma filter_idem {A : Type} (p : A -> bool) (l : list A) :
  filter p (filter p l) = filter p l.
Proof.
  rewrite filter_filter. apply filter_ext. intros a. destruct (p a); reflexivity.
Qed.

(** X2. Filter passes compose as a conjunction: a row survives two
    passes exactly when it is in the dataset and both selections let it
    through; any two passes commute; and repeating a pass changes nothing. *)
Theorem apply_filters_compose (df : DataFrame) (f g : FilterSpec) :
  (forall r : Row date,
      In r (apply_filters (apply_filters df f) g) <->
      In r df /\ selects f r = true /\ selects g r = true)
  /\ apply_filters (apply_filters df f) g = apply_filters (apply_filters df g) f
  /\ apply_filters (apply_filters df f) f = apply_filters df f.
Proof.
  rewrite !apply_filters_filter. unfold spec_filter. split; [|split].
  - intros r. rewrite !filter_In. tauto.
  - rewrite !filter_filter. apply filter_ext. intros r. apply andb_comm.
  - apply filter_idem.
Qed.

(** ** Sorted views *)

Section SortFacts.
Context {A : Type} (leb : A -> A -> bool).
Hypothesis leb_total : forall a b, leb a b = true \/ leb b a = true.

Let le (a b : A) : Prop := leb a b = true.

Lemma insert_sorted_HdRel (x a : A) (l : list A) :
  le x a -> HdRel le x l -> HdRel le x (insert_sorted leb a l).
Proof.
  intros Hxa Hl. destruct l as [|b l]; simpl.
  - constructor. exact Hxa.
  - destruct (leb a b); constructor; [exact Hxa|].
    inversion Hl; assumption.
Qed.

Lemma insert_sorted_Sorted (a : A) (l : list A) :
  Sorted le l -> Sorted le (insert_sorted leb a l).
Proof.
  induction 1 as [|b l Hs IH Hb]; simpl.
  - repeat constructor.
  - destruct (leb a b) eqn:E.
    + constructor; [constructor; assumption | constructor; exact E].
    + constructor; [exact IH|].
      apply insert_sorted_HdRel; [|exact Hb].
      destruct (leb_total a b) as [H | H]; [congruence | exact H].
Qed.

Lemma sort_Sorted (l : list A) : Sorted le (sort leb l).
Proof.
  induction l as [|a l IH]; simpl; [constructor|].
  apply insert_sorted_Sorted, IH.
Qed.
End SortFacts.

Lemma Sorted_weaken {A : Type} (P Q : A -> A -> Prop) (l : list A) :
  (forall a b, P a b -> Q a b) -> Sorted P l -> Sorted Q l.
Proof.
  intros HPQ. induction 1 as [|a l Hs IH Hh]; constructor; [exact IH|].
  destruct Hh; constructor; auto.
Qed.

Lemma Sorted_firstn {A : Type} (P : A -> A -> Prop) (n : nat) (l : list A) :
  Sorted P l -> Sorted P (firstn n l).
Proof.
  intros Hs. revert n. induction Hs as [|a l Hs IH Hh]; intros [|n]; simpl;
    try constructor.
  - apply IH.
  - destruct Hh; destruct n; simpl; constructor; assumption.
Qed.

Lemma Z_leb_total (a b : Z) : (a <=? b) = true \/ (b <=? a) = true.
Proof. rewrite !Z.leb_le. lia. Qed.

Lemma ascending_by_value {K : Type} (s : Series K Z) :
  Sorted (fun a b => snd a <= snd b) (sort_values Z.leb s).
Proof.
  unfold sort_values.
  eapply Sorted_weaken; [|apply sort_Sorted; intros a b; apply Z_leb_total].
  intros a b H. apply Z.leb_le, H.
Qed.

Lemma descending_by_value {K : Type} (s : Series K Z) :
  Sorted (fun a b => snd b <= snd a) (sort (fun a b => Z.leb (snd b) (snd a)) s).
Proof.
  eapply Sorted_weaken; [|apply sort_Sorted; intros a b; apply Z_leb_total].
  intros a b H. apply Z.leb_le, H.
Qed.

(** X3. The views come out in the order the charts show: sales by
    category ascending by amount; payment-method and delivery-status counts
    most frequent first; rating counts by ascending rating; the top-10
    subcategory and city views by descending amount. *)
Theorem views_sorted (df : DataFrame) :
  Sorted (fun a b => snd a <= snd b) (category_sales df)
  /\ Sorted (fun a b => snd b <= snd a) (payment_dist df)
  /\ Sorted (fun a b => snd b <= snd a) (delivery_status df)
  /\ Sorted (fun a b => fst a <= fst b) (rating_dist df)
  /\ Sorted (fun a b => snd b <= snd a) (top_products df)
  /\ Sorted (fun a b => snd b <= snd a) (city_sales df).
Proof.
  repeat split.
  - apply ascending_by_value.
  - apply descending_by_value.
  - apply descending_by_value.
  - unfold rating_dist, sort_index.
    eapply Sorted_weaken; [|apply sort_Sorted; intros a b; apply Z_leb_total].
    intros a b H. apply Z.leb_le, H.
  - apply Sorted_firstn, descending_by_value.
  - apply Sorted_firstn, descending_by_value.
Qed.

(** ** Totals of the grouped views *)

Lemma sum_values_sort {K : Type} (leb : K * Z -> K * Z -> bool) (s : Series K Z) :
  sum (values (sort leb s)) = sum (values s).
Proof. apply sum_perm, Permutation_map, sort_perm. Qed.

Lemma sum_ones {A : Type} (l : list A) :
  sum (map (fun _ => 1) l) = Z.of_nat (List.length l).
Proof.
  induction l as [|a l IH]; [reflexivity|].
  change (sum (map (fun _ : A => 1) (a :: l))) with (1 + sum (map (fun _ : A => 1) l)).
  rewrite IH. change (List.length (a :: l)) with (S (List.length l)). lia.
Qed.

Lemma sum_by_total {K : Type} `{KeyLaws K} (c : Row date -> K) (val : Row date -> Z)
      (df : DataFrame) :
  sum (values (sum_by (notna c) val df)) = sum (col val df).
Proof.
  unfold sum_by, col. rewrite sum_groupby. do 2 f_equal.
  apply filter_all. reflexivity.
Qed.

Lemma value_counts_total {K : Type} `{KeyLaws K} (c : Row date -> K) (df : DataFrame) :
  sum (values (value_counts (notna c) df)) = Z.of_nat (List.length df).
Proof.
  unfold value_counts. rewrite sum_values_sort.
  unfold values. rewrite map_map. cbn [snd].
  set (ks := unique (present (map (notna c) df))).
  transitivity
    (sum (map (fun k => sum (map (fun _ : Row date => 1)
                                 (filter (fun r => key_is k (notna c r)) df)))
              ks)).
  - f_equal. apply map_ext. intros k. symmetry. apply sum_ones.
  - rewrite (sum_groups (notna c) (fun _ => 1) df ks (unique_NoDup _)).
    rewrite filter_all; [apply sum_ones|].
    intros r Hr. apply in_group_In. exists (c r). split; [reflexivity|].
    apply unique_In, present_In. unfold notna.
    apply (in_map (fun r => Some (c r))), Hr.
Qed.

(** X4. Every row is counted once in each count view: the
    payment-method counts, the delivery-status counts and the rating counts
    each add up to the number of filtered orders. *)
Theorem count_views_total (df : DataFrame) :
  sum (values (payment_dist df)) = Z.of_nat (total_orders df)
  /\ sum (values (delivery_status df)) = Z.of_nat (total_orders df)
  /\ sum (values (rating_dist df)) = Z.of_nat (total_orders df).
Proof.
  unfold payment_dist, delivery_status, rating_dist, total_orders, sort_index.
  rewrite sum_values_sort.
  rewrite (value_counts_total (fun r : Row date => Payment_Method r)).
  rewrite (value_counts_total (fun r : Row date => Delivery_Status r)).
  rewrite (value_counts_total (fun r : Row date => Customer_Rating r)).
  repeat split.
Qed.

(** X5. The sales by customer segment, by calendar date and by month
    each add up to the total sales of the filtered set. *)
Theorem sum_views_total (df : DataFrame) :
  sum (values (segment_sales df)) = total_sales df
  /\ sum (values (daily_sales df)) = total_sales df
  /\ sum (values (monthly_sales df)) = total_sales df.
Proof.
  unfold segment_sales, daily_sales, monthly_sales, total_sales.
  rewrite (sum_by_total (fun r : Row date => Customer_Segment r)).
  rewrite (sum_by_total (fun r : Row date => Order_Date r)).
  rewrite (sum_by_total (fun r : Row date => Order_Month r)).
  repeat split.
Qed.

(** ** Groups *)

Section GroupFacts.
Context {K : Type} `{KeyLaws K}.

Lemma present_notna {R : Type} (c : R -> K) (df : list R) :
  present (map (fun r => Some (c r)) df) = map c df.
Proof. induction df as [|r df IH]; simpl; [|rewrite IH]; reflexivity. Qed.

Lemma index_agg_groupby {R V : Type} (f : list R -> V) (key : R -> option K)
      (df : list R) :
  index (agg f (groupby key df)) = sort key_leb (unique (present (map key df))).
Proof.
  unfold index, agg, groupby. rewrite !map_map. simpl. apply map_id.
Qed.

(** The labels of a grouped view are the keys that occur in the frame. *)
Lemma In_index_groupby {R V : Type} (f : list R -> V) (key : R -> option K)
      (df : list R) (k : K) :
  In k (index (agg f (groupby key df))) <-> exists r, In r df /\ key r = Some k.
Proof.
  rewrite index_agg_groupby. split.
  - intros Hk. apply (Permutation_in _ (sort_perm key_leb _)) in Hk.
    apply unique_In, present_In, in_map_iff in Hk.
    destruct Hk as [r [E Hr]]. eauto.
  - intros [r [Hr E]].
    apply (Permutation_in _ (Permutation_sym (sort_perm key_leb _))).
    apply unique_In, present_In. rewrite <- E. apply in_map, Hr.
Qed.

Lemma NoDup_index_groupby {R V : Type} (f : list R -> V) (key : R -> option K)
      (df : list R) :
  NoDup (index (agg f (groupby key df))).
Proof.
  rewrite index_agg_groupby.
  apply (Permutation_NoDup (Permutation_sym (sort_perm key_leb _))).
  apply unique_NoDup.
Qed.

(** An entry of a grouped view is the aggregate of the rows with its
    label, and there is such a row. *)
Lemma In_agg_groupby {R V : Type} (f : list R -> V) (key : R -> option K)
      (df : list R) (k : K) (v : V) :
  In (k, v) (agg f (groupby key df)) <->
  (exists r, In r df /\ key r = Some k)
  /\ v = f (filter (fun r => key_is k (key r)) df).
Proof.
  split.
  - intros Hkv. split.
    + apply (In_index_groupby f). unfold index.
      change k with (fst (k, v)). apply in_map, Hkv.
    + unfold agg, groupby in Hkv. rewrite map_map in Hkv.
      apply in_map_iff in Hkv. destruct Hkv as [k' [E _]].
      simpl in E. injection E as -> <-. reflexivity.
  - intros [Hk ->]. apply (In_index_groupby f) in Hk.
    rewrite index_agg_groupby in Hk.
    unfold agg, groupby. rewrite map_map. apply in_map_iff.
    exists k. split; [reflexivity | exact Hk].
Qed.
End GroupFacts.

Lemma sum_nonneg (l : list Z) : (forall x, In x l -> 0 <= x) -> 0 <= sum l.
Proof.
  induction l as [|a l IH]; simpl; intros Hl; [lia|].
  pose proof (Hl a (or_introl eq_refl)).
  assert (0 <= sum l) by (apply IH; intros; apply Hl; auto). lia.
Qed.

Lemma sum_firstn_le (n : nat) (l : list Z) :
  (forall x, In x l -> 0 <= x) -> sum (firstn n l) <= sum l.
Proof.
  revert n. induction l as [|a l IH]; intros [|n] Hl; simpl; try lia.
  - apply (sum_nonneg (a :: l)), Hl.
  - assert (sum (firstn n l) <= sum l) by (apply IH; intros; apply Hl; right; auto).
    lia.
Qed.

Lemma sum_by_values_nonneg {K : Type} `{KeyLaws K} (key : Row date -> option K)
      (val : Row date -> Z) (df : DataFrame) :
  (forall r, In r df -> 0 <= val r) ->
  forall x, In x (values (sum_by key val df)) -> 0 <= x.
Proof.
  intros Hval x Hx. unfold values in Hx. apply in_map_iff in Hx.
  destruct Hx as [[k v] [<- Hkv]]. simpl.
  apply In_agg_groupby in Hkv. destruct Hkv as [_ ->].
  apply sum_nonneg. intros y Hy. unfold col in Hy. apply in_map_iff in Hy.
  destruct Hy as [r [<- Hr]]. apply filter_In in Hr. apply Hval, Hr.
Qed.

Lemma nlargest_sum_le {K : Type} (n : nat) (s : Series K Z) :
  (forall x, In x (values s) -> 0 <= x) ->
  sum (values (nlargest Z.leb n s)) <= sum (values s).
Proof.
  intros Hs. unfold nlargest.
  rewrite <- (sum_values_sort (fun a b => snd b <=? snd a) s).
  unfold values at 1. rewrite <- firstn_map.
  apply sum_firstn_le. intros x Hx. apply Hs.
  revert Hx. apply Permutation_in, Permutation_map, sort_perm.
Qed.

Lemma nlargest_all {K : Type} (n : nat) (s : Series K Z) :
  (List.length s <= n)%nat ->
  Permutation (nlargest Z.leb n s) s.
Proof.
  intros Hn. unfold nlargest. rewrite firstn_all2.
  - apply sort_perm.
  - rewrite (Permutation_length (sort_perm _ s)). exact Hn.
Qed.

(** X6. The two top-10 views show at most ten bars, and when no
    final price is negative the bars add up to no more than the total
    sales. *)
Theorem top10_views_bounded (df : DataFrame) :
  (forall r : Row date, In r df -> 0 <= Final_Price r) ->
  (List.length (top_products df) <= 10)%nat
  /\ (List.length (city_sales df) <= 10)%nat
  /\ sum (values (top_products df)) <= total_sales df
  /\ sum (values (city_sales df)) <= total_sales df.
Proof.
  intros Hpos. unfold top_products, city_sales.
  split; [apply firstn_le_length|]. split; [apply firstn_le_length|].
  unfold total_sales.
  rewrite <- (sum_by_total (fun r : Row date => Subcategory r) Final_Price df) at 1.
  rewrite <- (sum_by_total (fun r : Row date => City r) Final_Price df).
  split; apply nlargest_sum_le, sum_by_values_nonneg, Hpos.
Qed.

Lemma top10_views_bounded_witness :
  (List.length (top_products sample_frame) <= 10)%nat
  /\ (List.length (city_sales sample_frame) <= 10)%nat
  /\ sum (values (top_products sample_frame)) <= total_sales sample_frame
  /\ sum (values (city_sales sample_frame)) <= total_sales sample_frame.
Proof.
  apply (top10_views_bounded sample_frame).
  intros r [<- | [<- | []]]; vm_compute; discriminate.
Defined.

(** X7. When the filtered set has at most ten distinct cities, the
    Top 10 Cities view shows every city of the set with its sales, and its
    bars add up to the total sales. *)
Theorem city_sales_complete (df : DataFrame) :
  (List.length (unique (col (fun r : Row date => City r) df)) <= 10)%nat ->
  Permutation (city_sales df)
              (sum_by (notna (fun r : Row date => City r)) Final_Price df)
  /\ sum (values (city_sales df)) = total_sales df.
Proof.
  intros Hn.
  assert (Permutation (city_sales df)
            (sum_by (notna (fun r : Row date => City r)) Final_Price df)) as Hp.
  { apply nlargest_all. unfold sum_by, agg, groupby.
    rewrite !length_map, (Permutation_length (sort_perm _ _)).
    unfold notna. rewrite present_notna. exact Hn. }
  split; [exact Hp|].
  unfold values. rewrite (sum_perm _ _ (Permutation_map snd Hp)).
  apply (sum_by_total (fun r : Row date => City r)).
Qed.

Lemma city_sales_complete_witness :
  Permutation (city_sales sample_frame)
              (sum_by (notna (fun r : Row date => City r)) Final_Price sample_frame)
  /\ sum (values (city_sales sample_frame)) = total_sales sample_frame.
Proof.
  apply (city_sales_complete sample_frame). vm_compute. lia.
Defined.

(** ** Means and rates *)

Lemma sum_between (l : list Z) (lo hi : Z) :
  (forall x, In x l -> lo <= x <= hi) ->
  lo * Z.of_nat (List.length l) <= sum l <= hi * Z.of_nat (List.length l).
Proof.
  induction l as [|a l IH]; intros Hl.
  - simpl. lia.
  - change (sum (a :: l)) with (a + sum l).
    change (List.length (a :: l)) with (S (List.length l)).
    pose proof (Hl a (or_introl eq_refl)).
    assert (Hl' : forall x, In x l -> lo <= x <= hi) by (intros; apply Hl; right; auto).
    specialize (IH Hl'). lia.
Qed.

(** The mean of a non-empty column lies between any bounds of its
    values. *)
Lemma mean_between (l : list Z) (lo hi : Z) :
  l <> [] -> (forall x, In x l -> lo <= x <= hi) ->
  exists q, mean l = Some q /\ (inject_Z lo <= q)%Q /\ (q <= inject_Z hi)%Q.
Proof.
  intros Hne Hl. destruct l as [|a l]; [contradiction|].
  eexists. split; [reflexivity|].
  pose proof (sum_between (a :: l) lo hi Hl) as Hs.
  change (List.length (a :: l)) with (S (List.length l)) in *.
  unfold Qle. cbn [Qnum Qden inject_Z].
  rewrite <- Pos.of_nat_succ, Zpos_P_of_succ_nat.
  rewrite Nat2Z.inj_succ in Hs. lia.
Qed.

(** X8. On a non-empty filtered set the averages are numbers within
    the range of their column, and the two rates are percentages: the
    average rating lies between any bounds of the ratings, and the return
    rate and the on-time rate lie between 0 and 100. *)
Theorem kpi_bounds (df : DataFrame) (lo hi : Z) :
  df <> [] ->
  (forall r : Row date, In r df -> lo <= Customer_Rating r <= hi) ->
  (exists q, avg_rating df = Some q /\ (inject_Z lo <= q)%Q /\ (q <= inject_Z hi)%Q)
  /\ (exists q, return_rate df = Some q /\ (0 <= q)%Q /\ (q <= 100)%Q)
  /\ (exists q, rate (fun r : Row date => Delivery_Status r) "On Time" df = Some q
                /\ (0 <= q)%Q /\ (q <= 100)%Q).
Proof.
  intros Hne Hr.
  assert (forall (c : Row date -> string) (v : string),
             exists q, rate c v df = Some q /\ (0 <= q)%Q /\ (q <= 100)%Q) as Hrate.
  { intros c v. unfold rate.
    destruct (mean_between (col (fun r : Row date => Pandas.b2z (c r =? v)%string) df) 0 1)
      as [q [E [Hlo Hhi]]].
    - unfold col. destruct df; [contradiction | discriminate].
    - intros x Hx. unfold col in Hx. apply in_map_iff in Hx.
      destruct Hx as [r [<- _]]. destruct (c r =? v)%string; simpl; lia.
    - rewrite E. simpl. eexists. split; [reflexivity|].
      unfold inject_Z in *. split; lra. }
  split; [|split; apply Hrate].
  unfold avg_rating. apply mean_between.
  - unfold col. destruct df; [contradiction | discriminate].
  - intros x Hx. unfold col in Hx. apply in_map_iff in Hx.
    destruct Hx as [r [<- Hin]]. apply Hr, Hin.
Qed.

Lemma kpi_bounds_witness :
  (exists q, avg_rating sample_frame = Some q
             /\ (inject_Z 1 <= q)%Q /\ (q <= inject_Z 5)%Q)
  /\ (exists q, return_rate sample_frame = Some q /\ (0 <= q)%Q /\ (q <= 100)%Q)
  /\ (exists q, rate (fun r : Row date => Delivery_Status r) "On Time" sample_frame
                = Some q /\ (0 <= q)%Q /\ (q <= 100)%Q).
Proof.
  apply (kpi_bounds sample_frame 1 5).
  - discriminate.
  - intros r [<- | [<- | []]]; vm_compute; split; discriminate.
Defined.

(** The entries of a by-category average, once sorted by value: one
    per category of the frame, the mean of the column over the rows of
    that category. *)
Lemma In_sorted_mean_by (df : DataFrame) (val : Row date -> Z) (c : string)
      (m : option Q) :
  In (c, m) (sort_values mean_leb
               (mean_by (notna (fun r : Row date => Category r)) val df)) <->
  (exists r : Row date, In r df /\ Category r = c)
  /\ m = mean (col val (filter (fun r : Row date => (Category r =? c)%string) df)).
Proof.
  unfold sort_values, mean_by.
  split.
  - intros Hin. apply (Permutation_in _ (sort_perm _ _)) in Hin.
    apply In_agg_groupby in Hin. destruct Hin as [[r [Hr E]] ->].
    injection E as E. split; [eauto | reflexivity].
  - intros [[r [Hr E]] ->].
    apply (Permutation_in _ (Permutation_sym (sort_perm _ _))).
    apply In_agg_groupby. split; [|reflexivity].
    exists r. split; [exact Hr|]. unfold notna. rewrite E. reflexivity.
Qed.

Lemma sorted_mean_by_between (df : DataFrame) (val : Row date -> Z) (lo hi : Z)
      (c : string) (m : option Q) :
  (forall r : Row date, In r df -> lo <= val r <= hi) ->
  In (c, m) (sort_values mean_leb
               (mean_by (notna (fun r : Row date => Category r)) val df)) ->
  exists q, m = Some q /\ (inject_Z lo <= q)%Q /\ (q <= inject_Z hi)%Q.
Proof.
  intros Hval Hin. apply In_sorted_mean_by in Hin.
  destruct Hin as [[r [Hr E]] ->].
  apply mean_between.
  - intros Habs. unfold col in Habs. apply map_eq_nil in Habs.
    assert (In r (filter (fun r : Row date => (Category r =? c)%string) df)) as Hf.
    { apply filter_In. split; [exact Hr|]. rewrite E. apply String.eqb_refl. }
    rewrite Habs in Hf. contradiction.
  - intros x Hx. unfold col in Hx. apply in_map_iff in Hx.
    destruct Hx as [r' [<- Hr']]. apply filter_In in Hr'. apply Hval, Hr'.
Qed.

Lemma sorted_mean_by_NoDup (df : DataFrame) (val : Row date -> Z) :
  NoDup (index (sort_values mean_leb
                  (mean_by (notna (fun r : Row date => Category r)) val df))).
Proof.
  unfold sort_values, index.
  apply (Permutation_NoDup
           (Permutation_sym (Permutation_map fst (sort_perm _ _)))).
  apply (NoDup_index_groupby
           (fun g => mean (col val g)) (notna (fun r : Row date => Category r))).
Qed.

(** X9. The bars of the "Average Rating by Category" and "Avg
    Delivery Days by Category" views, as the app sorts them: there is
    exactly one bar for each category that occurs in the filtered set, its
    value is the mean of the column over the rows of that category, and
    that value is a number (never NaN) within the range of the averaged
    column. *)
Theorem avg_by_category_entries (df : DataFrame) (lo hi lo' hi' : Z) :
  (forall r : Row date, In r df -> lo <= Customer_Rating r <= hi) ->
  (forall r : Row date, In r df -> lo' <= Delivery_Days r <= hi') ->
  (forall (c : string) (m : option Q),
      In (c, m) (avg_rating_cat df) <->
      (exists r : Row date, In r df /\ Category r = c)
      /\ m = mean (col Customer_Rating
                       (filter (fun r : Row date => (Category r =? c)%string) df)))
  /\ (forall (c : string) (m : option Q),
         In (c, m) (avg_rating_cat df) ->
         exists q, m = Some q /\ (inject_Z lo <= q)%Q /\ (q <= inject_Z hi)%Q)
  /\ NoDup (index (avg_rating_cat df))
  /\ (forall (c : string) (m : option Q),
         In (c, m) (avg_delivery df) <->
         (exists r : Row date, In r df /\ Category r = c)
         /\ m = mean (col Delivery_Days
                          (filter (fun r : Row date => (Category r =? c)%string) df)))
  /\ (forall (c : string) (m : option Q),
         In (c, m) (avg_delivery df) ->
         exists q, m = Some q /\ (inject_Z lo' <= q)%Q /\ (q <= inject_Z hi')%Q)
  /\ NoDup (index (avg_delivery df)).
Proof.
  intros Hrating Hdays. unfold avg_rating_cat, avg_delivery.
  split; [intros c m; apply (In_sorted_mean_by df Customer_Rating)|].
  split; [intros c m; apply (sorted_mean_by_between df Customer_Rating), Hrating|].
  split; [apply (sorted_mean_by_NoDup df Customer_Rating)|].
  split; [intros c m; apply (In_sorted_mean_by df Delivery_Days)|].
  split; [intros c m; apply (sorted_mean_by_between df Delivery_Days), Hdays|].
  apply (sorted_mean_by_NoDup df Delivery_Days).
Qed.

Lemma avg_by_category_entries_witness :
  (forall (c : string) (m : option Q),
      In (c, m) (avg_rating_cat sample_frame) <->
      (exists r : Row date, In r sample_frame /\ Category r = c)
      /\ m = mean (col Customer_Rating
                       (filter (fun r : Row date => (Category r =? c)%string) sample_frame)))
  /\ (forall (c : string) (m : option Q),
         In (c, m) (avg_rating_cat sample_frame) ->
         exists q, m = Some q /\ (inject_Z 1 <= q)%Q /\ (q <= inject_Z 5)%Q)
  /\ NoDup (index (avg_rating_cat sample_frame))
  /\ (forall (c : string) (m : option Q),
         In (c, m) (avg_delivery sample_frame) <->
         (exists r : Row date, In r sample_frame /\ Category r = c)
         /\ m = mean (col Delivery_Days
                          (filter (fun r : Row date => (Category r =? c)%string) sample_frame)))
  /\ (forall (c : string) (m : option Q),
         In (c, m) (avg_delivery sample_frame) ->
         exists q, m = Some q /\ (inject_Z 1 <= q)%Q /\ (q <= inject_Z 10)%Q)
  /\ NoDup (index (avg_delivery sample_frame)).
Proof.
  apply (avg_by_category_entries sample_frame 1 5 1 10).
  - intros r [<- | [<- | []]]; vm_compute; split; discriminate.
  - intros r [<- | [<- | []]]; vm_compute; split; discriminate.
Defined.

(** ** The insights: [idxmax] and [mode] *)

Section ArgMax.
Context {K V : Type} (leb : V -> V -> bool).
Hypothesis leb_total : forall a b, leb a b = true \/ leb b a = true.
Hypothesis leb_trans : forall a b c, leb a b = true -> leb b c = true -> leb a c = true.

Lemma argmax_from_max (best : K * V) (s : Series K V) :
  exists v, In (argmax_from leb best s, v) (best :: s)
            /\ forall kv, In kv (best :: s) -> leb (snd kv) v = true.
Proof.
  revert best. induction s as [|kv t IH]; intros best; simpl.
  - exists (snd best). split; [left; destruct best; reflexivity|].
    intros kv [<- | []]. destruct (leb_total (snd best) (snd best)); assumption.
  - unfold ltb. destruct (leb (snd kv) (snd best)) eqn:E; simpl.
    + destruct (IH best) as [v [Hin Hmax]]. exists v. split.
      * destruct Hin as [Hin | Hin]; [left; exact Hin | right; right; exact Hin].
      * intros kv' [<- | [<- | Hkv']].
        -- apply Hmax. left. reflexivity.
        -- eapply leb_trans; [exact E | apply Hmax; left; reflexivity].
        -- apply Hmax. right. exact Hkv'.
    + destruct (IH kv) as [v [Hin Hmax]]. exists v. split.
      * right. exact Hin.
      * intros kv' [<- | [<- | Hkv']].
        -- destruct (leb_total (snd best) (snd kv)) as [H | H]; [|congruence].
           eapply leb_trans; [exact H | apply Hmax; left; reflexivity].
        -- apply Hmax. left. reflexivity.
        -- apply Hmax. right. exact Hkv'.
Qed.

(** On a non-empty Series [idxmax] returns a label whose value no
    value of the Series exceeds. *)
Lemma idxmax_max (s : Series K V) :
  s <> [] ->
  exists k v, idxmax leb s = Ok k /\ In (k, v) s
              /\ forall kv, In kv s -> leb (snd kv) v = true.
Proof.
  intros Hne. destruct s as [|best t]; [contradiction|].
  destruct (argmax_from_max best t) as [v [Hin Hmax]].
  exists (argmax_from leb best t), v. split; [reflexivity|]. split; assumption.
Qed.
End ArgMax.

Lemma Z_leb_trans (a b c : Z) :
  (a <=? b) = true -> (b <=? c) = true -> (a <=? c) = true.
Proof. rewrite !Z.leb_le. lia. Qed.

Lemma mean_leb_total (a b : option Q) : mean_leb a b = true \/ mean_leb b a = true.
Proof.
  destruct a as [x|], b as [y|]; simpl; auto.
  rewrite !Qle_bool_iff. destruct (Qlt_le_dec x y) as [Hlt | Hle]; [left | right; exact Hle].
  apply Qlt_le_weak, Hlt.
Qed.

Lemma mean_leb_trans (a b c : option Q) :
  mean_leb a b = true -> mean_leb b c = true -> mean_leb a c = true.
Proof.
  destruct a as [x|], b as [y|], c as [z|]; simpl; try discriminate; auto.
  rewrite !Qle_bool_iff. apply Qle_trans.
Qed.

Lemma sum_by_nonempty {K : Type} `{KeyLaws K} (c : Row date -> K)
      (val : Row date -> Z) (df : DataFrame) :
  df <> [] -> sum_by (notna c) val df <> [].
Proof.
  intros Hne Habs. destruct df as [|r df]; [contradiction|].
  assert (In (c r) (index (sum_by (notna c) val (r :: df)))) as Hin.
  { unfold sum_by. apply In_index_groupby. exists r. split; [left|]; reflexivity. }
  rewrite Habs in Hin. contradiction.
Qed.

Lemma mean_by_nonempty {K : Type} `{KeyLaws K} (c : Row date -> K)
      (val : Row date -> Z) (df : DataFrame) :
  df <> [] -> mean_by (notna c) val df <> [].
Proof.
  intros Hne Habs. destruct df as [|r df]; [contradiction|].
  assert (In (c r) (index (mean_by (notna c) val (r :: df)))) as Hin.
  { unfold mean_by. apply In_index_groupby. exists r. split; [left|]; reflexivity. }
  rewrite Habs in Hin. contradiction.
Qed.

(** X10. On a non-empty filtered set the three Key Insights are
    computed without an exception, and each names a category that attains
    the maximum: no category has larger total sales than the highest selling
    one, larger total profit margin than the most profitable one, or a
    larger mean rating than the best rated one. *)
Theorem sales_insights_max (df : DataFrame) :
  df <> [] ->
  exists c1 c2 c3 v1 v2 v3,
    sales_insights df = Ok (c1, c2, c3)
    /\ In (c1, v1) (sum_by (notna (fun r : Row date => Category r)) Final_Price df)
    /\ (forall c v, In (c, v) (sum_by (notna (fun r : Row date => Category r))
                                      Final_Price df) -> v <= v1)
    /\ In (c2, v2) (sum_by (notna (fun r : Row date => Category r)) Profit_Margin df)
    /\ (forall c v, In (c, v) (sum_by (notna (fun r : Row date => Category r))
                                      Profit_Margin df) -> v <= v2)
    /\ In (c3, v3) (mean_by (notna (fun r : Row date => Category r))
                            Customer_Rating df)
    /\ (forall c v, In (c, v) (mean_by (notna (fun r : Row date => Category r))
                                      Customer_Rating df) -> mean_leb v v3 = true).
Proof.
  intros Hne.
  destruct (idxmax_max Z.leb Z_leb_total Z_leb_trans _
              (sum_by_nonempty (fun r : Row date => Category r) Final_Price df Hne))
    as [c1 [v1 [E1 [I1 M1]]]].
  destruct (idxmax_max Z.leb Z_leb_total Z_leb_trans _
              (sum_by_nonempty (fun r : Row date => Category r) Profit_Margin df Hne))
    as [c2 [v2 [E2 [I2 M2]]]].
  destruct (idxmax_max mean_leb mean_leb_total mean_leb_trans _
              (mean_by_nonempty (fun r : Row date => Category r) Customer_Rating df Hne))
    as [c3 [v3 [E3 [I3 M3]]]].
  exists c1, c2, c3, v1, v2, v3.
  split.
  { unfold sales_insights.
    change (idxmax Z.leb (sum_by (notna Category) Final_Price df))
      with (idxmax Z.leb (sum_by (notna (fun r : Row date => Category r)) Final_Price df)).
    rewrite E1. cbn [bind].
    change (idxmax Z.leb (sum_by (notna Category) Profit_Margin df))
      with (idxmax Z.leb (sum_by (notna (fun r : Row date => Category r)) Profit_Margin df)).
    rewrite E2. cbn [bind].
    change (idxmax mean_leb (mean_by (notna Category) Customer_Rating df))
      with (idxmax mean_leb (mean_by (notna (fun r : Row date => Category r))
                                     Customer_Rating df)).
    rewrite E3. reflexivity. }
  split; [exact I1|]. split.
  { intros c v Hcv. apply Z.leb_le. apply (M1 (c, v) Hcv). }
  split; [exact I2|]. split.
  { intros c v Hcv. apply Z.leb_le. apply (M2 (c, v) Hcv). }
  split; [exact I3|].
  intros c v Hcv. apply (M3 (c, v) Hcv).
Qed.

Lemma sales_insights_max_witness :
  exists c1 c2 c3 v1 v2 v3,
    sales_insights sample_frame = Ok (c1, c2, c3)
    /\ In (c1, v1) (sum_by (notna (fun r : Row date => Category r))
                           Final_Price sample_frame)
    /\ (forall c v, In (c, v) (sum_by (notna (fun r : Row date => Category r))
                                      Final_Price sample_frame) -> v <= v1)
    /\ In (c2, v2) (sum_by (notna (fun r : Row date => Category r))
                           Profit_Margin sample_frame)
    /\ (forall c v, In (c, v) (sum_by (notna (fun r : Row date => Category r))
                                      Profit_Margin sample_frame) -> v <= v2)
    /\ In (c3, v3) (mean_by (notna (fun r : Row date => Category r))
                            Customer_Rating sample_frame)
    /\ (forall c v, In (c, v) (mean_by (notna (fun r : Row date => Category r))
                                      Customer_Rating sample_frame)
                    -> mean_leb v v3 = true).
Proof.
  apply (sales_insights_max sample_frame). discriminate.
Defined.

Lemma fold_max_ge (l : list Z) (x : Z) : In x l -> x <= fold_right Z.max 0 l.
Proof.
  induction l as [|a l IH]; simpl; [contradiction|].
  intros [<- | Hx]; [lia|]. specialize (IH Hx). lia.
Qed.

Lemma fold_max_In (l : list Z) :
  l <> [] -> (forall x, In x l -> 0 <= x) -> In (fold_right Z.max 0 l) l.
Proof.
  induction l as [|a l IH]; intros Hne Hpos; [contradiction|].
  pose proof (Hpos a (or_introl eq_refl)) as Ha.
  destruct l as [|b l].
  - simpl. left. lia.
  - assert (In (fold_right Z.max 0 (b :: l)) (b :: l)) as Hin.
    { apply IH; [discriminate|]. intros x Hx. apply Hpos. right. exact Hx. }
    change (fold_right Z.max 0 (a :: b :: l))
      with (Z.max a (fold_right Z.max 0 (b :: l))).
    destruct (Z.max_spec a (fold_right Z.max 0 (b :: l))) as [[_ ->] | [_ ->]].
    + right. exact Hin.
    + left. reflexivity.
Qed.

Section ModeFacts.
Context {K : Type} `{KeyLaws K}.

(** On a non-empty column [mode] is not empty, and its first value
    occurs in the column at least as often as any value. *)
Lemma mode_first (c : Row date -> K) (df : DataFrame) :
  df <> [] ->
  exists p rest,
    mode (notna c) df = p :: rest
    /\ (exists r, In r df /\ c r = p)
    /\ forall k, (occurrences c k df <= occurrences c p df)%nat.
Proof.
  intros Hne.
  set (counts := agg (fun g : DataFrame => Z.of_nat (List.length g))
                     (groupby (notna c) df)).
  set (top := fold_right Z.max 0 (values counts)).
  change (mode (notna c) df)
    with (index (filter (fun kc : K * Z => snd kc =? top) counts)).
  assert (counts <> []) as Hcne.
  { intros Habs. destruct df as [|r df]; [contradiction|].
    assert (In (c r) (index counts)) as Hin.
    { apply In_index_groupby. exists r. split; [left|]; reflexivity. }
    rewrite Habs in Hin. contradiction. }
  assert (forall k n, In (k, n) counts ->
            (exists r, In r df /\ c r = k)
            /\ n = Z.of_nat (occurrences c k df)) as Hcount.
  { intros k n Hkn. apply In_agg_groupby in Hkn.
    destruct Hkn as [[r [Hr E]] ->]. injection E as E. split; [eauto | reflexivity]. }
  assert (In top (values counts)) as Htop.
  { apply fold_max_In.
    - unfold values. intros Habs. apply map_eq_nil in Habs. contradiction.
    - intros x Hx. unfold values in Hx. apply in_map_iff in Hx.
      destruct Hx as [[k n] [<- Hkn]]. destruct (Hcount k n Hkn) as [_ ->].
      simpl. lia. }
  unfold values in Htop. apply in_map_iff in Htop.
  destruct Htop as [[k0 n0] [E0 Hk0]]. simpl in E0.
  destruct (filter (fun kc : K * Z => snd kc =? top) counts) as [|[p n] rest] eqn:Ef.
  { exfalso. assert (In (k0, n0) (filter (fun kc : K * Z => snd kc =? top) counts)) as Hf.
    { apply filter_In. split; [exact Hk0|]. simpl. apply Z.eqb_eq, E0. }
    rewrite Ef in Hf. contradiction. }
  assert (In (p, n) (filter (fun kc : K * Z => snd kc =? top) counts)) as Hp
      by (rewrite Ef; left; reflexivity).
  apply filter_In in Hp. destruct Hp as [Hp Hn]. simpl in Hn. apply Z.eqb_eq in Hn.
  destruct (Hcount p n Hp) as [Hex Hocc].
  exists p, (index rest). split; [reflexivity|]. split; [exact Hex|].
  intros k. unfold occurrences at 1.
  destruct (filter (fun r => key_eqb (c r) k) df) as [|r g] eqn:Eg; [simpl; lia|].
  assert (In r (filter (fun r => key_eqb (c r) k) df)) as Hr
      by (rewrite Eg; left; reflexivity).
  apply filter_In in Hr. destruct Hr as [Hr Ek]. apply key_eqb_eq in Ek.
  assert (In (k, Z.of_nat (occurrences c k df)) counts) as Hk.
  { apply In_agg_groupby.
    split; [exists r; split; [exact Hr | unfold notna; rewrite Ek; reflexivity]|].
    reflexivity. }
  assert (Z.of_nat (occurrences c k df) <= top) as Hle.
  { apply fold_max_ge. unfold values.
    change (Z.of_nat (occurrences c k df))
      with (snd (k, Z.of_nat (occurrences c k df))).
    apply in_map, Hk. }
  unfold occurrences in Hle at 1. rewrite Eg in Hle. lia.
Qed.
End ModeFacts.

(** X11. On a non-empty filtered set the "most popular payment" is
    computed without an exception; it is a payment method of some filtered
    order, and no payment method occurs in more filtered orders. *)
Theorem most_popular_payment_max (df : DataFrame) :
  df <> [] ->
  exists p,
    most_popular_payment df = Ok p
    /\ (exists r : Row date, In r df /\ Payment_Method r = p)
    /\ forall p',
        (List.length (filter (fun r : Row date => (Payment_Method r =? p')%string) df)
         <= List.length (filter (fun r : Row date => (Payment_Method r =? p)%string) df))%nat.
Proof.
  intros Hne.
  destruct (mode_first (fun r : Row date => Payment_Method r) df Hne)
    as [p [rest [E [Hex Hmax]]]].
  exists p. split; [|split; [exact Hex | exact Hmax]].
  unfold most_popular_payment.
  change (mode (notna Payment_Method) df)
    with (mode (notna (fun r : Row date => Payment_Method r)) df).
  rewrite E. reflexivity.
Qed.

Lemma most_popular_payment_max_witness :
  exists p,
    most_popular_payment sample_frame = Ok p
    /\ (exists r : Row date, In r sample_frame /\ Payment_Method r = p)
    /\ forall p',
        (List.length (filter (fun r : Row date => (Payment_Method r =? p')%string)
                             sample_frame)
         <= List.length (filter (fun r : Row date => (Payment_Method r =? p)%string)
                                sample_frame))%nat.
Proof.
  apply (most_popular_payment_max sample_frame). discriminate.
Defined.

Lemma idxmax_ok {K V : Type} (leb : V -> V -> bool) (s : Series K V) :
  s <> [] -> exists k, idxmax leb s = Ok k.
Proof. destruct s as [|kv t]; [contradiction|]. intros _. simpl. eauto. Qed.

Lemma sales_insights_ok (df : DataFrame) :
  df <> [] -> exists i, sales_insights df = Ok i.
Proof.
  intros Hne.
  destruct (idxmax_ok Z.leb _
              (sum_by_nonempty (fun r : Row date => Category r) Final_Price df Hne))
    as [c1 E1].
  destruct (idxmax_ok Z.leb _
              (sum_by_nonempty (fun r : Row date => Category r) Profit_Margin df Hne))
    as [c2 E2].
  destruct (idxmax_ok mean_leb _
              (mean_by_nonempty (fun r : Row date => Category r) Customer_Rating df Hne))
    as [c3 E3].
  exists (c1, c2, c3). unfold sales_insights.
  change (idxmax Z.leb (sum_by (notna Category) Final_Price df))
    with (idxmax Z.leb (sum_by (notna (fun r : Row date => Category r)) Final_Price df)).
  rewrite E1. cbn [bind].
  change (idxmax Z.leb (sum_by (notna Category) Profit_Margin df))
    with (idxmax Z.leb (sum_by (notna (fun r : Row date => Category r)) Profit_Margin df)).
  rewrite E2. cbn [bind].
  change (idxmax mean_leb (mean_by (notna Category) Customer_Rating df))
    with (idxmax mean_leb (mean_by (notna (fun r : Row date => Category r))
                                   Customer_Rating df)).
  rewrite E3. reflexivity.
Qed.

Lemma most_popular_payment_ok (df : DataFrame) :
  df <> [] -> exists p, most_popular_payment df = Ok p.
Proof.
  intros Hne.
  destruct (mode_first (fun r : Row date => Payment_Method r) df Hne)
    as [p [rest [E _]]].
  exists p. unfold most_popular_payment.
  change (mode (notna Payment_Method) df)
    with (mode (notna (fun r : Row date => Payment_Method r)) df).
  rewrite E. reflexivity.
Qed.

Lemma px_bar_ok {K V : Type} (s : Series K V) : s <> [] -> px_bar s = Ok tt.
Proof. destruct s; [contradiction | reflexivity]. Qed.

Lemma category_sales_nonempty (df : DataFrame) : df <> [] -> category_sales df <> [].
Proof.
  intros Hne Habs. unfold category_sales, sort_values in Habs.
  apply (sum_by_nonempty (fun r : Row date => Category r) Final_Price df Hne).
  apply Permutation_nil. rewrite <- Habs. apply sort_perm.
Qed.

(** X12. A run of the dashboard ends in an exception exactly when
    the filtered set is empty: then it raises ValueError, at the first
    chart.  On every non-empty filtered set it returns, and each of the
    twenty-four values it shows is the view of that name over the filtered
    rows: the five KPIs, the twelve grouped views, the correlation matrix,
    the three [idxmax] insights, the two operational means and the modal
    payment method. *)
Theorem dashboard_raises_iff_empty (df : DataFrame) (f : FilterSpec) :
  let filtered_df := apply_filters df f in
  (filtered_df = [] /\ dashboard df f = Raise ValueError)
  \/ (filtered_df <> []
      /\ exists v, dashboard df f = Ok v
           /\ v_total_sales v = total_sales filtered_df
           /\ v_avg_order_value v = avg_order_value filtered_df
           /\ v_total_orders v = List.length filtered_df
           /\ v_avg_rating v = avg_rating filtered_df
           /\ v_return_rate v = return_rate filtered_df
           /\ v_category_sales v = category_sales filtered_df
           /\ v_payment_dist v = payment_dist filtered_df
           /\ v_daily_sales v = daily_sales filtered_df
           /\ v_top_products v = top_products filtered_df
           /\ v_avg_rating_cat v = avg_rating_cat filtered_df
           /\ v_segment_sales v = segment_sales filtered_df
           /\ v_city_sales v = city_sales filtered_df
           /\ v_rating_dist v = rating_dist filtered_df
           /\ v_delivery_status v = delivery_status filtered_df
           /\ v_avg_delivery v = avg_delivery filtered_df
           /\ v_monthly_sales v = monthly_sales filtered_df
           /\ v_dow_sales v = dow_sales filtered_df
           /\ v_corr_matrix v = corr_matrix filtered_df
           /\ sales_insights filtered_df
              = Ok (v_highest_selling v, v_most_profitable v, v_best_rated v)
           /\ v_avg_delivery_time v
              = mean (col (fun r : Row date => Delivery_Days r) filtered_df)
           /\ v_on_time_rate v
              = rate (fun r : Row date => Delivery_Status r) "On Time" filtered_df
           /\ most_popular_payment filtered_df = Ok (v_most_popular_payment v)).
Proof.
  cbv zeta. destruct (apply_filters df f) as [|r t] eqn:E.
  - left. split; [reflexivity | apply dashboard_empty, E].
  - right. split; [discriminate|].
    assert (r :: t <> []) as Hne by discriminate.
    destruct (sales_insights_ok (r :: t) Hne) as [[[c1 c2] c3] Ei].
    destruct (most_popular_payment_ok (r :: t) Hne) as [p Ep].
    unfold dashboard. rewrite E.
    rewrite (px_bar_ok _ (category_sales_nonempty (r :: t) Hne)).
    cbn [bind]. rewrite Ei. cbn [bind]. rewrite Ep. cbn [bind].
    eexists. split; [reflexivity|].
    cbn [v_total_sales v_avg_order_value v_total_orders v_avg_rating
         v_return_rate v_category_sales v_payment_dist v_daily_sales
         v_top_products v_avg_rating_cat v_segment_sales v_city_sales
         v_rating_dist v_delivery_status v_avg_delivery v_monthly_sales
         v_dow_sales v_corr_matrix v_highest_selling v_most_profitable
         v_best_rated v_avg_delivery_time v_on_time_rate
         v_most_popular_payment fst snd].
    repeat (split; [reflexivity|]). reflexivity.
Qed.

(** ** Sales by day of week *)

Section LookupFacts.
Context {K : Type} `{KeyLaws K}.

Lemma lookup_map {V : Type} (g : K -> V) (ks : list K) (k : K) :
  lookup (map (fun k' => (k', g k')) ks) k
  = if existsb (fun k' => key_eqb k' k) ks then Some (g k) else None.
Proof.
  induction ks as [|k' ks IH]; simpl; [reflexivity|].
  destruct (key_eqb k' k) eqn:E; simpl; [|exact IH].
  apply key_eqb_eq in E. subst k'. reflexivity.
Qed.

Lemma existsb_ext_iff {A B : Type} (p : A -> bool) (q : B -> bool)
      (l : list A) (l' : list B) :
  ((exists a, In a l /\ p a = true) <-> (exists b, In b l' /\ q b = true)) ->
  existsb p l = existsb q l'.
Proof.
  intros Hiff. destruct (existsb p l) eqn:E1, (existsb q l') eqn:E2; try reflexivity.
  - apply existsb_exists, Hiff, existsb_exists in E1. congruence.
  - apply existsb_exists, Hiff, existsb_exists in E2. congruence.
Qed.

(** Looking a label up in a grouped view gives the aggregate of the
    rows with that key, or NaN when no row has it. *)
Lemma lookup_agg_groupby {R V : Type} (f : list R -> V) (key : R -> option K)
      (df : list R) (k : K) :
  lookup (agg f (groupby key df)) k
  = if existsb (fun r => key_is k (key r)) df
    then Some (f (filter (fun r => key_is k (key r)) df))
    else None.
Proof.
  unfold agg, groupby. rewrite map_map. simpl.
  rewrite (lookup_map (fun k' => f (filter (fun r => key_is k' (key r)) df))).
  rewrite (existsb_ext_iff (fun k' => key_eqb k' k) (fun r => key_is k (key r))
             _ df); [reflexivity|].
  split.
  - intros [k' [Hk' E]]. apply key_eqb_eq in E. subst k'.
    apply (Permutation_in _ (sort_perm key_leb _)) in Hk'.
    apply unique_In, present_In, in_map_iff in Hk'.
    destruct Hk' as [r [E Hr]]. exists r. split; [exact Hr|].
    rewrite E. simpl. apply key_eqb_refl.
  - intros [r [Hr E]]. exists k. split; [|apply key_eqb_refl].
    apply (Permutation_in _ (Permutation_sym (sort_perm key_leb _))).
    apply unique_In, present_In.
    unfold key_is in E. destruct (key r) as [k'|] eqn:Ek; [|discriminate].
    apply key_eqb_eq in E. subst k'. rewrite <- Ek. apply in_map, Hr.
Qed.
End LookupFacts.

(** X13. The sales by day of week always has the seven days, Monday
    to Sunday, in that order; a day's bar is the sum of the final prices of
    the filtered orders placed on that day, and NaN when there is none. *)
Theorem dow_sales_by_day (df : DataFrame) :
  dow_sales df
  = map (fun day =>
           (day,
            if existsb (on_day day) df
            then Some (sum (col Final_Price (filter (on_day day) df)))
            else None))
        ["Monday"; "Tuesday"; "Wednesday"; "Thursday"; "Friday"; "Saturday";
         "Sunday"].
Proof.
  unfold dow_sales, reindex, day_order. apply map_ext. intros day. f_equal.
  unfold sum_by. rewrite lookup_agg_groupby. reflexivity.
Qed.

(** ** Order identifiers *)

Lemma digit_val_digit_char (d : Z) :
  0 <= d < 10 -> digit_val (digit_char d) = Some d.
Proof.
  intros Hd.
  assert (d = 0 \/ d = 1 \/ d = 2 \/ d = 3 \/ d = 4 \/ d = 5 \/ d = 6 \/ d = 7
          \/ d = 8 \/ d = 9) as Hc by lia.
  repeat (destruct Hc as [-> | Hc]; [reflexivity|]). subst d. reflexivity.
Qed.

Lemma number_of_digits_acc (fuel : nat) (n : Z) (acc : string) :
  0 <= n < 2 ^ Z.of_nat fuel ->
  number_of (list_ascii_of_string (digits_acc fuel n acc)) 0
  = number_of (list_ascii_of_string acc) n.
Proof.
  revert n acc. induction fuel as [|fuel IH]; intros n acc Hn.
  - simpl in *. assert (n = 0) as -> by lia. reflexivity.
  - rewrite Nat2Z.inj_succ, Z.pow_succ_r in Hn by lia.
    cbn [digits_acc].
    pose proof (Z.mod_pos_bound n 10 ltac:(lia)) as Hmod.
    pose proof (Z.div_mod n 10 ltac:(lia)) as Hdm.
    destruct (n / 10 =? 0) eqn:E.
    + apply Z.eqb_eq in E. cbn [list_ascii_of_string number_of].
      rewrite digit_val_digit_char by exact Hmod. f_equal. lia.
    + apply Z.eqb_neq in E. rewrite IH.
      * cbn [list_ascii_of_string number_of].
        rewrite digit_val_digit_char by exact Hmod. f_equal. lia.
      * split; [apply Z.div_pos; lia|].
        apply Z.div_lt_upper_bound; lia.
Qed.

(** Reading back the decimal text of a natural number gives the number. *)
Lemma number_of_str_of_int (n : Z) :
  0 <= n -> number_of (list_ascii_of_string (str_of_int n)) 0 = Some n.
Proof.
  intros Hn. unfold str_of_int. rewrite number_of_digits_acc; [reflexivity|].
  rewrite Nat2Z.inj_succ, Z2Nat.id by apply Z.log2_nonneg.
  destruct (Z.eq_dec n 0) as [-> | Hne]; [simpl; lia|].
  pose proof (Z.log2_spec n ltac:(lia)). lia.
Qed.

Lemma str_of_int_inj (a b : Z) :
  0 <= a -> 0 <= b -> str_of_int a = str_of_int b -> a = b.
Proof.
  intros Ha Hb E. pose proof (number_of_str_of_int a Ha) as Ea.
  rewrite E, (number_of_str_of_int b Hb) in Ea. congruence.
Qed.

Lemma append_inj_l (p a b : string) : (p ++ a = p ++ b)%string -> a = b.
Proof.
  induction p as [|c p IH]; simpl; intros E; [exact E|].
  injection E as E. apply IH, E.
Qed.

Lemma nth_error_seq_map {A : Type} (f : nat -> A) (n i : nat) (a : A) :
  nth_error (map f (seq 0 n)) i = Some a -> (i < n)%nat /\ a = f i.
Proof.
  intros E.
  assert (i < n)%nat as Hi.
  { assert (i < List.length (map f (seq 0 n)))%nat as Hlt
        by (apply nth_error_Some; congruence).
    rewrite length_map, length_seq in Hlt. exact Hlt. }
  split; [exact Hi|].
  rewrite nth_error_map in E.
  rewrite (nth_error_nth' (seq 0 n) O) in E by (rewrite length_seq; exact Hi).
  rewrite seq_nth in E by exact Hi. simpl in E. congruence.
Qed.

(** X14. Asked for no record the generator raises KeyError instead
    of returning an empty table.  Asked for at least one, on draws in range,
    it returns exactly [n_records] rows; the row at index [i] has the
    identifier "ORD" followed by the decimal text of 10000 + i; and no two
    rows share an identifier. *)
Theorem order_ids_unique (n : nat) (tape : nat -> Draws) :
  (0 < n)%nat ->
  valid_tape n tape = true ->
  generate_amazon_sales_data 0 tape = Raise KeyError
  /\ exists df, generate_amazon_sales_data n tape = Ok df
    /\ List.length df = n
    /\ (forall i r, nth_error df i = Some r ->
          Order_ID r = "ORD" ++ str_of_int (10000 + Z.of_nat i))
    /\ NoDup (map (fun r : Row string => Order_ID r) df).
Proof.
  intros Hn Hv. split; [apply generate_none|]. exists (rows_of n tape).
  split; [apply generate_ok; assumption|]. split; [apply rows_of_length|]. split.
  - intros i r E. unfold rows_of in E. apply nth_error_seq_map in E.
    destruct E as [_ ->]. reflexivity.
  - unfold rows_of. rewrite map_map.
    apply NoDup_map_NoDup_ForallPairs; [|apply seq_NoDup].
    intros i j _ _ E. cbn [Order_ID base row_of record_of] in E.
    apply append_inj_l, str_of_int_inj in E; lia.
Qed.

Lemma order_ids_unique_witness :
  (0 < 2)%nat
  /\ valid_tape 2 sample_tape = true
  /\ generate_amazon_sales_data 0 sample_tape = Raise KeyError
  /\ exists df, generate_amazon_sales_data 2 sample_tape = Ok df
    /\ List.length df = 2%nat
    /\ (forall i r, nth_error df i = Some r ->
          Order_ID r = "ORD" ++ str_of_int (10000 + Z.of_nat i))
    /\ NoDup (map (fun r : Row string => Order_ID r) df).
Proof.
  split; [lia|]. split; [reflexivity|].
  apply (order_ids_unique 2 sample_tape); [lia | reflexivity].
Defined.

(** ** The fields of a generated record *)

(** X15. Every generated record takes its categorical fields from
    the generator's enumerations, its subcategory from the list of its own
    category, and its integer fields from their ranges. *)
Theorem record_fields_enumerated (n : nat) (tape : nat -> Draws) :
  (0 < n)%nat ->
  valid_tape n tape = true ->
  exists df, generate_amazon_sales_data n tape = Ok df
    /\ forall r, In r df ->
       In (Category r)
          ["Electronics"; "Clothing"; "Books"; "Home & Kitchen"; "Sports & Outdoors"]
       /\ In (Subcategory r) (subcategories_of categories (Category r))
       /\ 1 <= Quantity r <= 5
       /\ In (Discount_Percent r) [0; 5; 10; 15; 20; 25; 30]
       /\ In (Payment_Method r) payment_methods
       /\ In (Customer_Segment r) customer_segments
       /\ In (City r) cities
       /\ In (Customer_Rating r) [1; 2; 3; 4; 5]
       /\ In (Review_Length r) ["Short"; "Medium"; "Long"]
       /\ 1 <= Delivery_Days r <= 10
       /\ In (Delivery_Status r) ["On Time"; "Delayed"; "Early"]
       /\ In (Returned r) ["No"; "Yes"].
Proof.
  intros Hn Hv. exists (rows_of n tape). split; [apply generate_ok; assumption|].
  intros r Hr.
  destruct (rows_of_In_support n tape r Hv Hr) as [i [_ [-> [Hrange Hsupp]]]].
  destruct Hrange, Hsupp.
  cbn [Category Subcategory Quantity Discount_Percent Payment_Method
       Customer_Segment City Customer_Rating Review_Length Delivery_Days
       Delivery_Status Returned base row_of record_of].
  repeat split; try assumption; try lia.
Qed.

Lemma record_fields_enumerated_witness :
  (0 < 2)%nat
  /\ valid_tape 2 sample_tape = true
  /\ exists df, generate_amazon_sales_data 2 sample_tape = Ok df
    /\ forall r, In r df ->
       In (Category r)
          ["Electronics"; "Clothing"; "Books"; "Home & Kitchen"; "Sports & Outdoors"]
       /\ In (Subcategory r) (subcategories_of categories (Category r))
       /\ 1 <= Quantity r <= 5
       /\ In (Discount_Percent r) [0; 5; 10; 15; 20; 25; 30]
       /\ In (Payment_Method r) payment_methods
       /\ In (Customer_Segment r) customer_segments
       /\ In (City r) cities
       /\ In (Customer_Rating r) [1; 2; 3; 4; 5]
       /\ In (Review_Length r) ["Short"; "Medium"; "Long"]
       /\ 1 <= Delivery_Days r <= 10
       /\ In (Delivery_Status r) ["On Time"; "Delayed"; "Early"]
       /\ In (Returned r) ["No"; "Yes"].
Proof.
  split; [lia|]. split; [reflexivity|].
  apply (record_fields_enumerated 2 sample_tape); [lia | reflexivity].
Defined.

Lemma round_half_even_le (x : Q) (z : Z) :
  (x <= inject_Z z)%Q -> round_half_even x <= z.
Proof.
  intros Hz. destruct (round_half_even_near x) as [Hn _].
  apply Z.lt_succ_r. rewrite Zlt_Qlt.
  unfold Z.succ. rewrite inject_Z_plus. change (inject_Z 1) with 1%Q. lra.
Qed.

(** X16. The stored price of every generated record lies within the
    price range of the record's category, bounds included: rounding to two
    decimals cannot leave the range. *)
Theorem product_price_in_range (n : nat) (tape : nat -> Draws) :
  (0 < n)%nat ->
  valid_tape n tape = true ->
  exists df, generate_amazon_sales_data n tape = Ok df
    /\ forall r, In r df ->
       (fst (price_range (Category r)) * 100 <= inject_Z (Product_Price r))%Q
       /\ (inject_Z (Product_Price r) <= snd (price_range (Category r)) * 100)%Q.
Proof.
  intros Hn Hv. exists (rows_of n tape). split; [apply generate_ok; assumption|].
  intros r Hr.
  destruct (rows_of_In_support n tape r Hv Hr) as [i [_ [-> [Hrange Hsupp]]]].
  destruct Hrange as [Hlo _ _ _ _]. destruct Hsupp as [_ _ Hhi _ _ _ _ _ _ _ _ _].
  cbn [Category Product_Price base row_of record_of].
  revert Hlo Hhi. generalize (d_price (tape i)). intros p.
  unfold price_range, round2.
  repeat match goal with
         | |- context [if ?b then _ else _] => destruct b
         end; cbn [fst snd]; intros Hlo Hhi.
  - split.
    + assert (50000 <= round_half_even (p * 100)) as H
          by (apply round_half_even_ge; unfold inject_Z; lra).
      rewrite Zle_Qle in H. unfold inject_Z at 1 in H. lra.
    + assert (round_half_even (p * 100) <= 15000000) as H
          by (apply round_half_even_le; unfold inject_Z; lra).
      rewrite Zle_Qle in H. unfold inject_Z at 2 in H. lra.
  - split.
    + assert (20000 <= round_half_even (p * 100)) as H
          by (apply round_half_even_ge; unfold inject_Z; lra).
      rewrite Zle_Qle in H. unfold inject_Z at 1 in H. lra.
    + assert (round_half_even (p * 100) <= 500000) as H
          by (apply round_half_even_le; unfold inject_Z; lra).
      rewrite Zle_Qle in H. unfold inject_Z at 2 in H. lra.
  - split.
    + assert (10000 <= round_half_even (p * 100)) as H
          by (apply round_half_even_ge; unfold inject_Z; lra).
      rewrite Zle_Qle in H. unfold inject_Z at 1 in H. lra.
    + assert (round_half_even (p * 100) <= 200000) as H
          by (apply round_half_even_le; unfold inject_Z; lra).
      rewrite Zle_Qle in H. unfold inject_Z at 2 in H. lra.
  - split.
    + assert (30000 <= round_half_even (p * 100)) as H
          by (apply round_half_even_ge; unfold inject_Z; lra).
      rewrite Zle_Qle in H. unfold inject_Z at 1 in H. lra.
    + assert (round_half_even (p * 100) <= 3000000) as H
          by (apply round_half_even_le; unfold inject_Z; lra).
      rewrite Zle_Qle in H. unfold inject_Z at 2 in H. lra.
  - split.
    + assert (50000 <= round_half_even (p * 100)) as H
          by (apply round_half_even_ge; unfold inject_Z; lra).
      rewrite Zle_Qle in H. unfold inject_Z at 1 in H. lra.
    + assert (round_half_even (p * 100) <= 2000000) as H
          by (apply round_half_even_le; unfold inject_Z; lra).
      rewrite Zle_Qle in H. unfold inject_Z at 2 in H. lra.
Qed.

Lemma product_price_in_range_witness :
  (0 < 2)%nat
  /\ valid_tape 2 sample_tape = true
  /\ exists df, generate_amazon_sales_data 2 sample_tape = Ok df
    /\ forall r, In r df ->
       (fst (price_range (Category r)) * 100 <= inject_Z (Product_Price r))%Q
       /\ (inject_Z (Product_Price r) <= snd (price_range (Category r)) * 100)%Q.
Proof.
  split; [lia|]. split; [reflexivity|].
  apply (product_price_in_range 2 sample_tape); [lia | reflexivity].
Defined.

(** ** Discount and profit of a generated record *)

(** The stored discount against the stored final price, from the
    roundings alone. *)
Lemma discount_bounds (da fp q d : Z) (p : Q) :
  (100 <= p)%Q -> 1 <= q <= 5 -> In d [0; 5; 10; 15; 20; 25; 30] ->
  near_float da (p * inject_Z q * inject_Z d / 100 * 100)%Q ->
  near_float fp ((p * inject_Z q - p * inject_Z q * inject_Z d / 100) * 100)%Q ->
  0 <= da < fp /\ (da = 0 <-> d = 0).
Proof.
  intros Hp Hq Hd [D1 D2] [F1 F2].
  assert (100 * d - 1 < da) as Hlow.
  { apply Z_lt_of_Q. replace (100 * d - 1) with (100 * d + - (1)) by lia.
    z_to_q. revert D1 D2 F1 F2. generalize (inject_Z da) (inject_Z fp).
    intros a b. split_draws q d; q_literals; intros; lra. }
  assert (da < fp) as Hlt.
  { apply Z_lt_of_Q. revert D1 D2 F1 F2. generalize (inject_Z da) (inject_Z fp).
    intros a b. split_draws q d; q_literals; intros; lra. }
  assert (d = 0 -> da < 1) as Hzero.
  { intros ->. apply Z_lt_of_Q. revert D1 D2.
    generalize (inject_Z da). intros a. q_literals. intros. lra. }
  apply discount_cases in Hd. lia.
Qed.

(** X17. In every generated record the stored discount amount is
    at least 0 and below the stored final price, and it is 0 exactly when
    the discount percent is 0. *)
Theorem discount_amount_bounds (n : nat) (tape : nat -> Draws) :
  (0 < n)%nat ->
  valid_tape n tape = true ->
  exists df, generate_amazon_sales_data n tape = Ok df
    /\ forall r, In r df ->
       0 <= Discount_Amount r < Final_Price r
       /\ (Discount_Amount r = 0 <-> Discount_Percent r = 0).
Proof.
  intros Hn Hv. exists (rows_of n tape). split; [apply generate_ok; assumption|].
  intros r Hr.
  destruct (rows_of_In_support n tape r Hv Hr) as [i [_ [-> [Hrange Hsupp]]]].
  destruct (stored_amounts (Z.of_nat i) (tape i) Hrange Hsupp)
    as [_ [HD [HF _]]].
  destruct Hrange as [Hp Hq Hd _ _].
  change (Discount_Amount (row_of (Z.of_nat i) (tape i)))
    with (Discount_Amount (record_of (Z.of_nat i) (tape i))).
  change (Final_Price (row_of (Z.of_nat i) (tape i)))
    with (Final_Price (record_of (Z.of_nat i) (tape i))).
  change (Discount_Percent (row_of (Z.of_nat i) (tape i)))
    with (d_discount_percent (tape i)).
  apply (discount_bounds _ _ (d_quantity (tape i)) _ (d_price (tape i)));
    try assumption.
  eapply Qle_trans; [apply price_range_low | exact Hp].
Qed.

Lemma discount_amount_bounds_witness :
  (0 < 2)%nat
  /\ valid_tape 2 sample_tape = true
  /\ exists df, generate_amazon_sales_data 2 sample_tape = Ok df
    /\ forall r, In r df ->
       0 <= Discount_Amount r < Final_Price r
       /\ (Discount_Amount r = 0 <-> Discount_Percent r = 0).
Proof.
  split; [lia|]. split; [reflexivity|].
  apply (discount_amount_bounds 2 sample_tape); [lia | reflexivity].
Defined.

(** The stored profit margin against the stored final price, from the
    roundings and the range of the profit factor. *)
Lemma profit_bounds (pm fp : Z) (F f : Q) :
  (70 <= F)%Q -> (2 # 10 <= f)%Q -> (f < 4 # 10)%Q ->
  near_float fp (F * 100)%Q -> near_float pm (F * f * 100)%Q ->
  0 < pm < fp /\ fp <= 5 * pm + 3 /\ 5 * pm <= 2 * fp + 3.
Proof.
  intros HF Hlo Hhi [F1 F2] [P1 P2].
  assert ((2 # 10) * F <= F * f)%Q as G1 by nra.
  assert (F * f <= (4 # 10) * F)%Q as G2 by nra.
  revert G1 G2 P1 P2. generalize (F * f)%Q. intros G G1 G2 P1 P2.
  assert (0 < pm) as H1.
  { apply Z_lt_of_Q. revert F1 F2 P1 P2. generalize (inject_Z pm) (inject_Z fp).
    intros a b. unfold inject_Z. intros. lra. }
  assert (pm < fp) as H2.
  { apply Z_lt_of_Q. revert F1 F2 P1 P2. generalize (inject_Z pm) (inject_Z fp).
    intros a b. intros. lra. }
  assert (fp < 5 * pm + 4) as H3.
  { apply Z_lt_of_Q. z_to_q. revert F1 F2 P1 P2.
    generalize (inject_Z pm) (inject_Z fp). intros a b. unfold inject_Z. intros. lra. }
  assert (5 * pm < 2 * fp + 4) as H4.
  { apply Z_lt_of_Q. z_to_q. revert F1 F2 P1 P2.
    generalize (inject_Z pm) (inject_Z fp). intros a b. unfold inject_Z. intros. lra. }
  lia.
Qed.

(** X18. In every generated record the stored profit margin is
    positive and below the stored final price, and lies between 20 and 40
    percent of it up to rounding: five times the margin is at least the
    final price less 0.03 and at most twice the final price plus 0.03. *)
Theorem profit_margin_bounds (n : nat) (tape : nat -> Draws) :
  (0 < n)%nat ->
  valid_tape n tape = true ->
  exists df, generate_amazon_sales_data n tape = Ok df
    /\ forall r, In r df ->
       0 < Profit_Margin r < Final_Price r
       /\ Final_Price r <= 5 * Profit_Margin r + 3
       /\ 5 * Profit_Margin r <= 2 * Final_Price r + 3.
Proof.
  intros Hn Hv. exists (rows_of n tape). split; [apply generate_ok; assumption|].
  intros r Hr.
  destruct (rows_of_In_support n tape r Hv Hr) as [i [_ [-> [Hrange Hsupp]]]].
  destruct (stored_amounts (Z.of_nat i) (tape i) Hrange Hsupp)
    as [_ [_ [HF HP]]].
  pose proof (exact_final_price_low (tape i) Hrange) as H70.
  destruct Hsupp as [_ _ _ _ _ _ _ _ _ _ Hlo Hhi].
  change (Profit_Margin (row_of (Z.of_nat i) (tape i)))
    with (Profit_Margin (record_of (Z.of_nat i) (tape i))).
  change (Final_Price (row_of (Z.of_nat i) (tape i)))
    with (Final_Price (record_of (Z.of_nat i) (tape i))).
  apply (profit_bounds _ _ (exact_final_price (tape i)) (d_profit_factor (tape i)));
    try assumption.
  unfold inject_Z in H70. lra.
Qed.

Lemma profit_margin_bounds_witness :
  (0 < 2)%nat
  /\ valid_tape 2 sample_tape = true
  /\ exists df, generate_amazon_sales_data 2 sample_tape = Ok df
    /\ forall r, In r df ->
       0 < Profit_Margin r < Final_Price r
       /\ Final_Price r <= 5 * Profit_Margin r + 3
       /\ 5 * Profit_Margin r <= 2 * Final_Price r + 3.
Proof.
  split; [lia|]. split; [reflexivity|].
  apply (profit_margin_bounds 2 sample_tape); [lia | reflexivity].
Defined.

(** ** Order and delivery dates *)

(** X19. In every generated record the order date lies between
    2023-01-01 and 2024-01-01, the delivery date is strictly later, and the
    two are exactly Delivery_Days days apart. *)
Theorem order_before_delivery (n : nat) (tape : nat -> Draws) :
  (0 < n)%nat ->
  valid_tape n tape = true ->
  exists df, generate_amazon_sales_data n tape = Ok df
    /\ forall r, In r df ->
       exists order_date delivery_date,
         to_datetime (Order_Date r) = Ok order_date
         /\ to_datetime (Delivery_Date r) = Ok delivery_date
         /\ date_leb (mkdate 2023 1 1) order_date = true
         /\ date_leb order_date (mkdate 2024 1 1) = true
         /\ date_ltb order_date delivery_date = true
         /\ toordinal delivery_date - toordinal order_date = Delivery_Days r.
Proof.
  intros Hn Hv. exists (rows_of n tape). split; [apply generate_ok; assumption|].
  intros r Hr. destruct (rows_of_In n tape r Hv Hr) as [i [_ [-> Hrange]]].
  destruct (record_dates (Z.of_nat i) (tape i) Hrange) as [Ho Hd].
  destruct Hrange as [_ _ _ Hdd Hk].
  eexists. eexists. split; [exact Ho|]. split; [exact Hd|].
  pose proof (delivery_checks_range _ Hk) as Hc. unfold delivery_checks in Hc.
  rewrite !andb_true_iff, forallb_forall in Hc. destruct Hc as [[Hlo Hhi] Hlater].
  split; [exact Hlo|]. split; [exact Hhi|]. split.
  - apply Hlater. simpl. lia.
  - cbn [Delivery_Days base row_of record_of].
    rewrite add_days_add_days by lia.
    rewrite !toordinal_add_days by lia. lia.
Qed.

Lemma order_before_delivery_witness :
  (0 < 2)%nat
  /\ valid_tape 2 sample_tape = true
  /\ exists df, generate_amazon_sales_data 2 sample_tape = Ok df
    /\ forall r, In r df ->
       exists order_date delivery_date,
         to_datetime (Order_Date r) = Ok order_date
         /\ to_datetime (Delivery_Date r) = Ok delivery_date
         /\ date_leb (mkdate 2023 1 1) order_date = true
         /\ date_leb order_date (mkdate 2024 1 1) = true
         /\ date_ltb order_date delivery_date = true
         /\ toordinal delivery_date - toordinal order_date = Delivery_Days r.
Proof.
  split; [lia|]. split; [reflexivity|].
  apply (order_before_delivery 2 sample_tape); [lia | reflexivity].
Defined.

(** ** Ranges of the derived columns *)

Lemma to_datetime_valid (s : string) (d : date) :
  to_datetime s = Ok d -> valid_ymd (year d) (month d) (day d) = true.
Proof.
  unfold to_datetime.
  destruct (list_ascii_of_string s) as [|c1 [|c2 [|c3 [|c4 [|c5 [|c6 [|c7 [|c8
    [|c9 [|c10 [|c11 l]]]]]]]]]]]; try discriminate.
  destruct (Ascii.eqb c5 "-" && Ascii.eqb c8 "-"); [|discriminate].
  destruct (number_of [c1; c2; c3; c4] 0) as [y|]; [|discriminate].
  destruct (number_of [c6; c7] 0) as [m|]; [|discriminate].
  destruct (number_of [c9; c10] 0) as [dd|]; [|discriminate].
  destruct (valid_ymd y m dd) eqn:E; [|discriminate].
  intros H. injection H as <-. exact E.
Qed.

Lemma weekday_range (d : date) : 0 <= weekday d < 7.
Proof. unfold weekday. apply Z.mod_pos_bound. lia. Qed.

Lemma map_dict_day_names (w : Z) :
  0 <= w < 7 ->
  map_dict day_names w = Some (nth (Z.to_nat w) day_order "").
Proof.
  intros Hw.
  assert (w = 0 \/ w = 1 \/ w = 2 \/ w = 3 \/ w = 4 \/ w = 5 \/ w = 6) as Hc by lia.
  repeat (destruct Hc as [-> | Hc]; [reflexivity|]). subst w. reflexivity.
Qed.

(** X20. In every generated dataset the derived columns of a row
    are in range: the month is 1..12, the day of week 0..6, the quarter is
    (month - 1) div 3 + 1 and so 1..4, and the day name is never missing: it
    is the entry of Monday..Sunday at the day-of-week index. *)
Theorem derived_columns_in_range (n : nat) (tape : nat -> Draws) :
  (0 < n)%nat ->
  valid_tape n tape = true ->
  exists df, generate_amazon_sales_data n tape = Ok df
    /\ forall r, In r df ->
       1 <= Order_Month r <= 12
       /\ 0 <= Order_DayOfWeek r <= 6
       /\ Order_Quarter r = (Order_Month r - 1) / 3 + 1
       /\ 1 <= Order_Quarter r <= 4
       /\ Order_DayName r
          = Some (nth (Z.to_nat (Order_DayOfWeek r)) day_order "")
       /\ (exists name, Order_DayName r = Some name /\ In name day_order).
Proof.
  intros Hn Hv. exists (rows_of n tape).
  pose proof (generate_ok n tape Hn Hv) as Hgen. split; [exact Hgen|].
  intros r Hr. rewrite generate_mapM in Hgen by exact Hn.
  destruct (mapM_In _ _ _ r Hgen Hr) as [rec [_ Hd]].
  destruct (derive_derived_of rec r Hd) as [_ Hdo]. unfold derived_of in Hdo.
  destruct (to_datetime (Order_Date rec)) as [dt|e] eqn:Edt; cbn [bind] in Hdo;
    [|discriminate].
  assert ((month dt, weekday dt, quarter dt, map_dict day_names (weekday dt))
          = derived_columns r) as Hc by congruence.
  unfold derived_columns in Hc.
  pose proof (f_equal (fun x => fst (fst (fst x))) Hc) as E1.
  pose proof (f_equal (fun x => snd (fst (fst x))) Hc) as E2.
  pose proof (f_equal (fun x => snd (fst x)) Hc) as E3.
  pose proof (f_equal snd Hc) as E4.
  cbn [fst snd] in E1, E2, E3, E4.
  rewrite <- E1, <- E2, <- E3, <- E4.
  apply to_datetime_valid in Edt. unfold valid_ymd in Edt.
  rewrite !andb_true_iff, !Z.leb_le in Edt.
  pose proof (weekday_range dt) as Hw.
  assert (1 <= month dt <= 12) as Hm by lia.
  split; [exact Hm|]. split; [lia|]. split; [reflexivity|]. split.
  - unfold quarter.
    pose proof (Z.div_pos (month dt - 1) 3 ltac:(lia) ltac:(lia)).
    assert ((month dt - 1) / 3 < 4) by (apply Z.div_lt_upper_bound; lia). lia.
  - rewrite (map_dict_day_names _ Hw). split; [reflexivity|].
    eexists. split; [reflexivity|].
    apply nth_In. change (List.length day_order) with 7%nat. lia.
Qed.

Lemma derived_columns_in_range_witness :
  (0 < 2)%nat
  /\ valid_tape 2 sample_tape = true
  /\ exists df, generate_amazon_sales_data 2 sample_tape = Ok df
    /\ forall r, In r df ->
       1 <= Order_Month r <= 12
       /\ 0 <= Order_DayOfWeek r <= 6
       /\ Order_Quarter r = (Order_Month r - 1) / 3 + 1
       /\ 1 <= Order_Quarter r <= 4
       /\ Order_DayName r
          = Some (nth (Z.to_nat (Order_DayOfWeek r)) day_order "")
       /\ (exists name, Order_DayName r = Some name /\ In name day_order).
Proof.
  split; [lia|]. split; [reflexivity|].
  apply (derived_columns_in_range 2 sample_tape); [lia | reflexivity].
Defined.

(** ** From the generator to the dashboard *)

Lemma Forall2_map_same {A B C : Type} (P : B -> C -> Prop) (f : A -> B)
      (g : A -> C) (l : list A) :
  (forall a, In a l -> P (f a) (g a)) -> Forall2 P (map f l) (map g l).
Proof.
  induction l as [|a l IH]; simpl; intros HP; constructor.
  - apply HP. left. reflexivity.
  - apply IH. intros; apply HP; right; assumption.
Qed.

(** X21. What the generator returns, [load_data] loads without an
    exception: one loaded row per generated row, in order, whose two dates
    print back to the generated text and whose other columns are
    unchanged. *)
Theorem load_generated (n : nat) (tape : nat -> Draws) :
  (0 < n)%nat ->
  valid_tape n tape = true ->
  exists df loaded,
    generate_amazon_sales_data n tape = Ok df
    /\ load_data (Some df) = Ok (Some loaded)
    /\ List.length loaded = n
    /\ Forall2 carries df loaded.
Proof.
  intros Hn Hv. exists (rows_of n tape).
  exists (map (fun i => loaded_row_of (Z.of_nat i) (tape i)) (seq 0 n)).
  split; [apply generate_ok; assumption|]. split; [apply load_rows_of, Hv|].
  split; [rewrite length_map, length_seq; reflexivity|].
  unfold rows_of. apply Forall2_map_same. intros i _.
  unfold carries, derived_columns.
  cbn [Order_ID Order_Date Delivery_Date Category Subcategory Product_Price
       Quantity Discount_Percent Discount_Amount Final_Price Payment_Method
       Customer_Segment City Customer_Rating Review_Length Delivery_Days
       Delivery_Status Returned Profit_Margin base Order_Month
       Order_DayOfWeek Order_Quarter Order_DayName loaded_row_of row_of
       record_of].
  repeat (split; [exact eq_refl|]). exact eq_refl.
Qed.

Lemma load_generated_witness :
  (0 < 2)%nat
  /\ valid_tape 2 sample_tape = true
  /\ exists df loaded,
    generate_amazon_sales_data 2 sample_tape = Ok df
    /\ load_data (Some df) = Ok (Some loaded)
    /\ List.length loaded = 2%nat
    /\ Forall2 carries df loaded.
Proof.
  split; [lia|]. split; [reflexivity|].
  apply (load_generated 2 sample_tape); [lia | reflexivity].
Defined.

(** ** Where the correlation matrix is NaN, and its range *)

Module CorrBounds.
Local Open Scope R_scope.

Lemma ssqdm_zero_constant (l : list R) : ssqdm l = 0 -> ~ varies l.
Proof. intros E Hv. apply (varies_ssqdm l Hv), E. Qed.

(** A coefficient is NaN exactly when one of its two columns takes no
    two distinct values. *)
Lemma pearson_nan_iff (xs ys : list R) :
  List.length xs = List.length ys ->
  (pearson xs ys = None <-> ~ varies xs \/ ~ varies ys).
Proof.
  intros Hlen. unfold pearson. split.
  - destruct (List.length xs <? 1)%nat eqn:E.
    + intros _. left. apply Nat.ltb_lt in E.
      destruct xs; [|simpl in E; lia].
      intros [x [y [[] _]]].
    + destruct (Req_dec_T (sqrt (ssqdm xs * ssqdm ys)) 0) as [Hz | Hnz];
        [|discriminate].
      intros _. apply sqrt_eq_0 in Hz.
      * apply Rmult_integral in Hz.
        destruct Hz as [Hz | Hz]; [left | right]; apply ssqdm_zero_constant, Hz.
      * apply Rmult_le_pos; apply ssqdm_nonneg.
  - intros Hc. destruct (List.length xs <? 1)%nat; [reflexivity|].
    assert (ssqdm xs * ssqdm ys = 0) as Hz.
    { destruct Hc as [Hc | Hc]; rewrite (constant_ssqdm _ Hc); ring. }
    rewrite Hz, sqrt_0.
    destruct (Req_dec_T 0 0) as [_ | Hne]; [reflexivity | contradiction].
Qed.

Section CauchySchwarz.
Context {A : Type} (f g : A -> R).

Lemma rsum_sq_nonneg' (h : A -> R) (l : list A) :
  0 <= rsum (map (fun p => h p * h p) l).
Proof.
  induction l as [|a l IH]; simpl; [lra|].
  pose proof (Rle_0_sqr (h a)) as Ha. unfold Rsqr in Ha. lra.
Qed.

Lemma cauchy_schwarz (l : list A) :
  rsum (map (fun p => f p * g p) l) * rsum (map (fun p => f p * g p) l)
  <= rsum (map (fun p => f p * f p) l) * rsum (map (fun p => g p * g p) l).
Proof.
  induction l as [|p l IH]; simpl; [lra|].
  pose proof (rsum_sq_nonneg' f l) as HA.
  pose proof (rsum_sq_nonneg' g l) as HB.
  set (a := f p) in *. set (b := g p) in *.
  set (SA := rsum (map (fun p => f p * f p) l)) in *.
  set (SB := rsum (map (fun p => g p * g p) l)) in *.
  set (SC := rsum (map (fun p => f p * g p) l)) in *.
  assert (0 <= SA * (b * b) + SB * (a * a)) as HX.
  { pose proof (Rle_0_sqr a) as Ha. pose proof (Rle_0_sqr b) as Hb.
    unfold Rsqr in *. nra. }
  assert ((2 * SC * a * b) * (2 * SC * a * b)
          <= (SA * (b * b) + SB * (a * a)) * (SA * (b * b) + SB * (a * a))) as HY.
  { assert (0 <= (SA * (b * b) - SB * (a * a)) * (SA * (b * b) - SB * (a * a)))
      as H1 by (pose proof (Rle_0_sqr (SA * (b * b) - SB * (a * a))) as H;
                unfold Rsqr in H; exact H).
    assert (0 <= (a * b) * (a * b)) as H2
        by (pose proof (Rle_0_sqr (a * b)) as H; unfold Rsqr in H; exact H).
    assert (0 <= (SA * SB - SC * SC) * ((a * b) * (a * b))) as H3
        by (apply Rmult_le_pos; lra).
    nra. }
  assert (2 * SC * a * b <= SA * (b * b) + SB * (a * a)) as HZ.
  { destruct (Rle_lt_dec (2 * SC * a * b) (SA * (b * b) + SB * (a * a)))
      as [Hle | Hgt]; [exact Hle|].
    exfalso. nra. }
  nra.
Qed.
End CauchySchwarz.

Lemma combine_fst (xs ys : list R) :
  List.length xs = List.length ys -> map fst (combine xs ys) = xs.
Proof.
  revert ys. induction xs as [|x xs IH]; intros [|y ys] E; simpl in *;
    try reflexivity; try discriminate.
  f_equal. apply IH. lia.
Qed.

Lemma combine_snd (xs ys : list R) :
  List.length xs = List.length ys -> map snd (combine xs ys) = ys.
Proof.
  revert ys. induction xs as [|x xs IH]; intros [|y ys] E; simpl in *;
    try reflexivity; try discriminate.
  f_equal. apply IH. lia.
Qed.

Lemma covxy_sq_le (xs ys : list R) :
  List.length xs = List.length ys ->
  covxy xs ys * covxy xs ys <= ssqdm xs * ssqdm ys.
Proof.
  intros E.
  assert (ssqdm xs
          = rsum (map (fun p : R * R => (fst p - rmean xs) * (fst p - rmean xs))
                      (combine xs ys))) as Hx.
  { unfold ssqdm.
    rewrite <- (map_map fst (fun x => (x - rmean xs) * (x - rmean xs)) (combine xs ys)).
    rewrite (combine_fst xs ys E). reflexivity. }
  assert (ssqdm ys
          = rsum (map (fun p : R * R => (snd p - rmean ys) * (snd p - rmean ys))
                      (combine xs ys))) as Hy.
  { unfold ssqdm.
    rewrite <- (map_map snd (fun y => (y - rmean ys) * (y - rmean ys)) (combine xs ys)).
    rewrite (combine_snd xs ys E). reflexivity. }
  rewrite Hx, Hy. unfold covxy.
  apply (cauchy_schwarz (fun p : R * R => fst p - rmean xs)
                        (fun p : R * R => snd p - rmean ys)).
Qed.

(** A coefficient that is a number lies between -1 and 1. *)
Lemma pearson_range (xs ys : list R) (c : R) :
  List.length xs = List.length ys ->
  pearson xs ys = Some c -> -1 <= c <= 1.
Proof.
  intros E. unfold pearson.
  destruct (List.length xs <? 1)%nat; [discriminate|].
  destruct (Req_dec_T (sqrt (ssqdm xs * ssqdm ys)) 0) as [Hz | Hnz]; [discriminate|].
  intros H. injection H as <-.
  pose proof (covxy_sq_le xs ys E) as Hcs.
  pose proof (sqrt_pos (ssqdm xs * ssqdm ys)) as Hpos.
  assert (0 <= ssqdm xs * ssqdm ys) as Hnn
      by (apply Rmult_le_pos; apply ssqdm_nonneg).
  pose proof (sqrt_sqrt _ Hnn) as Hss.
  set (d := sqrt (ssqdm xs * ssqdm ys)) in *.
  set (v := covxy xs ys) in *.
  assert (0 < d) as Hd by lra.
  assert (- d <= v <= d) as Hv by (split; nra).
  split.
  - apply Rmult_le_reg_r with d; [exact Hd|]. unfold Rdiv.
    rewrite Rmult_assoc, Rinv_l by lra. lra.
  - apply Rmult_le_reg_r with d; [exact Hd|]. unfold Rdiv.
    rewrite Rmult_assoc, Rinv_l by lra. lra.
Qed.

End CorrBounds.

(** X22. An entry of the correlation matrix is NaN exactly when one
    of its two fields takes no two distinct values in the filtered set; so
    on an empty or one-row set every entry is NaN. *)
Theorem corr_matrix_nan_iff (df : DataFrame) (i j : nat) :
  (i < 7)%nat -> (j < 7)%nat ->
  (entry (corr_matrix df) i j = None
   <-> ~ varies (column i df) \/ ~ varies (column j df))
  /\ ((List.length df <= 1)%nat -> entry (corr_matrix df) i j = None).
Proof.
  intros Hi Hj. rewrite entry_corr_matrix by assumption.
  assert (List.length (column i df) = List.length (column j df)) as Hlen
      by (rewrite !column_length; reflexivity).
  split; [apply CorrBounds.pearson_nan_iff, Hlen|].
  intros Hn. apply CorrBounds.pearson_nan_iff; [exact Hlen|]. left.
  intros [x [y [Hx [Hy Hne]]]]. apply Hne.
  pose proof (column_length i df) as Hl.
  destruct (column i df) as [|a [|b l]]; simpl in Hl, Hx, Hy.
  - contradiction.
  - destruct Hx as [<- | []], Hy as [<- | []]. reflexivity.
  - lia.
Qed.

Lemma corr_matrix_nan_iff_witness :
  (entry (corr_matrix single_row_frame) 1 2 = None
   <-> ~ varies (column 1 single_row_frame) \/ ~ varies (column 2 single_row_frame))
  /\ entry (corr_matrix single_row_frame) 1 2 = None.
Proof.
  destruct (corr_matrix_nan_iff single_row_frame 1 2) as [Hiff Hnan]; [lia | lia |].
  split; [exact Hiff|]. apply Hnan. simpl. lia.
Defined.

(** X23. Every entry of the correlation matrix that is a number lies
    between -1 and 1 (coefficients as exact reals). *)
Theorem corr_matrix_range (df : DataFrame) (i j : nat) (c : R) :
  (i < 7)%nat -> (j < 7)%nat ->
  entry (corr_matrix df) i j = Some c -> (-1 <= c <= 1)%R.
Proof.
  intros Hi Hj. rewrite entry_corr_matrix by assumption.
  apply CorrBounds.pearson_range. rewrite !column_length. reflexivity.
Qed.

Lemma corr_matrix_range_witness :
  entry (corr_matrix sample_frame) 0 0 = Some 1%R /\ (-1 <= 1 <= 1)%R.
Proof.
  assert (entry (corr_matrix sample_frame) 0 0 = Some 1%R) as E.
  { rewrite entry_corr_matrix by lia. apply pearson_diag_varies.
    exists (money 10000), (money 1234567).
    split; [left; reflexivity|]. split; [right; left; reflexivity|].
    unfold money. lra. }
  split; [exact E|].
  apply (corr_matrix_range sample_frame 0 0 1%R); [lia | lia | exact E].
Defined.

(** ** Loading: a missing file, a malformed date *)

Lemma to_datetime_raises (s : string) (e : exn) :
  to_datetime s = Raise e -> e = ValueError.
Proof.
  unfold to_datetime.
  repeat match goal with
         | |- context [match ?x with _ => _ end] => destruct x
         end; intros H; try discriminate; injection H as <-; reflexivity.
Qed.

Lemma convert_dates_raises (r : Row string) (e : exn) :
  convert_dates r = Raise e -> e = ValueError.
Proof.
  unfold convert_dates.
  destruct (to_datetime (Order_Date r)) as [od|e1] eqn:E1; cbn [bind].
  - destruct (to_datetime (Delivery_Date r)) as [dd|e2] eqn:E2; cbn [bind].
    + discriminate.
    + intros H. injection H as <-. apply (to_datetime_raises _ _ E2).
  - intros H. injection H as <-. apply (to_datetime_raises _ _ E1).
Qed.

Lemma mapM_raises {A B : Type} (f : A -> result B) (l : list A) :
  (exists a e, In a l /\ f a = Raise e) ->
  exists a e, In a l /\ f a = Raise e /\ mapM f l = Raise e.
Proof.
  induction l as [|a l IH]; intros [a0 [e0 [Hin E0]]]; [contradiction|].
  simpl. destruct (f a) as [b|e] eqn:Ea; cbn [bind].
  - destruct Hin as [<- | Hin]; [congruence|].
    destruct (IH (ex_intro _ a0 (ex_intro _ e0 (conj Hin E0)))) as [a1 [e1 [H1 [H2 H3]]]].
    exists a1, e1. split; [right; exact H1|]. split; [exact H2|].
    rewrite H3. reflexivity.
  - exists a, e. split; [left; reflexivity|]. split; [exact Ea | reflexivity].
Qed.

(** With a value in the cache the file is not looked at. *)
Lemma session_cached (loaded : option DataFrame)
      (runs : list (option (list (Row string)) * FilterSpec)) :
  session (Some loaded) runs
  = map (fun run =>
           match loaded with
           | Some df => v <- dashboard df (snd run) ;; Ok (Dashboard v)
           | None => Ok DataNotFound
           end) runs.
Proof.
  induction runs as [|[file f] later IH]; [reflexivity|].
  cbn [session app_cached load_data_cached map snd bind].
  rewrite IH. reflexivity.
Qed.

(** X24. The file is read once per server process.  In a fresh
    process the "data not found" page is shown exactly when the file is
    absent.  Once a run has found no file, that and every later run show
    "data not found", whatever the file is by then; once a run has loaded a
    frame, that and every later run show the dashboard of that frame for
    the selection of the run, whatever the file is by then. *)
Theorem file_read_once (f : FilterSpec)
        (later : list (option (list (Row string)) * FilterSpec)) :
  (forall file, fst (app_cached None file f) = app file f)
  /\ (forall file, app file f = Ok DataNotFound <-> file = None)
  /\ session None ((None, f) :: later)
     = map (fun _ => Ok DataNotFound) ((None, f) :: later)
  /\ (forall rows df,
        load_data (Some rows) = Ok (Some df) ->
        session None ((Some rows, f) :: later)
        = map (fun run => v <- dashboard df (snd run) ;; Ok (Dashboard v))
              ((Some rows, f) :: later)).
Proof.
  split; [|split; [|split]].
  - intros file. unfold app_cached, load_data_cached, app.
    destruct (load_data file) as [loaded|e]; reflexivity.
  - intros file. split.
    + destruct file as [rows|]; [|reflexivity].
      unfold app, load_data.
      destruct (mapM convert_dates rows) as [df|e]; cbn [bind]; [|discriminate].
      destruct (dashboard df f); cbn [bind]; discriminate.
    + intros ->. reflexivity.
  - cbn [session app_cached load_data_cached load_data bind map].
    rewrite session_cached. reflexivity.
  - intros rows df E. cbn [session]. unfold app_cached, load_data_cached.
    rewrite E. cbn [bind map snd]. rewrite session_cached. reflexivity.
Qed.

(** A text of the generator's form whose day the month does not have
    is no date. *)
Lemma day_out_of_range_raises (s : string) :
  day_out_of_range s = true -> to_datetime s = Raise ValueError.
Proof.
  unfold day_out_of_range, to_datetime.
  destruct (list_ascii_of_string s) as [|y1 [|y2 [|y3 [|y4 [|s1 [|m1 [|m2 [|s2
    [|d1 [|d2 [|x rest]]]]]]]]]]]; try discriminate.
  destruct (Ascii.eqb s1 "-" && Ascii.eqb s2 "-"); [|discriminate].
  cbn [andb].
  destruct (number_of [y1; y2; y3; y4] 0) as [y|]; [|discriminate].
  destruct (number_of [m1; m2] 0) as [m|]; [|discriminate].
  destruct (number_of [d1; d2] 0) as [d|]; [|discriminate].
  rewrite !andb_true_iff, Z.ltb_lt. intros [[[[_ _] _] Hd] _].
  unfold valid_ymd.
  replace (d <=? days_in_month y m) with false
    by (symmetry; apply Z.leb_gt; exact Hd).
  rewrite andb_false_r. reflexivity.
Qed.

(** X26. When the file is there but the order or delivery date of
    some row names a day its month does not have (2023-02-30), the
    conversion raises ValueError and the exception is not caught (only
    FileNotFoundError is): [load_data] and the page run end in
    ValueError. *)
Theorem malformed_date_raises (rows : list (Row string)) (r : Row string)
        (f : FilterSpec) :
  In r rows ->
  day_out_of_range (Order_Date r) = true
  \/ day_out_of_range (Delivery_Date r) = true ->
  load_data (Some rows) = Raise ValueError /\ app (Some rows) f = Raise ValueError.
Proof.
  intros Hr Hraise.
  assert (exists e', convert_dates r = Raise e') as [e' He'].
  { unfold convert_dates. destruct Hraise as [E | E];
      apply day_out_of_range_raises in E.
    - rewrite E. cbn [bind]. eauto.
    - destruct (to_datetime (Order_Date r)); cbn [bind]; [|eauto].
      rewrite E. cbn [bind]. eauto. }
  destruct (mapM_raises convert_dates rows
              (ex_intro _ r (ex_intro _ e' (conj Hr He'))))
    as [a [e1 [_ [Ha Hm]]]].
  apply convert_dates_raises in Ha. subst e1.
  unfold app, load_data. rewrite Hm. cbn [bind]. split; reflexivity.
Qed.

Lemma malformed_date_raises_witness :
  load_data (Some (sample_file ++ [bad_row])%list) = Raise ValueError
  /\ app (Some (sample_file ++ [bad_row])%list) inverted_range = Raise ValueError.
Proof.
  apply (malformed_date_raises (sample_file ++ [bad_row])%list bad_row).
  - apply in_or_app. right. left. reflexivity.
  - left. reflexivity.
Defined.

(** ** The ten largest *)

Lemma Z_ge_trans_snd {K : Type} :
  Relations_1.Transitive (fun a b : K * Z => snd b <= snd a).
Proof. intros a b c H1 H2. lia. Qed.

Lemma StronglySorted_app_le {A : Type} (P : A -> A -> Prop) (l1 l2 : list A) :
  StronglySorted P (l1 ++ l2) ->
  forall a b, In a l1 -> In b l2 -> P a b.
Proof.
  induction l1 as [|x l1 IH]; simpl; intros Hs a b Ha Hb; [contradiction|].
  inversion Hs as [|? ? Hs' Hall]; subst.
  destruct Ha as [<- | Ha].
  - rewrite Forall_forall in Hall. apply Hall. apply in_or_app. right. exact Hb.
  - apply (IH Hs' a b Ha Hb).
Qed.

(** What [nlargest] keeps is no smaller than what it leaves out. *)
Lemma nlargest_largest {K : Type} (n : nat) (s : Series K Z) :
  exists rest,
    Permutation (nlargest Z.leb n s ++ rest) s
    /\ forall a b, In a (nlargest Z.leb n s) -> In b rest -> snd b <= snd a.
Proof.
  exists (skipn n (sort (fun a b => Z.leb (snd b) (snd a)) s)).
  unfold nlargest. split.
  - rewrite firstn_skipn. apply sort_perm.
  - apply StronglySorted_app_le. rewrite firstn_skipn.
    apply Sorted_StronglySorted; [apply Z_ge_trans_snd|].
    apply descending_by_value.
Qed.

(** X25. The Top 10 Subcategories and Top 10 Cities views keep the
    largest totals: whatever they leave out of the per-subcategory or
    per-city sales is no larger than any bar they show. *)
Theorem top10_are_largest (df : DataFrame) :
  (exists rest,
      Permutation (top_products df ++ rest)
                  (sum_by (notna (fun r : Row date => Subcategory r)) Final_Price df)
      /\ forall a b, In a (top_products df) -> In b rest -> snd b <= snd a)
  /\ (exists rest,
         Permutation (city_sales df ++ rest)
                     (sum_by (notna (fun r : Row date => City r)) Final_Price df)
         /\ forall a b, In a (city_sales df) -> In b rest -> snd b <= snd a).
Proof.
  split; apply nlargest_largest.
Qed.
